(** * Clinker supply-chain backend: dataset parser, route-validity index
      and per-route balance-and-cost calculator

    A shallow embedding of [backend/data_parser.py], [backend/optimizer.py]
    and the route operations of [backend/api.py].

    Conventions of the embedding.
    - A pandas [DataFrame] is a list of column names and a list of rows, a
      row being a list of cells aligned with the column names.
    - A cell is a number, a text or NaN (pandas' marker of a missing value).
    - The numbers of the tables and of [Optimizer] are exact rationals
      ([Q]): additions, products, comparisons and [math.ceil] are the exact
      ones. This reading serves the statements that hold alike on Python's
      floats. [Binary64] reads the calculator on Python's own numbers,
      binary64 floats and integers of any size, with rounding, infinities,
      NaN and the exceptions of the conversions; the statements that depend
      on rounding are made there.
    - Python exceptions are values of [exn]; code that may raise returns a
      [result].
    - Texts are strings of 8-bit characters; case mapping and white space
      follow Python's [str] methods on ASCII texts ([is_ascii]), the texts
      of the schema. *)

From Stdlib Require Import List String Ascii Bool ZArith QArith Qround Qabs Lqa Lia.
From Stdlib Require PrimFloat SpecFloat FloatOps.
Import ListNotations.

Local Open Scope string_scope.
Local Open Scope Z_scope.
Local Open Scope Q_scope.

(** ** Exceptions *)

Inductive exn : Type :=
| KeyError (key : string)
| TypeError
| ValueError
| OverflowError.

Inductive result (A : Type) : Type :=
| Ok (a : A)
| Raise (e : exn).

Arguments Ok {A} a.
Arguments Raise {A} e.

Definition bind {A B : Type} (m : result A) (k : A -> result B) : result B :=
  match m with
  | Ok a => k a
  | Raise e => Raise e
  end.

Declare Scope result_scope.
Delimit Scope result_scope with result.
Notation "'do' x <- m ; k" := (bind m (fun x => k))
  (at level 10, x name, m at level 100, k at level 200) : result_scope.
Local Open Scope result_scope.

(** ** Numbers *)

Definition Qltb (x y : Q) : bool := negb (Qle_bool y x).

(** Python's [max(0, x)]: the first argument is kept unless the second is
    strictly larger. *)
Definition max0 (x : Q) : Q := if Qltb 0 x then x else 0.

(** Python's [round(x, ndigits)] on a float, read on exact values: to the
    nearest multiple of [10^-ndigits], a tie going to the even one. *)
Definition py_round (x : Q) (ndigits : nat) : Q :=
  let scale := inject_Z (10 ^ Z.of_nat ndigits) in
  let y := x * scale in
  let f := Qfloor y in
  let r := y - inject_Z f in
  let n := if Qltb r (1 # 2) then f
           else if Qltb (1 # 2) r then (f + 1)%Z
           else if Z.even f then f else (f + 1)%Z in
  inject_Z n / scale.

(** ** Texts *)

Definition ascii_upper (c : ascii) : ascii :=
  let n := nat_of_ascii c in
  if (97 <=? n)%nat && (n <=? 122)%nat then ascii_of_nat (n - 32) else c.

Definition ascii_lower (c : ascii) : ascii :=
  let n := nat_of_ascii c in
  if (65 <=? n)%nat && (n <=? 90)%nat then ascii_of_nat (n + 32) else c.

Fixpoint upper (s : string) : string :=
  match s with
  | EmptyString => EmptyString
  | String c s' => String (ascii_upper c) (upper s')
  end.

Fixpoint lower (s : string) : string :=
  match s with
  | EmptyString => EmptyString
  | String c s' => String (ascii_lower c) (lower s')
  end.

(** White space of [str.strip()]: tab, line feed, vertical tab, form feed,
    carriage return, the four separators 28..31 and the space. *)
Definition is_space (c : ascii) : bool :=
  let n := nat_of_ascii c in
  ((9 <=? n)%nat && (n <=? 13)%nat) || ((28 <=? n)%nat && (n <=? 32)%nat).

Fixpoint lstrip (s : string) : string :=
  match s with
  | EmptyString => EmptyString
  | String c s' => if is_space c then lstrip s' else s
  end.

Fixpoint rstrip (s : string) : string :=
  match s with
  | EmptyString => EmptyString
  | String c s' =>
      match rstrip s' with
      | EmptyString => if is_space c then EmptyString else String c EmptyString
      | t => String c t
      end
  end.

Definition strip (s : string) : string := rstrip (lstrip s).

Fixpoint drop (n : nat) (s : string) : string :=
  match n, s with
  | O, _ => s
  | S n', String _ s' => drop n' s'
  | S _, EmptyString => EmptyString
  end.

(** [s.replace(pat, '')] for a non-empty [pat]: every occurrence met from the
    left is removed. *)
Fixpoint remove_fuel (fuel : nat) (pat s : string) : string :=
  match fuel with
  | O => s
  | S fuel' =>
      match s with
      | EmptyString => EmptyString
      | String c s' =>
          if String.prefix pat s
          then remove_fuel fuel' pat (drop (String.length pat) s)
          else String c (remove_fuel fuel' pat s')
      end
  end.

Definition remove_all (pat s : string) : string :=
  remove_fuel (S (String.length s)) pat s.

Definition join (sep : string) (l : list string) : string := String.concat sep l.

(** The text holds ASCII characters only; on such a text the functions
    above are Python's. *)
Definition is_ascii (s : string) : bool :=
  forallb (fun c => (nat_of_ascii c <? 128)%nat) (list_ascii_of_string s).

(** ** Cells and data frames *)

Inductive cell : Type :=
| CNum (q : Q)
| CStr (s : string)
| CNaN.

(** [a == b] on two Python values held in cells; NaN equals nothing. *)
Definition cell_eqb (a b : cell) : bool :=
  match a, b with
  | CNum x, CNum y => Qeq_bool x y
  | CStr s, CStr t => String.eqb s t
  | _, _ => false
  end.

(** Equality used by [unique()], which keeps one NaN. *)
Definition cell_same (a b : cell) : bool :=
  match a, b with
  | CNaN, CNaN => true
  | _, _ => cell_eqb a b
  end.

Definition isna (c : cell) : bool :=
  match c with
  | CNaN => true
  | _ => false
  end.

(** [x in l] for a Python list [l]. *)
Definition cell_in (x : cell) (l : list cell) : bool := existsb (cell_eqb x) l.

Fixpoint unique_acc (seen l : list cell) : list cell :=
  match l with
  | [] => []
  | c :: l' =>
      if existsb (cell_same c) seen then unique_acc seen l'
      else c :: unique_acc (c :: seen) l'
  end.

(** [Series.unique().tolist()]: first occurrences, in order. *)
Definition unique (l : list cell) : list cell := unique_acc [] l.

Definition row : Type := list cell.

Record DataFrame : Type := mkDataFrame {
  columns : list string;
  rows : list row
}.

Definition has_column (df : DataFrame) (c : string) : bool :=
  existsb (String.eqb c) (columns df).

Fixpoint index_of (c : string) (l : list string) : option nat :=
  match l with
  | [] => None
  | x :: l' =>
      if String.eqb c x then Some O
      else option_map S (index_of c l')
  end.

Definition cell_at (i : nat) (r : row) : cell := nth i r CNaN.

(** [df[c]]: the column as a list of cells, [KeyError] when there is no
    such column. *)
Definition getcol (df : DataFrame) (c : string) : result (list cell) :=
  match index_of c (columns df) with
  | Some i => Ok (map (cell_at i) (rows df))
  | None => Raise (KeyError c)
  end.

(** [row[c]] for a row of [df]. *)
Definition row_get (df : DataFrame) (r : row) (c : string) : result cell :=
  match index_of c (columns df) with
  | Some i => Ok (cell_at i r)
  | None => Raise (KeyError c)
  end.

(** [df[c] == v]: a boolean mask. *)
Definition mask_eq (df : DataFrame) (c : string) (v : cell) : result (list bool) :=
  do col <- getcol df c;
  Ok (map (fun x => cell_eqb x v) col).

Fixpoint mask_and (m1 m2 : list bool) : list bool :=
  match m1, m2 with
  | b1 :: m1', b2 :: m2' => (b1 && b2) :: mask_and m1' m2'
  | _, _ => []
  end.

Fixpoint select_rows (rs : list row) (m : list bool) : list row :=
  match rs, m with
  | r :: rs', b :: m' => if b then r :: select_rows rs' m' else select_rows rs' m'
  | _, _ => []
  end.

(** [df[mask]]. *)
Definition select (df : DataFrame) (m : list bool) : DataFrame :=
  mkDataFrame (columns df) (select_rows (rows df) m).

(** [df.empty], for a frame that has columns. *)
Definition empty (df : DataFrame) : bool :=
  match rows df with
  | [] => true
  | _ => false
  end.

(** A dictionary with text keys, in insertion order. *)
Definition dict (A : Type) : Type := list (string * A).

Fixpoint dict_get {A : Type} (d : dict A) (k : string) : option A :=
  match d with
  | [] => None
  | (k', v) :: d' => if String.eqb k k' then Some v else dict_get d' k
  end.

Definition dict_mem {A : Type} (d : dict A) (k : string) : bool :=
  match dict_get d k with
  | Some _ => true
  | None => false
  end.

Fixpoint dict_set {A : Type} (d : dict A) (k : string) (v : A) : dict A :=
  match d with
  | [] => [(k, v)]
  | (k', v') :: d' =>
      if String.eqb k k' then (k', v) :: d' else (k', v') :: dict_set d' k v
  end.

Definition dict_keys {A : Type} (d : dict A) : list string := map fst d.

(** * optimizer.py *)

Module Optimizer.

(** A field of a route: a number, or a text; the text ["N/A"] marks a value
    the dataset does not give. *)
Inductive value : Type :=
| VNum (q : Q)
| VStr (s : string).

Definition NOT_AVAILABLE : value := VStr "N/A".

Definition value_eqb (a b : value) : bool :=
  match a, b with
  | VNum x, VNum y => Qeq_bool x y
  | VStr s, VStr t => String.eqb s t
  | _, _ => false
  end.

(** [isinstance(v, (int, float))]. *)
Definition is_number (v : value) : bool :=
  match v with
  | VNum _ => true
  | VStr _ => false
  end.

Record mode_entry : Type := mkMode {
  me_name : string;
  me_capacity : Z
}.

(** Transport mode capacities (tons per trip). *)
Definition TRANSPORT_MODES : dict mode_entry :=
  [ ("T1", mkMode "Road" 30);
    ("T2", mkMode "Rail" 3000) ].

(** Holding cost rate (share of the production cost per period). *)
Definition HOLDING_COST_RATE : Q := 1 # 100.

Record constraint_entry : Type := mkConstraint {
  bound_type : cell;
  value_type : cell;
  cvalue : Q;
  transport_code : cell;
  target_iugu : cell
}.

Record RouteData : Type := mkRouteData {
  source : string;
  destination : string;
  mode : string;
  period : Z;
  freight_cost : value;
  handling_cost : value;
  quantity_multiplier : value;
  production_cost : value;
  source_capacity : value;
  source_demand : value;
  destination_demand : value;
  min_fulfillment_pct : value;
  source_opening_stock : value;
  destination_opening_stock : value;
  source_closing_min : value;
  source_closing_max : value;
  destination_closing_min : value;
  destination_closing_max : value;
  source_type : value;
  destination_type : value;
  source_num_sources : value;
  destination_num_sources : value;
  constraints : list constraint_entry;
  total_logistics_cost : value;
  total_delivered_cost : value;
  trips_required : Z;
  total_transport_cost : Q;
  stock_gap_source : Q;
  stock_gap_destination : Q;
  can_fulfill_demand : bool
}.

Record state : Type := mkState {
  data : dict DataFrame;
  is_loaded : bool
}.

(** [ClinkerOptimizer.__init__]. *)
Definition init : state := mkState [] false.

Definition numeric_mappings : dict (list string) :=
  [ ("Logistics", ["FREIGHT COST"; "HANDLING COST"; "QUANTITY MULTIPLIER"; "TIME PERIOD"]);
    ("Capacity", ["CAPACITY"; "TIME PERIOD"]);
    ("Demand", ["DEMAND"; "TIME PERIOD"; "MIN FULFILLMENT (%)"]);
    ("ProductionCost", ["PRODUCTION COST"; "TIME PERIOD"]);
    ("OpeningStock", ["OPENING STOCK"]);
    ("ClosingStock", ["MIN CLOSE STOCK"; "MAX CLOSE STOCK"; "TIME PERIOD"]);
    ("Constraints", ["TIME PERIOD"; "Value"]) ].

Fixpoint update_at {A : Type} (i : nat) (f : A -> A) (l : list A) : list A :=
  match i, l with
  | _, [] => []
  | O, x :: l' => f x :: l'
  | S i', x :: l' => x :: update_at i' f l'
  end.

Section Coercion.

(** What [pd.to_numeric] reads in a text cell; [None] when the text is no
    number ([errors='coerce'] then stores NaN). *)
Variable to_numeric : string -> option Q.

Definition coerce_cell (c : cell) : cell :=
  match c with
  | CStr s =>
      match to_numeric s with
      | Some q => CNum q
      | None => CNaN
      end
  | _ => c
  end.

(** [df[col] = pd.to_numeric(df[col], errors='coerce')], when [col] is a
    column of [df]. *)
Definition coerce_column (df : DataFrame) (col : string) : DataFrame :=
  match index_of col (columns df) with
  | Some i => mkDataFrame (columns df) (map (update_at i coerce_cell) (rows df))
  | None => df
  end.

Definition _ensure_numeric_columns (d : dict DataFrame) : dict DataFrame :=
  fold_left
    (fun d '(sheet, cols) =>
       match dict_get d sheet with
       | Some df => dict_set d sheet (fold_left coerce_column cols df)
       | None => d
       end)
    numeric_mappings d.

(** [load_data]: the tables are coerced in place, so the caller's dictionary
    holds the coerced tables too (see [Api.upload]). *)
Definition load_data (d : dict DataFrame) : state :=
  mkState (_ensure_numeric_columns d) true.

End Coercion.

(** [_get_value]: one value of the first selected row, or ["N/A"]. *)
Definition _get_value (df : DataFrame) (mask : list bool) (column : string) : value :=
  match index_of column (columns df) with
  | None => NOT_AVAILABLE
  | Some i =>
      match rows (select df mask) with
      | [] => NOT_AVAILABLE
      | r :: _ =>
          match cell_at i r with
          | CNaN => NOT_AVAILABLE
          | CNum q => VNum q
          | CStr s => VStr s
          end
      end
  end.

(** [_num]: a number, or the default. *)
Definition _num (val : value) (default : Q) : Q :=
  if value_eqb val NOT_AVAILABLE then default
  else match val with
       | VNum q => q
       | VStr _ => default
       end.

(** [_num(val, float('inf'))]: [None] stands for the infinite default. *)
Definition _num_inf (val : value) : option Q :=
  if value_eqb val NOT_AVAILABLE then None
  else match val with
       | VNum q => Some q
       | VStr _ => None
       end.

(** [row.get(c, default)]. *)
Definition row_get_default (df : DataFrame) (r : row) (c : string) (default : cell) : cell :=
  match index_of c (columns df) with
  | Some i => cell_at i r
  | None => default
  end.

Definition mask2 (df : DataFrame) (c1 : string) (v1 : cell) (c2 : string) (v2 : cell)
  : result (list bool) :=
  do m1 <- mask_eq df c1 v1;
  do m2 <- mask_eq df c2 v2;
  Ok (mask_and m1 m2).

Definition pnum (p : Z) : cell := CNum (inject_Z p).

(** [float(value) if pd.notna(value) else 0]. *)
Definition float_or_0 (c : cell) : result Q :=
  match c with
  | CNaN => Ok 0
  | CNum q => Ok q
  | CStr _ => Raise ValueError
  end.

Definition notna_or_empty (c : cell) : cell :=
  match c with
  | CNaN => CStr ""
  | _ => c
  end.

Fixpoint route_constraints (df : DataFrame) (rs : list row) (mode dest : string)
  : result (list constraint_entry) :=
  match rs with
  | [] => Ok []
  | r :: rs' =>
      let tc := row_get_default df r "TRANSPORT CODE" (CStr "") in
      let ic := row_get_default df r "IUGU CODE" (CStr "") in
      if (isna tc || cell_eqb tc (CStr "") || cell_eqb tc (CStr mode))
         && (isna ic || cell_eqb ic (CStr "") || cell_eqb ic (CStr dest))
      then
        do v <- float_or_0 (row_get_default df r "Value" (CNum 0));
        do rest <- route_constraints df rs' mode dest;
        Ok (mkConstraint (row_get_default df r "BOUND TYPEID" (CStr ""))
                         (row_get_default df r "VALUE TYPEID" (CStr ""))
                         v (notna_or_empty tc) (notna_or_empty ic) :: rest)
      else route_constraints df rs' mode dest
  end.

(** [get_route_data]: every field of a route, read from the tables. *)
Definition get_route_data (st : state) (source dest mode : string) (period : Z)
  : result RouteData :=
  do logi <-
    match dict_get (data st) "Logistics" with
    | Some df =>
        do m1 <- mask_eq df "FROM IU CODE" (CStr source);
        do m2 <- mask_eq df "TO IUGU CODE" (CStr dest);
        do m3 <- mask_eq df "TRANSPORT CODE" (CStr mode);
        do m4 <- mask_eq df "TIME PERIOD" (pnum period);
        let mask := mask_and (mask_and (mask_and m1 m2) m3) m4 in
        Ok (_get_value df mask "FREIGHT COST",
            _get_value df mask "HANDLING COST",
            _get_value df mask "QUANTITY MULTIPLIER")
    | None => Ok (NOT_AVAILABLE, NOT_AVAILABLE, NOT_AVAILABLE)
    end;
  let '(freight_cost, handling_cost, quantity_multiplier) := logi in
  do production_cost <-
    match dict_get (data st) "ProductionCost" with
    | Some df =>
        do mask <- mask2 df "IU CODE" (CStr source) "TIME PERIOD" (pnum period);
        Ok (_get_value df mask "PRODUCTION COST")
    | None => Ok NOT_AVAILABLE
    end;
  do source_capacity <-
    match dict_get (data st) "Capacity" with
    | Some df =>
        do mask <- mask2 df "IU CODE" (CStr source) "TIME PERIOD" (pnum period);
        Ok (_get_value df mask "CAPACITY")
    | None => Ok NOT_AVAILABLE
    end;
  do dem <-
    match dict_get (data st) "Demand" with
    | Some df =>
        do ms <- mask2 df "IUGU CODE" (CStr source) "TIME PERIOD" (pnum period);
        do md <- mask2 df "IUGU CODE" (CStr dest) "TIME PERIOD" (pnum period);
        Ok (_get_value df ms "DEMAND", _get_value df md "DEMAND",
            _get_value df md "MIN FULFILLMENT (%)")
    | None => Ok (NOT_AVAILABLE, NOT_AVAILABLE, NOT_AVAILABLE)
    end;
  let '(source_demand, destination_demand, min_fulfillment) := dem in
  do opening <-
    match dict_get (data st) "OpeningStock" with
    | Some df =>
        do ms <- mask_eq df "IUGU CODE" (CStr source);
        do md <- mask_eq df "IUGU CODE" (CStr dest);
        Ok (_get_value df ms "OPENING STOCK", _get_value df md "OPENING STOCK")
    | None => Ok (NOT_AVAILABLE, NOT_AVAILABLE)
    end;
  let '(source_opening, dest_opening) := opening in
  do closing <-
    match dict_get (data st) "ClosingStock" with
    | Some df =>
        do ms <- mask2 df "IUGU CODE" (CStr source) "TIME PERIOD" (pnum period);
        do md <- mask2 df "IUGU CODE" (CStr dest) "TIME PERIOD" (pnum period);
        Ok (_get_value df ms "MIN CLOSE STOCK", _get_value df ms "MAX CLOSE STOCK",
            _get_value df md "MIN CLOSE STOCK", _get_value df md "MAX CLOSE STOCK")
    | None => Ok (NOT_AVAILABLE, NOT_AVAILABLE, NOT_AVAILABLE, NOT_AVAILABLE)
    end;
  let '(source_close_min, source_close_max, dest_close_min, dest_close_max) := closing in
  do types <-
    match dict_get (data st) "IUGUType" with
    | Some df =>
        do ms <- mask_eq df "IUGU CODE" (CStr source);
        do md <- mask_eq df "IUGU CODE" (CStr dest);
        Ok (_get_value df ms "PLANT TYPE", _get_value df ms "# Source",
            _get_value df md "PLANT TYPE", _get_value df md "# Source")
    | None => Ok (NOT_AVAILABLE, NOT_AVAILABLE, NOT_AVAILABLE, NOT_AVAILABLE)
    end;
  let '(source_type, source_num, dest_type, dest_num) := types in
  do constraints <-
    match dict_get (data st) "Constraints" with
    | Some df =>
        do mask <- mask2 df "IU CODE" (CStr source) "TIME PERIOD" (pnum period);
        route_constraints df (rows (select df mask)) mode dest
    | None => Ok []
    end;
  let total_logistics :=
    match freight_cost, handling_cost with
    | VNum f, VNum h => VNum (f + h)
    | _, _ => NOT_AVAILABLE
    end in
  let total_delivered :=
    match total_logistics, production_cost with
    | VNum l, VNum p => VNum (l + p)
    | _, _ => NOT_AVAILABLE
    end in
  let trips_required :=
    match destination_demand, quantity_multiplier with
    | VNum d, VNum m => if Qltb 0 m then Qceiling (d / m) else 0%Z
    | _, _ => 0%Z
    end in
  let total_transport_cost :=
    match total_logistics, destination_demand with
    | VNum l, VNum d => l * d
    | _, _ => 0
    end in
  let stock_gap_source :=
    match source_opening, source_close_min with
    | VNum o, VNum m => o - m
    | _, _ => 0
    end in
  let stock_gap_destination :=
    match dest_opening, dest_close_min with
    | VNum o, VNum m => o - m
    | _, _ => 0
    end in
  let can_fulfill :=
    match source_capacity, source_opening, destination_demand, dest_close_min with
    | VNum c, VNum o, VNum d, VNum m => Qle_bool (d + m) (c + o)
    | _, _, _, _ => false
    end in
  Ok (mkRouteData source dest mode period
        freight_cost handling_cost quantity_multiplier
        production_cost source_capacity
        source_demand destination_demand min_fulfillment
        source_opening dest_opening
        source_close_min source_close_max dest_close_min dest_close_max
        source_type dest_type source_num dest_num
        constraints total_logistics total_delivered
        trips_required total_transport_cost
        stock_gap_source stock_gap_destination can_fulfill).


(** One entry of [feasibility.issues]; the text of the message is fixed by
    its kind and by the numbers printed in it. *)
Inductive issue : Type :=
| CapacityShortfall (required capacity violation : Q)
| SourceBelowSafetyStock (inventory safety_stock : Q)
| DestinationBelowSafetyStock (inventory safety_stock : Q).

(** The local variables of [calculate_milp_solution] once steps 1 to 5, the
    objective and the issue list are computed. *)
Record Solution : Type := mkSolution {
  freight : Q;
  handling : Q;
  multiplier : Q;
  prod_cost : Q;
  capacity : Q;
  s_demand : Q;
  d_demand : Q;
  s_open : Q;
  d_open : Q;
  s_close_min : Q;
  s_close_max : option Q;
  d_close_min : Q;
  d_close_max : option Q;
  vehicle_capacity : Z;
  required_shipment : Q;
  num_trips : Z;
  shipment_qty : Z;
  is_iu : bool;
  required_production : Q;
  production : Q;
  capacity_violation : Q;
  source_ending_inv : Q;
  dest_ending_inv : Q;
  excess_at_dest : Q;
  source_ss_satisfied : bool;
  dest_ss_satisfied : bool;
  is_feasible : bool;
  production_cost_comp : Q;
  freight_total : Q;
  handling_total : Q;
  transport_cost_comp : Q;
  holding_rate : Q;
  source_excess_inv : Q;
  source_holding : Q;
  dest_excess_inv : Q;
  dest_holding : Q;
  holding_cost_comp : Q;
  total_Z : Q;
  cost_per_ton_demand : Q;
  issues : list issue
}.

(** [TRANSPORT_MODES.get(mode, {'capacity': 30})['capacity']]. *)
Definition mode_capacity (mode : string) : Z :=
  match dict_get TRANSPORT_MODES mode with
  | Some e => me_capacity e
  | None => 30%Z
  end.

(** The body of [calculate_milp_solution] after the route is fetched. *)
Definition solve (route : RouteData) (mode : string) : Solution :=
  let freight := _num (freight_cost route) 0 in
  let handling := _num (handling_cost route) 0 in
  let multiplier := _num (quantity_multiplier route) 1 in
  let prod_cost := _num (production_cost route) 0 in
  let capacity := _num (source_capacity route) 0 in
  let s_demand := _num (source_demand route) 0 in
  let d_demand := _num (destination_demand route) 0 in
  let s_open := _num (source_opening_stock route) 0 in
  let d_open := _num (destination_opening_stock route) 0 in
  let s_close_min := _num (source_closing_min route) 0 in
  let s_close_max := _num_inf (source_closing_max route) in
  let d_close_min := _num (destination_closing_min route) 0 in
  let d_close_max := _num_inf (destination_closing_max route) in
  let vehicle_capacity := mode_capacity mode in
  (* step 1: minimum shipment that satisfies the destination *)
  let min_shipment_needed := d_close_min + d_demand - d_open in
  let required_shipment := max0 min_shipment_needed in
  (* step 2: round up to whole trips *)
  let '(num_trips, shipment_qty) :=
    if (0 <? vehicle_capacity)%Z && Qltb 0 required_shipment
    then
      let num_trips := Qceiling (required_shipment / inject_Z vehicle_capacity) in
      (num_trips, (num_trips * vehicle_capacity)%Z)
    else (0%Z, 0%Z) in
  let shipment := inject_Z shipment_qty in
  (* step 3: minimum production that satisfies the source *)
  let is_iu := value_eqb (source_type route) (VStr "IU") in
  let '(required_production, production, capacity_violation) :=
    if is_iu
    then
      let min_production_needed := s_close_min + shipment + s_demand - s_open in
      let required_production := max0 min_production_needed in
      if Qltb capacity required_production && Qltb 0 capacity
      then (required_production, capacity, required_production - capacity)
      else (required_production, required_production, 0)
    else (0, 0, 0) in
  (* step 4: ending inventories *)
  let source_ending_inv := s_open + production - shipment - s_demand in
  let dest_ending_inv := d_open + shipment - d_demand in
  let excess_at_dest := shipment - required_shipment in
  (* step 5: constraint satisfaction *)
  let source_ss_satisfied := Qle_bool (s_close_min - (1 # 100)) source_ending_inv in
  let dest_ss_satisfied := Qle_bool (d_close_min - (1 # 100)) dest_ending_inv in
  let is_feasible :=
    source_ss_satisfied && dest_ss_satisfied && Qeq_bool capacity_violation 0 in
  (* objective *)
  let production_cost_comp := prod_cost * production in
  let freight_total := freight * shipment in
  let handling_total := handling * shipment in
  let transport_cost_comp := freight_total + handling_total in
  let holding_rate := if Qltb 0 prod_cost then prod_cost * HOLDING_COST_RATE else 0 in
  let source_excess_inv := max0 (source_ending_inv - s_close_min) in
  let source_holding := holding_rate * source_excess_inv in
  let dest_excess_inv := max0 (dest_ending_inv - d_close_min) in
  let dest_holding := holding_rate * dest_excess_inv in
  let holding_cost_comp := source_holding + dest_holding in
  let total_Z := production_cost_comp + transport_cost_comp + holding_cost_comp in
  let fulfilled_demand := d_demand in
  let cost_per_ton_demand :=
    if Qltb 0 fulfilled_demand then py_round (total_Z / fulfilled_demand) 2 else 0 in
  (* feasibility *)
  let issues :=
    ((if Qltb 0 capacity_violation
     then [CapacityShortfall required_production capacity capacity_violation]
     else [])
    ++ (if negb source_ss_satisfied
        then [SourceBelowSafetyStock source_ending_inv s_close_min]
        else [])
    ++ (if negb dest_ss_satisfied
        then [DestinationBelowSafetyStock dest_ending_inv d_close_min]
        else []))%list in
  mkSolution freight handling multiplier prod_cost capacity s_demand d_demand
    s_open d_open s_close_min s_close_max d_close_min d_close_max
    vehicle_capacity required_shipment num_trips shipment_qty is_iu
    required_production production capacity_violation
    source_ending_inv dest_ending_inv excess_at_dest
    source_ss_satisfied dest_ss_satisfied is_feasible
    production_cost_comp freight_total handling_total transport_cost_comp
    holding_rate source_excess_inv source_holding dest_excess_inv dest_holding
    holding_cost_comp total_Z cost_per_ton_demand issues.

(** The returned dictionary, without its descriptive texts (descriptions,
    units, formula strings) and without the [metrics] entry. *)
Record DecisionVariables : Type := mkDecisionVariables {
  P_value : Q;
  P_minimum_required : Q;
  X_value : Q;
  X_minimum_required : Q;
  X_excess : Q;
  I_source_value : Q;
  I_source_safety_stock : Q;
  I_source_constraint_satisfied : bool;
  I_dest_value : Q;
  I_dest_safety_stock : Q;
  I_dest_constraint_satisfied : bool;
  T_value : Z;
  T_vehicle_capacity : Z
}.

Record ObjectiveFunction : Type := mkObjectiveFunction {
  obj_production_cost : Q;
  obj_transport_cost : Q;
  obj_holding_cost : Q;
  obj_total_Z : Q;
  obj_fulfilled_demand : Q;
  obj_cost_per_ton : Q
}.

Record BalanceNode : Type := mkBalanceNode {
  node : string;
  I_t_minus_1 : Q;
  P_t : Q;
  inbound : Q;
  outbound : Q;
  D_t : Q;
  I_t : Q
}.

Record Constraints : Type := mkConstraints {
  production_capacity_satisfied : bool;
  production_capacity_slack : Q;
  shipment_upper_bound_satisfied : bool;
  inventory_source_satisfied : bool;
  inventory_destination_satisfied : bool;
  strategic_constraints : list constraint_entry
}.

Record Feasibility : Type := mkFeasibility {
  feas_is_feasible : bool;
  feas_capacity_violation : Q;
  feas_issues : list issue
}.

Record MilpResult : Type := mkMilpResult {
  res_route : RouteData;
  decision_variables : DecisionVariables;
  objective_function : ObjectiveFunction;
  mass_balance_source : BalanceNode;
  mass_balance_destination : BalanceNode;
  res_constraints : Constraints;
  feasibility : Feasibility
}.

(** [lo <= x <= (hi if hi != inf else x)]. *)
Definition within (lo x : Q) (hi : option Q) : bool :=
  Qle_bool lo x && match hi with
                   | Some h => Qle_bool x h
                   | None => Qle_bool x x
                   end.

Definition report (route : RouteData) (s : Solution) : MilpResult :=
  let shipment := inject_Z (shipment_qty s) in
  mkMilpResult route
    (mkDecisionVariables
       (py_round (production s) 2)
       (if is_iu s then py_round (required_production s) 2 else 0)
       (py_round shipment 2)
       (py_round (required_shipment s) 2)
       (py_round (excess_at_dest s) 2)
       (py_round (source_ending_inv s) 2)
       (py_round (s_close_min s) 2)
       (source_ss_satisfied s)
       (py_round (dest_ending_inv s) 2)
       (py_round (d_close_min s) 2)
       (dest_ss_satisfied s)
       (num_trips s)
       (vehicle_capacity s))
    (mkObjectiveFunction
       (py_round (production_cost_comp s) 2)
       (py_round (transport_cost_comp s) 2)
       (py_round (holding_cost_comp s) 2)
       (py_round (total_Z s) 2)
       (py_round (d_demand s) 2)
       (cost_per_ton_demand s))
    (mkBalanceNode (source route) (s_open s) (production s) 0 shipment (s_demand s)
       (py_round (source_ending_inv s) 2))
    (mkBalanceNode (destination route) (d_open s) 0 shipment 0 (d_demand s)
       (py_round (dest_ending_inv s) 2))
    (mkConstraints
       (Qle_bool (production s) (capacity s))
       (py_round (capacity s - production s) 2)
       (Qle_bool shipment (inject_Z (num_trips s * vehicle_capacity s)))
       (within (s_close_min s) (source_ending_inv s) (s_close_max s))
       (within (d_close_min s) (dest_ending_inv s) (d_close_max s))
       (constraints route))
    (mkFeasibility
       (is_feasible s)
       (if Qltb 0 (capacity_violation s) then py_round (capacity_violation s) 2 else 0)
       (issues s)).

(** [calculate_milp_solution], which [get_all_data_for_route] calls. *)
Definition calculate_milp_solution (st : state) (source dest mode : string) (period : Z)
  : result MilpResult :=
  do route <- get_route_data st source dest mode period;
  Ok (report route (solve route mode)).

Definition get_all_data_for_route := calculate_milp_solution.

End Optimizer.

(** * optimizer.py: the calculator on Python's numbers

    [Optimizer.solve] reads the numbers of the calculator as exact
    rationals. That reading is kept for the statements that do not depend
    on rounding. This module reads the same code on Python's own numbers:
    a [float] is an IEEE 754 binary64 value, with its rounded operations,
    infinities and NaN; an [int] is an integer of any size. It is used
    wherever rounding decides. *)

Module Binary64.

Import PrimFloat SpecFloat FloatOps.
Local Open Scope float_scope.
Set Warnings "-inexact-float".

(** ** Python's numbers *)

(** A number of the calculator: an [int] (the defaults of [_num], the
    vehicle capacity, the trips, the shipment) or a [float] (every number
    read from the dataset). *)
Inductive num : Type :=
| Int (n : Z)
| Float (x : float).

(** The exact value of the finite float with sign [s], mantissa [m] and
    exponent [e]. *)
Definition exact (s : bool) (m : positive) (e : Z) : Q :=
  let v := match e with
           | Z0 => inject_Z (Zpos m)
           | Zpos p => inject_Z (Zpos m * Z.pow_pos 2 p)
           | Zneg p => Zpos m # Pos.pow 2 p
           end in
  if s then (- v)%Q else v.

(** The exact value of a float; 0 stands for the values that have none
    (infinities and NaN). *)
Definition to_Q (x : float) : Q :=
  match Prim2SF x with
  | S754_finite s m e => exact s m e
  | _ => 0%Q
  end.

Definition value_of (a : num) : Q :=
  match a with
  | Int n => inject_Z n
  | Float x => to_Q x
  end.

(** [float(n)] for an [int] [n], as Python converts the [int] operand of
    [x + n], [x - n] and [x / n]: the nearest float, a tie going to the even
    one; [OverflowError] when [n] is too large. *)
Definition float_of_Z (n : Z) : result float :=
  match binary_normalize prec emax n 0 false with
  | S754_infinity _ => Raise OverflowError
  | x => Ok (SF2Prim x)
  end.

Definition to_float (a : num) : result float :=
  match a with
  | Int n => float_of_Z n
  | Float x => Ok x
  end.

(** [a + b] and [a - b]: exact on two [int]s, else the float operation
    once an [int] operand is converted. *)
Definition num_add (a b : num) : result num :=
  match a, b with
  | Int m, Int n => Ok (Int (m + n))
  | _, _ => do x <- to_float a; do y <- to_float b; Ok (Float (x + y))
  end.

Definition num_sub (a b : num) : result num :=
  match a, b with
  | Int m, Int n => Ok (Int (m - n))
  | _, _ => do x <- to_float a; do y <- to_float b; Ok (Float (x - y))
  end.

(** How the [int] [n] compares with the float [x]: Python compares the
    exact values; nothing holds against NaN. *)
Definition compare_int_float (n : Z) (x : float) : option comparison :=
  match Prim2SF x with
  | S754_nan => None
  | S754_infinity s => Some (if s then Gt else Lt)
  | S754_zero _ => Some (n ?= 0)%Z
  | S754_finite s m e => Some (inject_Z n ?= exact s m e)%Q
  end.

(** [a < b], [a <= b] and [a == b]. *)
Definition num_ltb (a b : num) : bool :=
  match a, b with
  | Int m, Int n => (m <? n)%Z
  | Float x, Float y => x <? y
  | Int n, Float x =>
      match compare_int_float n x with Some Lt => true | _ => false end
  | Float x, Int n =>
      match compare_int_float n x with Some Gt => true | _ => false end
  end.

Definition num_leb (a b : num) : bool :=
  match a, b with
  | Int m, Int n => (m <=? n)%Z
  | Float x, Float y => x <=? y
  | Int n, Float x =>
      match compare_int_float n x with Some Lt | Some Eq => true | _ => false end
  | Float x, Int n =>
      match compare_int_float n x with Some Gt | Some Eq => true | _ => false end
  end.

Definition num_eqb (a b : num) : bool :=
  match a, b with
  | Int m, Int n => (m =? n)%Z
  | Float x, Float y => x =? y
  | Int n, Float x | Float x, Int n =>
      match compare_int_float n x with Some Eq => true | _ => false end
  end.

(** Python's [max(0, a)]: [a] when [a > 0], else the [0] given first. *)
Definition num_max0 (a : num) : num := if num_ltb (Int 0) a then a else Int 0.

(** [math.ceil(x)] for a float: an [int]; [OverflowError] on an infinity
    and [ValueError] on NaN. *)
Definition ceil (x : float) : result Z :=
  match Prim2SF x with
  | S754_zero _ => Ok 0%Z
  | S754_finite s m e => Ok (Qceiling (exact s m e))
  | S754_infinity _ => Raise OverflowError
  | S754_nan => Raise ValueError
  end.

(** The integer nearest to [y], a tie going to the even one. *)
Definition round_half_even (y : Q) : Z :=
  let f := Qfloor y in
  let r := (y - inject_Z f)%Q in
  if Qltb r (1 # 2) then f
  else if Qltb (1 # 2) r then (f + 1)%Z
  else if Z.even f then f else (f + 1)%Z.

(** The float nearest to [n / d], a tie going to the even one; a zero
    takes the sign [s]. *)
Definition nearest_ratio (s : bool) (n : Z) (d : positive) : float :=
  match n with
  | Z0 => SF2Prim (S754_zero s)
  | Zpos p => SF2Prim (SFdiv prec emax (S754_finite false p 0) (S754_finite false d 0))
  | Zneg p => SF2Prim (SFdiv prec emax (S754_finite true p 0) (S754_finite false d 0))
  end.

(** [round(x, ndigits)] for a float [x] and a small positive [ndigits]:
    the exact value of [x] is rounded to [ndigits] decimals, a tie going to
    the even digit, and the float nearest to that decimal is returned;
    zeros, infinities and NaN round to themselves. *)
Definition round (x : float) (ndigits : positive) : float :=
  match Prim2SF x with
  | S754_finite s m e =>
      let scale := Pos.pow 10 ndigits in
      nearest_ratio s (round_half_even (exact s m e * inject_Z (Zpos scale))) scale
  | _ => x
  end.

(** [round(a, ndigits)]: an [int] is returned as it is. *)
Definition num_round (a : num) (ndigits : positive) : num :=
  match a with
  | Int n => Int n
  | Float x => Float (round x ndigits)
  end.

(** ** The route *)

(** A field of a route as [get_route_data] gives it: a float, or a text;
    the text ["N/A"] marks a value the dataset does not give. *)
Inductive value : Type :=
| VNum (x : float)
| VStr (s : string).

Definition NOT_AVAILABLE : value := VStr "N/A".

(** The fields of [RouteData] that steps 1 to 5 of
    [calculate_milp_solution] read. *)
Record RouteData : Type := mkRouteData {
  source_capacity : value;
  source_demand : value;
  destination_demand : value;
  source_opening_stock : value;
  destination_opening_stock : value;
  source_closing_min : value;
  destination_closing_min : value;
  source_type : value
}.

(** [_num(val)], with its default of [0]: the float, or the [int] 0. *)
Definition _num (val : value) : num :=
  match val with
  | VNum x => Float x
  | VStr _ => Int 0
  end.

(** ** [calculate_milp_solution] *)

(** One entry of [feasibility.issues]; the text of the message is fixed by
    its kind and by the numbers printed in it. *)
Inductive issue : Type :=
| CapacityShortfall (required capacity violation : num)
| SourceBelowSafetyStock (inventory safety_stock : num)
| DestinationBelowSafetyStock (inventory safety_stock : num).

(** The local variables of [calculate_milp_solution] once steps 1 to 5 and
    the issue list are computed. *)
Record Solution : Type := mkSolution {
  capacity : num;
  s_demand : num;
  d_demand : num;
  s_open : num;
  d_open : num;
  s_close_min : num;
  d_close_min : num;
  vehicle_capacity : Z;
  required_shipment : num;
  num_trips : Z;
  shipment_qty : Z;
  is_iu : bool;
  required_production : num;
  production : num;
  capacity_violation : num;
  source_ending_inv : num;
  dest_ending_inv : num;
  excess_at_dest : num;
  source_ss_satisfied : bool;
  dest_ss_satisfied : bool;
  is_feasible : bool;
  issues : list issue
}.

(** [required_shipment / vehicle_capacity]: the float division, once the
    [int] capacity is converted. It is asked only for a required shipment
    above 0, which is a float: an [int] comes only from the defaults, whose
    sum is 0. *)
Definition quotient (required_shipment : num) (vehicle_capacity : Z) : result float :=
  do x <- to_float required_shipment;
  do cap <- float_of_Z vehicle_capacity;
  Ok (x / cap).

(** Step 2: the trips and the shipment, two [int]s. *)
Definition trips (vehicle_capacity : Z) (required_shipment : num) : result (Z * Z) :=
  if (0 <? vehicle_capacity)%Z && num_ltb (Int 0) required_shipment
  then
    do q <- quotient required_shipment vehicle_capacity;
    do num_trips <- ceil q;
    Ok (num_trips, (num_trips * vehicle_capacity)%Z)
  else Ok (0%Z, 0%Z).

(** Step 3 for a source of type IU. *)
Definition produce (s_close_min s_demand s_open capacity : num) (shipment_qty : Z)
  : result (num * num * num) :=
  do t1 <- num_add s_close_min (Int shipment_qty);
  do t2 <- num_add t1 s_demand;
  do min_production_needed <- num_sub t2 s_open;
  let required_production := num_max0 min_production_needed in
  if num_ltb capacity required_production && num_ltb (Int 0) capacity
  then
    do capacity_violation <- num_sub required_production capacity;
    Ok (required_production, capacity, capacity_violation)
  else Ok (required_production, required_production, Int 0).

(** The body of [calculate_milp_solution] after the route is fetched, up
    to step 5 and the issue list. [Raise] is the exception of [math.ceil]
    or of the conversion of an [int] to a float. The objective, the
    constraints and the metrics are computed from these values afterwards
    and change none of them; they are not part of this reading, so that
    [solve] returns whenever the code does, with the values the code has,
    and also where the metrics of the code raise [ZeroDivisionError]. *)
Definition solve (route : RouteData) (mode : string) : result Solution :=
  let capacity := _num (source_capacity route) in
  let s_demand := _num (source_demand route) in
  let d_demand := _num (destination_demand route) in
  let s_open := _num (source_opening_stock route) in
  let d_open := _num (destination_opening_stock route) in
  let s_close_min := _num (source_closing_min route) in
  let d_close_min := _num (destination_closing_min route) in
  let vehicle_capacity := Optimizer.mode_capacity mode in
  (* step 1: minimum shipment that satisfies the destination *)
  do t <- num_add d_close_min d_demand;
  do min_shipment_needed <- num_sub t d_open;
  let required_shipment := num_max0 min_shipment_needed in
  (* step 2: round up to whole trips *)
  do trip <- trips vehicle_capacity required_shipment;
  let '(num_trips, shipment_qty) := trip in
  (* step 3: minimum production that satisfies the source *)
  let is_iu := match source_type route with
               | VStr s => String.eqb s "IU"
               | VNum _ => false
               end in
  do prod <- (if is_iu
              then produce s_close_min s_demand s_open capacity shipment_qty
              else Ok (Int 0, Int 0, Int 0));
  let '(required_production, production, capacity_violation) := prod in
  (* step 4: ending inventories *)
  do t3 <- num_add s_open production;
  do t4 <- num_sub t3 (Int shipment_qty);
  do source_ending_inv <- num_sub t4 s_demand;
  do t5 <- num_add d_open (Int shipment_qty);
  do dest_ending_inv <- num_sub t5 d_demand;
  do excess_at_dest <- num_sub (Int shipment_qty) required_shipment;
  (* step 5: constraint satisfaction *)
  do source_floor <- num_sub s_close_min (Float 0.01);
  do dest_floor <- num_sub d_close_min (Float 0.01);
  let source_ss_satisfied := num_leb source_floor source_ending_inv in
  let dest_ss_satisfied := num_leb dest_floor dest_ending_inv in
  let is_feasible :=
    source_ss_satisfied && dest_ss_satisfied && num_eqb capacity_violation (Int 0) in
  (* feasibility *)
  let issues :=
    ((if num_ltb (Int 0) capacity_violation
      then [CapacityShortfall required_production capacity capacity_violation]
      else [])
     ++ (if negb source_ss_satisfied
         then [SourceBelowSafetyStock source_ending_inv s_close_min]
         else [])
     ++ (if negb dest_ss_satisfied
         then [DestinationBelowSafetyStock dest_ending_inv d_close_min]
         else []))%list in
  Ok (mkSolution capacity s_demand d_demand s_open d_open s_close_min d_close_min
        vehicle_capacity required_shipment num_trips shipment_qty is_iu
        required_production production capacity_violation
        source_ending_inv dest_ending_inv excess_at_dest
        source_ss_satisfied dest_ss_satisfied is_feasible issues).

(** The entries of the returned dictionary that give the decision
    variables, the mass balance and the feasibility, without their
    descriptive texts. *)
Record DecisionVariables : Type := mkDecisionVariables {
  P_value : num;
  P_minimum_required : num;
  X_value : num;
  X_minimum_required : num;
  X_excess : num;
  I_source_value : num;
  I_source_safety_stock : num;
  I_source_constraint_satisfied : bool;
  I_dest_value : num;
  I_dest_safety_stock : num;
  I_dest_constraint_satisfied : bool;
  T_value : Z;
  T_vehicle_capacity : Z
}.

Record BalanceNode : Type := mkBalanceNode {
  I_t_minus_1 : num;
  P_t : num;
  inbound : num;
  outbound : num;
  D_t : num;
  I_t : num
}.

Record Feasibility : Type := mkFeasibility {
  feas_is_feasible : bool;
  feas_capacity_violation : num;
  feas_issues : list issue
}.

Record MilpResult : Type := mkMilpResult {
  decision_variables : DecisionVariables;
  mass_balance_source : BalanceNode;
  mass_balance_destination : BalanceNode;
  feasibility : Feasibility
}.

Definition report (s : Solution) : MilpResult :=
  mkMilpResult
    (mkDecisionVariables
       (num_round (production s) 2)
       (if is_iu s then num_round (required_production s) 2 else Int 0)
       (num_round (Int (shipment_qty s)) 2)
       (num_round (required_shipment s) 2)
       (num_round (excess_at_dest s) 2)
       (num_round (source_ending_inv s) 2)
       (num_round (s_close_min s) 2)
       (source_ss_satisfied s)
       (num_round (dest_ending_inv s) 2)
       (num_round (d_close_min s) 2)
       (dest_ss_satisfied s)
       (num_trips s)
       (vehicle_capacity s))
    (mkBalanceNode (s_open s) (production s) (Int 0) (Int (shipment_qty s)) (s_demand s)
       (num_round (source_ending_inv s) 2))
    (mkBalanceNode (d_open s) (Int 0) (Int (shipment_qty s)) (Int 0) (d_demand s)
       (num_round (dest_ending_inv s) 2))
    (mkFeasibility
       (is_feasible s)
       (if num_ltb (Int 0) (capacity_violation s)
        then num_round (capacity_violation s) 2 else Int 0)
       (issues s)).

(** [calculate_milp_solution] on a route already fetched: the entries of
    its result listed above. *)
Definition calculate_milp_solution (route : RouteData) (mode : string) : result MilpResult :=
  do s <- solve route mode;
  Ok (report s).

End Binary64.

(** * data_parser.py *)

Module Parser.

Record sheet_config : Type := mkConfig {
  file : string;
  config_columns : list string;
  required : bool
}.

(** Expected sheet names and their column mappings. *)
Definition SHEET_CONFIG : dict sheet_config :=
  [ ("IUGUType",
     mkConfig "IUGUType.csv" ["IUGU CODE"; "PLANT TYPE"] true);
    ("Logistics",
     mkConfig "LogisticsIUGU.csv"
       ["FROM IU CODE"; "TO IUGU CODE"; "TRANSPORT CODE"; "TIME PERIOD";
        "FREIGHT COST"; "HANDLING COST"; "QUANTITY MULTIPLIER"] true);
    ("Demand",
     mkConfig "ClinkerDemand.csv" ["IUGU CODE"; "TIME PERIOD"; "DEMAND"] true);
    ("Capacity",
     mkConfig "ClinkerCapacity.csv" ["IU CODE"; "TIME PERIOD"; "CAPACITY"] true);
    ("ProductionCost",
     mkConfig "ProductionCost.csv" ["IU CODE"; "TIME PERIOD"; "PRODUCTION COST"] true);
    ("OpeningStock",
     mkConfig "IUGUOpeningStock.csv" ["IUGU CODE"; "OPENING STOCK"] true);
    ("ClosingStock",
     mkConfig "IUGUClosingStock.csv"
       ["IUGU CODE"; "TIME PERIOD"; "MIN CLOSE STOCK"; "MAX CLOSE STOCK"] true);
    ("Constraints",
     mkConfig "IUGUConstraint.csv"
       ["IU CODE"; "TRANSPORT CODE"; "IUGU CODE"; "TIME PERIOD";
        "BOUND TYPEID"; "VALUE TYPEID"; "Value"] false);
    ("HubOpeningStock",
     mkConfig "HubOpeningStock.csv" ["IU"; "IUGU"; "Opening Stock"] false) ].

Record transport_info : Type := mkTransport {
  name : string;
  vehicle_capacity : Z;
  emission_factor : Q
}.

(** Transport mode info (only used if the mode exists in the dataset). *)
Definition TRANSPORT_INFO : dict transport_info :=
  [ ("T1", mkTransport "Road" 30 (62 # 1000));
    ("T2", mkTransport "Rail" 3000 (22 # 1000));
    ("T3", mkTransport "Sea" 10000 (10 # 1000)) ].

(** An entry of the [metadata] dictionary. *)
Inductive meta_value : Type :=
| MList (l : list cell)
| MCounts (d : dict nat)
| MRoutes (r : list (cell * list cell))
| MCount (n : nat).

Definition Metadata : Type := dict meta_value.

(** [metadata.get(key, [])] for a key that holds a list. *)
Definition meta_list (m : Metadata) (key : string) : list cell :=
  match dict_get m key with
  | Some (MList l) => l
  | _ => []
  end.

(** The lines of [load_errors]. The lines of a failed Excel load that report
    a failure start with a cross mark ([marked]); the lines that recall the
    required structure do not. *)
Inductive load_error : Type :=
| FailedToLoad (file : string)
| RequiredFileMissing (file : string)
| MissingRequiredSheets (sheets : list string)
| SheetMissingColumns (sheet : string) (cols : list string)
| FailedToReadSheet (sheet : string)
| FailedToOpen (e : exn)
| BlankLine
| RequiredStructure
| RequiredSheetLine (sheet file : string) (cols : list string).

Definition marked (e : load_error) : bool :=
  match e with
  | MissingRequiredSheets _ | SheetMissingColumns _ _
  | FailedToReadSheet _ | FailedToOpen _ => true
  | _ => false
  end.

Record state : Type := mkState {
  data : dict DataFrame;
  metadata : Metadata;
  is_loaded : bool;
  load_errors : list load_error
}.

(** [ExcelDataParser.__init__]. *)
Definition init : state := mkState [] [] false [].

Definition set_metadata (st : state) (key : string) (v : meta_value) : state :=
  mkState (data st) (dict_set (metadata st) key v) (is_loaded st) (load_errors st).

(** [df.columns = df.columns.str.strip()]. *)
Definition strip_columns (df : DataFrame) : DataFrame :=
  mkDataFrame (map strip (columns df)) (rows df).

Definition required_sheets : dict sheet_config :=
  filter (fun '(_, config) => required config) SHEET_CONFIG.

(** [validate_complete_dataset]. *)
Record Completeness : Type := mkCompleteness {
  complete : bool;
  present : list string;
  missing : list string;
  total_required : nat;
  loaded_count : nat
}.

Definition validate_complete_dataset (st : state) : Completeness :=
  let present :=
    filter (fun sheet_name => dict_mem (data st) sheet_name) (dict_keys required_sheets) in
  let missing :=
    filter (fun sheet_name => negb (dict_mem (data st) sheet_name))
           (dict_keys required_sheets) in
  mkCompleteness (Nat.eqb (List.length missing) 0) present missing
    (List.length required_sheets) (List.length present).

(** ** Naming a table *)

(** The direct mappings of [_map_filename_to_sheet]. *)
Definition filename_mappings : dict string :=
  [ ("iugutype", "IUGUType");
    ("logisticsiugu", "Logistics");
    ("logistics", "Logistics");
    ("clinkerdemand", "Demand");
    ("demand", "Demand");
    ("clinkercapacity", "Capacity");
    ("capacity", "Capacity");
    ("productioncost", "ProductionCost");
    ("iuguopeningstock", "OpeningStock");
    ("openingstock", "OpeningStock");
    ("iuguclosingstock", "ClosingStock");
    ("closingstock", "ClosingStock");
    ("iuguconstraint", "Constraints");
    ("constraint", "Constraints");
    ("constraints", "Constraints");
    ("hubopeningstock", "HubOpeningStock") ].

(** [_map_filename_to_sheet]: [mappings.get(filename.lower().replace('.csv', ''))]. *)
Definition _map_filename_to_sheet (filename : string) : option string :=
  let filename_lower := remove_all ".csv" (lower filename) in
  dict_get filename_mappings filename_lower.

(** [_detect_sheet_from_columns]: the first test that holds gives the
    sheet. *)
Definition _detect_sheet_from_columns (df : DataFrame) : option string :=
  let cols := map upper (columns df) in
  let has c := existsb (String.eqb c) cols in
  if has "FROM IU CODE" && has "TO IUGU CODE" && has "FREIGHT COST" then Some "Logistics"
  else if has "DEMAND" && has "IUGU CODE" then Some "Demand"
  else if has "CAPACITY" && has "IU CODE" then Some "Capacity"
  else if has "PRODUCTION COST" && has "IU CODE" then Some "ProductionCost"
  else if has "OPENING STOCK" && has "IUGU CODE" then Some "OpeningStock"
  else if (has "MIN CLOSE STOCK" || has "MAX CLOSE STOCK") && has "IUGU CODE"
       then Some "ClosingStock"
  else if has "BOUND TYPEID" && has "VALUE TYPEID" then Some "Constraints"
  else if has "PLANT TYPE" && has "IUGU CODE" then Some "IUGUType"
  else None.

(** ** Route-validity index *)

(** The freight cost of the first row is missing: [freight is None or
    (isinstance(freight, float) and pd.isna(freight))], where [None] stands
    for a table without the column. *)
Definition freight_missing (route_data : DataFrame) : bool :=
  match index_of "FREIGHT COST" (columns route_data), rows route_data with
  | Some i, r :: _ => isna (cell_at i r)
  | _, _ => true
  end.

(** [df[df[c] == v] if c in df.columns else pd.DataFrame()]. *)
Definition rows_with (df : DataFrame) (c : string) (v : cell) : DataFrame :=
  match mask_eq df c v with
  | Ok m => select df m
  | Raise _ => mkDataFrame [] []
  end.

(** The rows of [df] whose plant is [plant], read in column ["IU CODE"] or
    else in ["IUGU CODE"]; [None] when the table has neither column. *)
Definition rows_of_plant (df : DataFrame) (plant : cell) : option DataFrame :=
  if has_column df "IU CODE" then Some (rows_with df "IU CODE" plant)
  else if has_column df "IUGU CODE" then Some (rows_with df "IUGU CODE" plant)
  else None.

(** [_has_complete_data]: does the pair have all the data the calculator
    needs? *)
Definition _has_complete_data (st : state) (source destination : cell) : result bool :=
  (* 1. logistics data (freight cost) *)
  match dict_get (data st) "Logistics" with
  | None => Ok false
  | Some logistics_df =>
      do m1 <- mask_eq logistics_df "FROM IU CODE" source;
      do m2 <- mask_eq logistics_df "TO IUGU CODE" destination;
      let route_data := select logistics_df (mask_and m1 m2) in
      if empty route_data then Ok false
      else if freight_missing route_data then Ok false
      else
        (* 2. production cost for the source *)
        match dict_get (data st) "ProductionCost" with
        | None => Ok false
        | Some prod_df =>
            match rows_of_plant prod_df source with
            | None => Ok false
            | Some source_prod =>
                if empty source_prod then Ok false
                else
                  (* 3. capacity for the source *)
                  match dict_get (data st) "Capacity" with
                  | None => Ok false
                  | Some cap_df =>
                      match rows_of_plant cap_df source with
                      | None => Ok false
                      | Some source_cap =>
                          if empty source_cap then Ok false
                          else
                            (* 4. demand for the destination *)
                            match dict_get (data st) "Demand" with
                            | None => Ok false
                            | Some demand_df =>
                                if empty (rows_with demand_df "IUGU CODE" destination)
                                then Ok false
                                else Ok true
                            end
                      end
                  end
            end
        end
  end.

Fixpoint filter_result {A : Type} (f : A -> result bool) (l : list A) : result (list A) :=
  match l with
  | [] => Ok []
  | x :: l' =>
      do b <- f x;
      do rest <- filter_result f l';
      Ok (if b then x :: rest else rest)
  end.

(** [get_destinations_for_source]: the destinations of a source, only the
    pairs with complete data. *)
Definition get_destinations_for_source (st : state) (source_iu : cell) : result (list cell) :=
  if negb (is_loaded st) then Ok []
  else
    match dict_get (data st) "Logistics" with
    | None => Ok []
    | Some df =>
        do m <- mask_eq df "FROM IU CODE" source_iu;
        do col <- getcol (select df m) "TO IUGU CODE";
        let all_destinations := unique col in
        filter_result (_has_complete_data st source_iu) all_destinations
    end.

(** [get_modes_for_route]. *)
Definition get_modes_for_route (st : state) (source destination : cell) : result (list cell) :=
  if negb (is_loaded st) then Ok []
  else
    match dict_get (data st) "Logistics" with
    | None => Ok []
    | Some df =>
        do m1 <- mask_eq df "FROM IU CODE" source;
        do m2 <- mask_eq df "TO IUGU CODE" destination;
        do col <- getcol (select df (mask_and m1 m2)) "TRANSPORT CODE";
        Ok (unique col)
    end.

(** ** Metadata *)

(** [a < b] on two Python values held in cells; a text and a number do not
    compare, and no comparison with NaN holds. *)
Definition cell_ltb (a b : cell) : result bool :=
  match a, b with
  | CStr s, CStr t => Ok (String.ltb s t)
  | CStr _, _ | _, CStr _ => Raise TypeError
  | CNum x, CNum y => Ok (Qltb x y)
  | _, _ => Ok false
  end.

Fixpoint insert_sorted (x : cell) (l : list cell) : result (list cell) :=
  match l with
  | [] => Ok [x]
  | y :: l' =>
      do b <- cell_ltb y x;
      if b then do r <- insert_sorted x l'; Ok (y :: r)
      else Ok (x :: l)
  end.

(** [sorted(l)]. It raises [TypeError] on a list that mixes texts and
    numbers, as Python does; on a list that holds NaN the order Python gives
    depends on its sorting algorithm, the members are the same. *)
Fixpoint py_sorted (l : list cell) : result (list cell) :=
  match l with
  | [] => Ok []
  | x :: l' => do s <- py_sorted l'; insert_sorted x s
  end.

(** Methods that update the parser and may raise. *)
Definition M (A : Type) : Type := state -> state * result A.

Definition ret {A : Type} (a : A) : M A := fun st => (st, Ok a).

Definition bindM {A B : Type} (m : M A) (k : A -> M B) : M B :=
  fun st =>
    match m st with
    | (st', Ok a) => k a st'
    | (st', Raise e) => (st', Raise e)
    end.

Definition lift {A : Type} (r : result A) : M A := fun st => (st, r).

Definition get : M state := fun st => (st, Ok st).

Definition put_meta (key : string) (v : meta_value) : M unit :=
  fun st => (set_metadata st key v, Ok tt).

Declare Scope parser_scope.
Delimit Scope parser_scope with parser.
Notation "'let!' x := m 'in' k" := (bindM m (fun x => k))
  (at level 10, x name, m at level 100, k at level 200) : parser_scope.
Notation "'run' m 'then' k" := (bindM m (fun _ => k))
  (at level 10, m at level 100, k at level 200) : parser_scope.
Local Open Scope parser_scope.

Fixpoint routes_by_source (df : DataFrame) (sources : list cell)
  : result (list (cell * list cell)) :=
  match sources with
  | [] => Ok []
  | source :: rest =>
      do m <- mask_eq df "FROM IU CODE" source;
      do col <- getcol (select df m) "TO IUGU CODE";
      do tl <- routes_by_source df rest;
      Ok ((source, unique col) :: tl)
  end.

(** [_build_route_index]. Its second index, [modes_by_route], is keyed by a
    text printed from the two plant codes; no operation reads it and it is
    left out. *)
Definition _build_route_index : M unit :=
  let! st := get in
  match dict_get (data st) "Logistics" with
  | Some df =>
      let! sources := lift (getcol df "FROM IU CODE") in
      let! routes := lift (routes_by_source df (unique sources)) in
      put_meta "routes_by_source" (MRoutes routes)
  | None => lift (Raise (KeyError "Logistics"))
  end.

Definition has_destinations (st : state) (source : cell) : result bool :=
  do destinations <- get_destinations_for_source st source;
  Ok (match destinations with
      | [] => false
      | _ => true
      end).

(** [_filter_sources_with_complete_data]: keep the sources that have at
    least one destination with complete data. *)
Definition _filter_sources_with_complete_data : M unit :=
  let! st := get in
  if negb (dict_mem (metadata st) "source_ius") then ret tt
  else
    let all_sources := meta_list (metadata st) "source_ius" in
    let! valid_sources := lift (filter_result (has_destinations st) all_sources) in
    run put_meta "source_ius" (MList valid_sources) then
    run put_meta "all_sources_count" (MCount (List.length all_sources)) then
    put_meta "valid_sources_count" (MCount (List.length valid_sources)).

(** The part of [_extract_metadata] on the plant types. *)
Definition extract_plants (d : dict DataFrame) : M unit :=
  match dict_get d "IUGUType" with
  | Some df =>
      let! plants := lift (getcol df "IUGU CODE") in
      run put_meta "plants" (MList (unique plants)) then
      let! m := lift (mask_eq df "PLANT TYPE" (CStr "IU")) in
      let! iu := lift (getcol (select df m) "IUGU CODE") in
      run put_meta "iu_plants" (MList (unique iu)) then
      let! m := lift (mask_eq df "PLANT TYPE" (CStr "GU")) in
      let! gu := lift (getcol (select df m) "IUGU CODE") in
      put_meta "gu_plants" (MList (unique gu))
  | None => ret tt
  end.

(** The part on the sources, destinations and modes of the logistics
    table; the sources are filtered at the end of [_extract_metadata]. *)
Definition extract_logistics (d : dict DataFrame) : M unit :=
  match dict_get d "Logistics" with
  | Some df =>
      let! all_sources := lift (getcol df "FROM IU CODE") in
      let! dests := lift (getcol df "TO IUGU CODE") in
      run put_meta "all_destinations" (MList (unique dests)) then
      let! modes := lift (getcol df "TRANSPORT CODE") in
      run put_meta "transport_modes" (MList (unique modes)) then
      put_meta "source_ius" (MList (unique all_sources))
  | None => ret tt
  end.

(** The part on the periods: from the logistics table, else from the demand
    table. *)
Definition extract_periods (d : dict DataFrame) : M unit :=
  match dict_get d "Logistics", dict_get d "Demand" with
  | Some df, _ | None, Some df =>
      let! col := lift (getcol df "TIME PERIOD") in
      let! periods := lift (py_sorted (unique col)) in
      put_meta "periods" (MList periods)
  | None, None => ret tt
  end.

(** [_extract_metadata]. *)
Definition _extract_metadata : M unit :=
  let! st := get in
  run extract_plants (data st) then
  run extract_logistics (data st) then
  run extract_periods (data st) then
  run put_meta "record_counts"
        (MCounts (map (fun '(sheet, df) => (sheet, List.length (rows df))) (data st))) then
  run (if dict_mem (data st) "Logistics" then _build_route_index else ret tt) then
  _filter_sources_with_complete_data.

(** ** Loading *)

(** An opened workbook: its sheets in order, each with the frame
    [pd.read_excel] gives, or [None] when reading the sheet raises. *)
Definition workbook : Type := list (string * option DataFrame).

(** A folder: the files that exist, each with the frame [pd.read_csv]
    gives, or [None] when reading the file raises. *)
Definition folder : Type := dict (option DataFrame).

Definition stem (config : sheet_config) : string := remove_all ".csv" (file config).

Definition match_sheet (sheet_names : list string) (sheet_name : string)
           (config : sheet_config) : option string :=
  find (fun s => String.eqb (lower s) (lower sheet_name)
                 || String.eqb (lower s) (lower (stem config)))
       sheet_names.

Definition missing_columns (df : DataFrame) (config : sheet_config) : list string :=
  let df_cols_upper := map upper (columns df) in
  filter (fun col => negb (existsb (String.eqb (upper col)) df_cols_upper))
         (config_columns config).

Record excel_scan : Type := mkScan {
  scan_data : dict DataFrame;
  missing_sheets : list string;
  invalid_columns : list load_error;
  validation_errors : list load_error
}.

(** One turn of the loop of [load_from_excel] over [SHEET_CONFIG]. *)
Definition scan_sheet (book : workbook) (acc : excel_scan)
           (entry : string * sheet_config) : excel_scan :=
  let '(sheet_name, config) := entry in
  let store df :=
    mkScan (dict_set (scan_data acc) sheet_name df) (missing_sheets acc)
           (invalid_columns acc) (validation_errors acc) in
  match match_sheet (map fst book) sheet_name config with
  | Some matched_sheet =>
      match dict_get book matched_sheet with
      | Some (Some df0) =>
          let df := strip_columns df0 in
          if required config then
            match missing_columns df config with
            | [] => store df
            | missing_cols =>
                mkScan (scan_data acc) (missing_sheets acc)
                       (invalid_columns acc
                          ++ [SheetMissingColumns matched_sheet missing_cols])%list
                       (validation_errors acc)
            end
          else store df
      | _ =>
          if required config then
            mkScan (scan_data acc) (missing_sheets acc) (invalid_columns acc)
                   (validation_errors acc ++ [FailedToReadSheet matched_sheet])%list
          else acc
      end
  | None =>
      if required config then
        mkScan (scan_data acc)
               (missing_sheets acc
                  ++ [(sheet_name ++ " (expected: " ++ stem config ++ ")")%string])%list
               (invalid_columns acc) (validation_errors acc)
      else acc
  end.

Record LoadResult : Type := mkLoadResult {
  success : bool;
  errors : list load_error;
  result_metadata : Metadata;
  sheets_found : list string;
  sheets_required : list string
}.

(** The loop of [load_from_excel]. *)
Definition scan_workbook (book : workbook) : excel_scan :=
  fold_left (scan_sheet book) SHEET_CONFIG (mkScan [] [] [] []).

(** The error lines built from what the loop found. *)
Definition scan_errors (sc : excel_scan) : list load_error :=
  ((match missing_sheets sc with
    | [] => []
    | ms => [MissingRequiredSheets ms]
    end) ++ invalid_columns sc ++ validation_errors sc)%list.

(** [load_from_excel] on an opened workbook. *)
Definition load_from_excel (st : state) (book : workbook) : state * LoadResult :=
  let sc := scan_workbook book in
  let errs := scan_errors sc in
  let st' :=
    match errs with
    | [] =>
        (* only marked as loaded when every required sheet is present and valid *)
        match _extract_metadata (mkState (scan_data sc) [] true []) with
        | (st1, Ok _) => st1
        | (st1, Raise e) =>
            mkState (data st1) (metadata st1) (is_loaded st1)
                    (load_errors st1 ++ [FailedToOpen e])%list
        end
    | _ =>
        mkState (scan_data sc) [] (is_loaded st)
          (errs ++ [BlankLine; RequiredStructure]
                ++ map (fun '(sheet_name, config) =>
                          RequiredSheetLine sheet_name (file config) (config_columns config))
                       required_sheets)%list
    end in
  (st', mkLoadResult (forallb (fun e => negb (marked e)) (load_errors st'))
          (load_errors st')
          (if is_loaded st' then metadata st' else [])
          (dict_keys (data st'))
          (dict_keys required_sheets)).

(** One turn of the loop of [load_from_folder] over [SHEET_CONFIG]. *)
Definition read_file (dir : folder) (acc : dict DataFrame * list load_error)
           (entry : string * sheet_config) : dict DataFrame * list load_error :=
  let '(sheet_name, config) := entry in
  let '(d, errs) := acc in
  match dict_get dir (file config) with
  | Some (Some df) => (dict_set d sheet_name (strip_columns df), errs)
  | Some None =>
      if required config then (d, (errs ++ [FailedToLoad (file config)])%list) else acc
  | None =>
      if required config then (d, (errs ++ [RequiredFileMissing (file config)])%list)
      else acc
  end.

(** The loop of [load_from_folder]. *)
Definition read_folder (dir : folder) : dict DataFrame * list load_error :=
  fold_left (read_file dir) SHEET_CONFIG ([], []).

(** [load_from_folder]; an exception of [_extract_metadata] is not caught. *)
Definition load_from_folder (st : state) (dir : folder) : state * result LoadResult :=
  let '(d, errs) := read_folder dir in
  let answer st' :=
    mkLoadResult (Nat.eqb (List.length (load_errors st')) 0) (load_errors st')
      (if is_loaded st' then metadata st' else []) [] [] in
  match errs with
  | [] =>
      match _extract_metadata (mkState d [] true []) with
      | (st1, Ok _) => (st1, Ok (answer st1))
      | (st1, Raise e) => (st1, Raise e)
      end
  | _ =>
      let st' := mkState d [] (is_loaded st) errs in
      (st', Ok (answer st'))
  end.

(** ** Selection *)

Inductive selection_error : Type :=
| NoDatasetLoaded
| SourceNotFound (source : string)
| RouteNotFound (source destination : string)
| ModeNotAvailable (mode source destination : string)
| PeriodNotFound (period : Z).

Record Validation : Type := mkValidation {
  valid : bool;
  selection_errors : list selection_error;
  warnings : list string
}.

Definition reject (v : Validation) (e : selection_error) : Validation :=
  mkValidation false (selection_errors v ++ [e])%list (warnings v).

(** Truth value of an optional text: [None] and the empty text are false. *)
Definition truthy (s : option string) : option string :=
  match s with
  | Some EmptyString => None
  | _ => s
  end.

(** Truth value of an optional integer: [None] and [0] are false. *)
Definition truthy_int (p : option Z) : option Z :=
  match p with
  | Some 0%Z => None
  | _ => p
  end.

(** [validate_selection]. *)
Definition validate_selection (st : state) (source destination mode : option string)
           (period : option Z) : result Validation :=
  let validation := mkValidation true [] [] in
  if negb (is_loaded st) then Ok (reject validation NoDatasetLoaded)
  else
    let validation :=
      match truthy source with
      | Some s =>
          if negb (cell_in (CStr s) (meta_list (metadata st) "source_ius"))
          then reject validation (SourceNotFound s)
          else validation
      | None => validation
      end in
    do validation <-
      match truthy source, truthy destination with
      | Some s, Some d =>
          do valid_destinations <- get_destinations_for_source st (CStr s);
          if negb (cell_in (CStr d) valid_destinations)
          then Ok (reject validation (RouteNotFound s d))
          else Ok validation
      | _, _ => Ok validation
      end;
    do validation <-
      match truthy source, truthy destination, truthy mode with
      | Some s, Some d, Some m =>
          do valid_modes <- get_modes_for_route st (CStr s) (CStr d);
          if negb (cell_in (CStr m) valid_modes)
          then Ok (reject validation (ModeNotAvailable m s d))
          else Ok validation
      | _, _, _ => Ok validation
      end;
    match truthy_int period with
    | Some p =>
        if negb (cell_in (CNum (inject_Z p)) (meta_list (metadata st) "periods"))
        then Ok (reject validation (PeriodNotFound p))
        else Ok validation
    | None => Ok validation
    end.

End Parser.

(** * api.py: loading and the route operations *)

Module Api.

(** The two global instances: [parser] and [optimizer]. *)
Record state : Type := mkState {
  parser : Parser.state;
  optimizer : Optimizer.state
}.

Definition init : state := mkState Parser.init Optimizer.init.

Section Coercion.

Variable to_numeric : string -> option Q.

(** [optimizer.load_data(parser.data)]. The optimizer keeps the parser's
    dictionary itself and coerces its tables in place: from then on both
    hold the coerced tables, until the parser starts its next load with a
    fresh dictionary. *)
Definition share_data (p : Parser.state) (o : Optimizer.state) : state :=
  let o' := Optimizer.load_data to_numeric (Parser.data p) in
  mkState (Parser.mkState (Optimizer.data o') (Parser.metadata p)
             (Parser.is_loaded p) (Parser.load_errors p))
          o'.

(** [upload_file] for an Excel file. *)
Definition upload_file (st : state) (book : Parser.workbook) : state * Parser.LoadResult :=
  let '(p, answer) := Parser.load_from_excel (parser st) book in
  (if Parser.success answer then share_data p (optimizer st)
   else mkState p (optimizer st),
   answer).

(** [load_from_folder], [load_default_data] and [upload_multiple_files]
    once the files are in their folder. *)
Definition load_from_folder (st : state) (dir : Parser.folder)
  : state * result Parser.LoadResult :=
  match Parser.load_from_folder (parser st) dir with
  | (p, Ok answer) =>
      (if Parser.success answer then share_data p (optimizer st)
       else mkState p (optimizer st),
       Ok answer)
  | (p, Raise e) => (mkState p (optimizer st), Raise e)
  end.

End Coercion.

(** The vehicle capacity in a mode detail: a number, or the text
    ['Not available']. *)
Inductive capacity_detail : Type :=
| CapacityOf (c : Z)
| CapacityNotAvailable.

Record mode_detail : Type := mkModeDetail {
  code : cell;
  detail_name : cell;
  detail_vehicle_capacity : capacity_detail
}.

(** [mode in parser.TRANSPORT_INFO], with the entry. *)
Definition transport_info_of (mode : cell) : option Parser.transport_info :=
  match mode with
  | CStr m => dict_get Parser.TRANSPORT_INFO m
  | _ => None
  end.

Definition detail_of (mode : cell) : mode_detail :=
  match transport_info_of mode with
  | Some info =>
      mkModeDetail mode (CStr (Parser.name info)) (CapacityOf (Parser.vehicle_capacity info))
  | None => mkModeDetail mode mode CapacityNotAvailable
  end.

Inductive modes_response : Type :=
| ModesNoDataset
| ModesInvalid (errors : list Parser.selection_error)
| ModesOk (modes : list mode_detail).

(** [get_transport_modes]: the modes of a route, with their details. *)
Definition get_transport_modes (st : state) (source destination : string)
  : result modes_response :=
  if negb (Parser.is_loaded (parser st)) then Ok ModesNoDataset
  else
    do validation <-
      Parser.validate_selection (parser st) (Some source) (Some destination) None None;
    if negb (Parser.valid validation)
    then Ok (ModesInvalid (Parser.selection_errors validation))
    else
      do modes <- Parser.get_modes_for_route (parser st) (CStr source) (CStr destination);
      Ok (ModesOk (map detail_of modes)).

Inductive route_response : Type :=
| RouteNoDataset
| RouteMissingParameters
| RouteInvalid (errors : list Parser.selection_error)
| RouteOk (solution : Optimizer.MilpResult).

(** [get_route_data]: all the insights for a route. The four arguments are
    the query parameters, [None] when a parameter is absent (or, for the
    period, is not an integer). *)
Definition get_route_data (st : state) (source destination mode : option string)
           (period : option Z) : result route_response :=
  if negb (Parser.is_loaded (parser st)) then Ok RouteNoDataset
  else
    match Parser.truthy source, Parser.truthy destination, Parser.truthy mode,
          Parser.truthy_int period with
    | Some s, Some d, Some m, Some p =>
        do validation <- Parser.validate_selection (parser st) source destination mode period;
        if negb (Parser.valid validation)
        then Ok (RouteInvalid (Parser.selection_errors validation))
        else
          do route_data <- Optimizer.get_all_data_for_route (optimizer st) s d m p;
          Ok (RouteOk route_data)
    | _, _, _, _ => Ok RouteMissingParameters
    end.

End Api.

(** * Statements about the tables *)

Module Spec.

(** The cell of row [r] of [df] in column [c], when [df] has the column. *)
Definition field (df : DataFrame) (c : string) (r : row) : option cell :=
  option_map (fun i => cell_at i r) (index_of c (columns df)).

(** Row [r] of [df] holds [v] in column [c]. *)
Definition field_eqb (df : DataFrame) (c : string) (v : cell) (r : row) : bool :=
  match field df c r with
  | Some x => cell_eqb x v
  | None => false
  end.

(** Row [r] of the logistics table belongs to the pair. *)
Definition pair_row (logistics : DataFrame) (source destination : cell) (r : row) : bool :=
  field_eqb logistics "FROM IU CODE" source r
  && field_eqb logistics "TO IUGU CODE" destination r.

(** Row [r] of the logistics table has a freight cost that is not missing. *)
Definition has_freight (logistics : DataFrame) (r : row) : bool :=
  match field logistics "FREIGHT COST" r with
  | Some x => negb (isna x)
  | None => false
  end.

(** Some logistics row of the pair has a freight cost. *)
Definition some_row_has_freight (tables : dict DataFrame) (source destination : cell) : Prop :=
  exists logistics r,
    dict_get tables "Logistics" = Some logistics
    /\ In r (rows logistics)
    /\ pair_row logistics source destination r = true
    /\ has_freight logistics r = true.

(** The first logistics row of the pair, in table order, has a freight
    cost. *)
Definition first_row_has_freight (tables : dict DataFrame) (source destination : cell) : Prop :=
  exists logistics before r after,
    dict_get tables "Logistics" = Some logistics
    /\ rows logistics = (before ++ r :: after)%list
    /\ (forall r', In r' before -> pair_row logistics source destination r' = false)
    /\ pair_row logistics source destination r = true
    /\ has_freight logistics r = true.

(** The column that names the plant in the production-cost and capacity
    tables. *)
Definition plant_column (df : DataFrame) : string :=
  if has_column df "IU CODE" then "IU CODE" else "IUGU CODE".

(** Table [sheet] has a row for [plant]. *)
Definition has_plant_row (tables : dict DataFrame) (sheet : string) (plant : cell) : Prop :=
  exists df r,
    dict_get tables sheet = Some df
    /\ In r (rows df)
    /\ field_eqb df (plant_column df) plant r = true.

(** The demand table has a row for [plant], whatever the period. *)
Definition has_demand_row (tables : dict DataFrame) (plant : cell) : Prop :=
  exists df r,
    dict_get tables "Demand" = Some df
    /\ In r (rows df)
    /\ field_eqb df "IUGU CODE" plant r = true.

(** The demand table has a row for [plant] in [period]. *)
Definition has_demand_row_in (tables : dict DataFrame) (plant : cell) (period : Z) : Prop :=
  exists df r,
    dict_get tables "Demand" = Some df
    /\ In r (rows df)
    /\ field_eqb df "IUGU CODE" plant r = true
    /\ field_eqb df "TIME PERIOD" (CNum (inject_Z period)) r = true.

(** Completeness of a pair with "some row of the pair has a freight cost". *)
Definition complete_any_row (tables : dict DataFrame) (source destination : cell) : Prop :=
  some_row_has_freight tables source destination
  /\ has_plant_row tables "ProductionCost" source
  /\ has_plant_row tables "Capacity" source
  /\ has_demand_row tables destination.

(** Completeness of a pair with "the first row of the pair has a freight
    cost". *)
Definition complete_first_row (tables : dict DataFrame) (source destination : cell) : Prop :=
  first_row_has_freight tables source destination
  /\ has_plant_row tables "ProductionCost" source
  /\ has_plant_row tables "Capacity" source
  /\ has_demand_row tables destination.

(** The logistics table, when there is one, has the columns that key a
    route. *)
Definition route_columns (tables : dict DataFrame) : bool :=
  match dict_get tables "Logistics" with
  | Some logistics =>
      has_column logistics "FROM IU CODE"
      && has_column logistics "TO IUGU CODE"
      && has_column logistics "TRANSPORT CODE"
  | None => true
  end.

(** Frame [df] has every column of [config], the names compared without
    regard to case. *)
Definition has_all_columns (df : DataFrame) (config : Parser.sheet_config) : Prop :=
  forall col, In col (Parser.config_columns config) ->
    exists c, In c (columns df) /\ upper c = upper col.

(** A method of the parser that leaves the tables, the loaded flag and the
    error lines as they are. *)
Definition keeps_tables {A : Type} (m : Parser.M A) : Prop :=
  forall st,
    Parser.data (fst (m st)) = Parser.data st
    /\ Parser.is_loaded (fst (m st)) = Parser.is_loaded st
    /\ Parser.load_errors (fst (m st)) = Parser.load_errors st.

(** The cell is a text. *)
Definition is_text (c : cell) : bool :=
  match c with
  | CStr _ => true
  | _ => false
  end.

(** Column [col] of [df], when there is one, holds no text. *)
Definition column_without_text (df : DataFrame) (col : string) : bool :=
  match getcol df col with
  | Ok cells => forallb (fun c => negb (is_text c)) cells
  | Raise _ => true
  end.

(** No column that the calculator converts to numbers holds a text: the
    numeric columns of the tables hold numbers and NaN only, as pandas
    reads them from numeric data. *)
Definition numeric_columns_without_text (tables : dict DataFrame) : bool :=
  forallb (fun '(sheet, cols) =>
             match dict_get tables sheet with
             | Some df => forallb (column_without_text df) cols
             | None => true
             end)
          Optimizer.numeric_mappings.

(** A method of the parser that leaves the entry [key] of the metadata as
    it is. *)
Definition keeps_meta (key : string) {A : Type} (m : Parser.M A) : Prop :=
  forall st,
    dict_get (Parser.metadata (fst (m st))) key = dict_get (Parser.metadata st) key.

(** Table [df], stored under [name], is a sheet of [book] with its column
    names stripped, and no column its schema entry requires is missing. *)
Definition stored_from (book : Parser.workbook) (name : string) (df : DataFrame) : Prop :=
  exists config sheet df0,
    dict_get Parser.SHEET_CONFIG name = Some config
    /\ dict_get book sheet = Some (Some df0)
    /\ df = Parser.strip_columns df0
    /\ (Parser.required config = true -> Parser.missing_columns df config = []).

End Spec.

(** * Datasets used in the examples *)

Module Examples.

Definition num (z : Z) : cell := CNum (inject_Z z).
Definition txt (s : string) : cell := CStr s.

(** A text cell read as no number. *)
Definition no_number : string -> option Q := fun _ => None.

Definition plant_types : DataFrame :=
  mkDataFrame ["IUGU CODE"; "PLANT TYPE"]
    [ [txt "IU1"; txt "IU"]; [txt "GU1"; txt "GU"]; [txt "GU2"; txt "GU"] ].

(** Routes of IU1: to GU1 by T1 in periods 1 and 2 and by T3 in period 1; to
    GU2 by T1, the freight cost missing in the first of the two rows. *)
Definition logistics : DataFrame :=
  mkDataFrame
    ["FROM IU CODE"; "TO IUGU CODE"; "TRANSPORT CODE"; "TIME PERIOD";
     "FREIGHT COST"; "HANDLING COST"; "QUANTITY MULTIPLIER"]
    [ [txt "IU1"; txt "GU1"; txt "T1"; num 1; num 5; num 1; num 30];
      [txt "IU1"; txt "GU1"; txt "T1"; num 2; num 5; num 1; num 30];
      [txt "IU1"; txt "GU1"; txt "T3"; num 1; num 2; num 1; num 10000];
      [txt "IU1"; txt "GU2"; txt "T1"; num 1; CNaN; num 1; num 30];
      [txt "IU1"; txt "GU2"; txt "T1"; num 2; num 7; num 1; num 30] ].

(** GU1 has a demand in period 1 only. *)
Definition demand : DataFrame :=
  mkDataFrame ["IUGU CODE"; "TIME PERIOD"; "DEMAND"]
    [ [txt "GU1"; num 1; num 200]; [txt "GU2"; num 1; num 40] ].

Definition capacities : DataFrame :=
  mkDataFrame ["IU CODE"; "TIME PERIOD"; "CAPACITY"]
    [ [txt "IU1"; num 1; num 1000]; [txt "IU1"; num 2; num 1000] ].

Definition production_costs : DataFrame :=
  mkDataFrame ["IU CODE"; "TIME PERIOD"; "PRODUCTION COST"]
    [ [txt "IU1"; num 1; num 10]; [txt "IU1"; num 2; num 10] ].

Definition opening_stock : DataFrame :=
  mkDataFrame ["IUGU CODE"; "OPENING STOCK"]
    [ [txt "IU1"; num 100]; [txt "GU1"; num 20]; [txt "GU2"; num 0] ].

Definition closing_stock : DataFrame :=
  mkDataFrame ["IUGU CODE"; "TIME PERIOD"; "MIN CLOSE STOCK"; "MAX CLOSE STOCK"]
    [ [txt "IU1"; num 1; num 50; CNaN]; [txt "GU1"; num 1; num 30; CNaN];
      [txt "IU1"; num 2; num 50; CNaN]; [txt "GU1"; num 2; num 30; CNaN] ].

(** A workbook with the seven required sheets. *)
Definition book : Parser.workbook :=
  [ ("IUGUType", Some plant_types);
    ("LogisticsIUGU", Some logistics);
    ("Demand", Some demand);
    ("Capacity", Some capacities);
    ("ProductionCost", Some production_costs);
    ("OpeningStock", Some opening_stock);
    ("ClosingStock", Some closing_stock) ].

(** A workbook with one of the required sheets only. *)
Definition partial_book : Parser.workbook :=
  [ ("IUGUType", Some plant_types) ].

(** The state once [book] is uploaded. *)
Definition loaded : Api.state := fst (Api.upload_file no_number Api.init book).

(** A folder with the seven required files, the demand file without its
    period and demand columns. *)
Definition folder_short_demand : Parser.folder :=
  [ ("IUGUType.csv", Some plant_types);
    ("LogisticsIUGU.csv", Some logistics);
    ("ClinkerDemand.csv", Some (mkDataFrame ["IUGU CODE"] [ [txt "GU1"]; [txt "GU2"] ]));
    ("ClinkerCapacity.csv", Some capacities);
    ("ProductionCost.csv", Some production_costs);
    ("IUGUOpeningStock.csv", Some opening_stock);
    ("IUGUClosingStock.csv", Some closing_stock) ].

(** A folder with the seven required files, the logistics file without its
    column of periods. *)
Definition folder_no_period : Parser.folder :=
  [ ("IUGUType.csv", Some plant_types);
    ("LogisticsIUGU.csv",
     Some (mkDataFrame ["FROM IU CODE"; "TO IUGU CODE"; "TRANSPORT CODE"; "FREIGHT COST"]
             [ [txt "IU1"; txt "GU1"; txt "T1"; num 100] ]));
    ("ClinkerDemand.csv", Some demand);
    ("ClinkerCapacity.csv", Some capacities);
    ("ProductionCost.csv", Some production_costs);
    ("IUGUOpeningStock.csv", Some opening_stock);
    ("IUGUClosingStock.csv", Some closing_stock) ].

(** A folder where the capacity file is absent. *)
Definition folder_no_capacity : Parser.folder :=
  [ ("IUGUType.csv", Some plant_types);
    ("LogisticsIUGU.csv", Some logistics);
    ("ClinkerDemand.csv", Some demand) ].

(** The route of scenario A of the specification. *)
Definition route_A : Optimizer.RouteData :=
  Optimizer.mkRouteData "IU1" "GU1" "T1" 1
    (Optimizer.VNum 5) (Optimizer.VNum 1) (Optimizer.VNum 30)
    (Optimizer.VNum 10) (Optimizer.VNum 1000)
    Optimizer.NOT_AVAILABLE (Optimizer.VNum 200) Optimizer.NOT_AVAILABLE
    (Optimizer.VNum 100) (Optimizer.VNum 20)
    (Optimizer.VNum 50) Optimizer.NOT_AVAILABLE
    (Optimizer.VNum 30) Optimizer.NOT_AVAILABLE
    (Optimizer.VStr "IU") (Optimizer.VStr "GU")
    Optimizer.NOT_AVAILABLE Optimizer.NOT_AVAILABLE
    [] (Optimizer.VNum 6) (Optimizer.VNum 16) 7%Z 1200 50 (-10) true.

(** Routes for the calculator on Python's numbers. *)
Section PythonRoutes.

Import PrimFloat.
Set Warnings "-inexact-float".

Definition route_of (source_capacity source_demand destination_demand source_opening_stock
                       destination_opening_stock source_closing_min destination_closing_min
                       : Binary64.value) (source_type : string) : Binary64.RouteData :=
  Binary64.mkRouteData source_capacity source_demand destination_demand
    source_opening_stock destination_opening_stock source_closing_min
    destination_closing_min (Binary64.VStr source_type).

Definition NA : Binary64.value := Binary64.NOT_AVAILABLE.

(** The route of scenario A, its numbers as floats. *)
Definition route_A_floats : Binary64.RouteData :=
  route_of (Binary64.VNum 1000) NA (Binary64.VNum 200) (Binary64.VNum 100)
    (Binary64.VNum 20) (Binary64.VNum 50) (Binary64.VNum 30) "IU".

(** An IU source whose minimum closing stock is 0.004 above its
    capacity; no other field is given. *)
Definition route_small_violation : Binary64.RouteData :=
  route_of (Binary64.VNum 100) NA NA NA NA (Binary64.VNum 100.004) NA "IU".



(** A source that opens with a stock of 0.125. *)
Definition route_eighth : Binary64.RouteData :=
  route_of NA NA NA (Binary64.VNum 0.125) NA NA NA "GU".

End PythonRoutes.

End Examples.

(** * Properties *)

Import Optimizer.

(** ** Numbers *)



(** ** The calculator *)





(** Steps 1 and 2, read off the computed solution. *)
Lemma solve_shipment (route : RouteData) (mode : string) :
  let s := solve route mode in
  vehicle_capacity s = mode_capacity mode
  /\ required_shipment s
     = max0 (_num (destination_closing_min route) 0
             + _num (destination_demand route) 0
             - _num (destination_opening_stock route) 0)
  /\ num_trips s
     = (if (0 <? vehicle_capacity s)%Z && Qltb 0 (required_shipment s)
        then Qceiling (required_shipment s / inject_Z (vehicle_capacity s))
        else 0%Z)
  /\ shipment_qty s = (num_trips s * vehicle_capacity s)%Z.
Proof.
  cbv zeta.
  unfold solve;
  destruct ((0 <? mode_capacity mode)%Z
            && Qltb 0 (max0 (_num (destination_closing_min route) 0
                             + _num (destination_demand route) 0
                             - _num (destination_opening_stock route) 0))) eqn:E;
  destruct (value_eqb (source_type route) (VStr "IU"));
  cbv zeta; cbv iota beta;
  try match goal with
      | |- context [if (Qltb ?c ?r && Qltb 0 ?c) then _ else _] =>
          destruct (Qltb c r && Qltb 0 c)
      end;
  cbv iota beta;
  cbn [vehicle_capacity required_shipment num_trips shipment_qty];
  rewrite E; repeat split; reflexivity.
Qed.

(** Steps 3 to 5 and the issue list, read off the computed solution. *)
Lemma solve_production (route : RouteData) (mode : string) :
  let s := solve route mode in
  let shipment := inject_Z (shipment_qty s) in
  s_open s = _num (source_opening_stock route) 0
  /\ s_demand s = _num (source_demand route) 0
  /\ d_open s = _num (destination_opening_stock route) 0
  /\ d_demand s = _num (destination_demand route) 0
  /\ is_iu s = value_eqb (source_type route) (VStr "IU")
  /\ (required_production s, production s, capacity_violation s)
     = (if is_iu s
        then
          let required := max0 (s_close_min s + shipment + s_demand s - s_open s) in
          if Qltb (capacity s) required && Qltb 0 (capacity s)
          then (required, capacity s, required - capacity s)
          else (required, required, 0)
        else (0, 0, 0))
  /\ source_ending_inv s = s_open s + production s - shipment - s_demand s
  /\ dest_ending_inv s = d_open s + shipment - d_demand s
  /\ source_ss_satisfied s = Qle_bool (s_close_min s - (1 # 100)) (source_ending_inv s)
  /\ dest_ss_satisfied s = Qle_bool (d_close_min s - (1 # 100)) (dest_ending_inv s)
  /\ is_feasible s
     = source_ss_satisfied s && dest_ss_satisfied s && Qeq_bool (capacity_violation s) 0
  /\ issues s
     = ((if Qltb 0 (capacity_violation s)
         then [CapacityShortfall (required_production s) (capacity s) (capacity_violation s)]
         else [])
        ++ (if negb (source_ss_satisfied s)
            then [SourceBelowSafetyStock (source_ending_inv s) (s_close_min s)]
            else [])
        ++ (if negb (dest_ss_satisfied s)
            then [DestinationBelowSafetyStock (dest_ending_inv s) (d_close_min s)]
            else []))%list.
Proof.
  cbv zeta.
  unfold solve;
  destruct ((0 <? mode_capacity mode)%Z
            && Qltb 0 (max0 (_num (destination_closing_min route) 0
                             + _num (destination_demand route) 0
                             - _num (destination_opening_stock route) 0)));
  destruct (value_eqb (source_type route) (VStr "IU"));
  cbv zeta; cbv iota beta;
  try match goal with
      | |- context [if (Qltb ?c ?r && Qltb 0 ?c) then _ else _] =>
          destruct (Qltb c r && Qltb 0 c) eqn:Hcap
      end;
  cbv iota beta;
  cbn [vehicle_capacity required_shipment num_trips shipment_qty is_iu
       required_production production capacity_violation source_ending_inv
       dest_ending_inv excess_at_dest source_ss_satisfied dest_ss_satisfied
       is_feasible issues s_open d_open s_demand d_demand s_close_min
       d_close_min capacity];
  try rewrite Hcap; repeat split; reflexivity.
Qed.




(** ** Data frames *)

Lemma has_column_index (df : DataFrame) (c : string) :
  has_column df c = true <-> exists i, index_of c (columns df) = Some i.
Proof.
  unfold has_column. induction (columns df) as [| x l IH]; cbn.
  - split; [discriminate | intros [i H]; discriminate].
  - destruct (String.eqb c x); cbn.
    + split; [intros _; exists O; reflexivity | reflexivity].
    + rewrite IH. split; intros [i H].
      * exists (S i). rewrite H. reflexivity.
      * destruct (index_of c l) as [j |]; [exists j; reflexivity | discriminate].
Qed.

Lemma has_column_none (df : DataFrame) (c : string) :
  has_column df c = false <-> index_of c (columns df) = None.
Proof.
  rewrite <- not_true_iff_false, has_column_index. split.
  - intros H. destruct (index_of c (columns df)) as [i |]; [| reflexivity].
    exfalso. apply H. exists i. reflexivity.
  - intros H [i Hi]. congruence.
Qed.

Lemma select_rows_map (f : row -> bool) (rs : list row) :
  select_rows rs (map f rs) = filter f rs.
Proof.
  induction rs as [| r rs IH]; cbn; [reflexivity |].
  destruct (f r); rewrite IH; reflexivity.
Qed.

Lemma mask_and_map (f g : row -> bool) (rs : list row) :
  mask_and (map f rs) (map g rs) = map (fun r => f r && g r) rs.
Proof.
  induction rs as [| r rs IH]; cbn; [reflexivity |].
  rewrite IH. reflexivity.
Qed.

Lemma mask_eq_field (df : DataFrame) (c : string) (v : cell) :
  has_column df c = true ->
  mask_eq df c v = Ok (map (Spec.field_eqb df c v) (rows df)).
Proof.
  intros H. apply has_column_index in H. destruct H as [i Hi].
  unfold mask_eq, getcol, Spec.field_eqb, Spec.field. rewrite Hi. cbn.
  rewrite map_map. reflexivity.
Qed.

Lemma mask_eq_raise (df : DataFrame) (c : string) (v : cell) :
  has_column df c = false -> mask_eq df c v = Raise (KeyError c).
Proof.
  intros H. apply has_column_none in H.
  unfold mask_eq, getcol. rewrite H. reflexivity.
Qed.

Lemma field_eqb_no_column (df : DataFrame) (c : string) (v : cell) (r : row) :
  has_column df c = false -> Spec.field_eqb df c v r = false.
Proof.
  intros H. apply has_column_none in H.
  unfold Spec.field_eqb, Spec.field. rewrite H. reflexivity.
Qed.

(** The rows [rows_with] keeps are the rows that hold the value. *)
Lemma rows_with_filter (df : DataFrame) (c : string) (v : cell) :
  rows (Parser.rows_with df c v) = filter (Spec.field_eqb df c v) (rows df).
Proof.
  unfold Parser.rows_with. destruct (has_column df c) eqn:H.
  - rewrite (mask_eq_field _ _ _ H). cbn. apply select_rows_map.
  - rewrite (mask_eq_raise _ _ _ H). cbn.
    induction (rows df) as [| r rs IH]; cbn; [reflexivity |].
    rewrite (field_eqb_no_column _ _ _ _ H). exact IH.
Qed.

Lemma filter_nonempty {A : Type} (f : A -> bool) (l : list A) :
  filter f l <> [] <-> exists x, In x l /\ f x = true.
Proof.
  split.
  - intros H. destruct (filter f l) as [| x t] eqn:E; [congruence |].
    exists x. apply filter_In. rewrite E. left. reflexivity.
  - intros [x Hx] E. apply filter_In in Hx. rewrite E in Hx. exact Hx.
Qed.

(** The head of a filtered list is the first element that passes. *)
Lemma filter_head {A : Type} (f : A -> bool) (l : list A) (x : A) :
  (exists t, filter f l = x :: t)
  <-> exists before after,
        l = (before ++ x :: after)%list
        /\ (forall y, In y before -> f y = false)
        /\ f x = true.
Proof.
  induction l as [| a l IH]; cbn.
  - split.
    + intros [t H]. discriminate.
    + intros (before & after & H & _). destruct before; discriminate.
  - destruct (f a) eqn:Ha.
    + split.
      * intros [t H]. injection H as -> _.
        exists [], l. repeat split; [intros y [] | exact Ha].
      * intros (before & after & H & Hb & Hx).
        destruct before as [| b before]; cbn in H.
        -- injection H as -> _. eexists. reflexivity.
        -- injection H as -> _. specialize (Hb b (or_introl eq_refl)). congruence.
    + rewrite IH. split.
      * intros (before & after & -> & Hb & Hx).
        exists (a :: before), after. repeat split; [| exact Hx].
        intros y [<- | Hy]; [exact Ha | apply Hb, Hy].
      * intros (before & after & H & Hb & Hx).
        destruct before as [| b before]; cbn in H.
        -- injection H as -> _. congruence.
        -- injection H as -> ->. exists before, after. repeat split; [| exact Hx].
           intros y Hy. apply Hb. right. exact Hy.
Qed.

Lemma empty_rows (df : DataFrame) : empty df = true <-> rows df = [].
Proof.
  unfold empty. destruct (rows df); split; congruence.
Qed.

(** A table has a row for a plant exactly when [rows_of_plant] selects a
    frame that is not empty. *)
Lemma rows_of_plant_spec (tables : dict DataFrame) (sheet : string) (plant : cell) :
  Spec.has_plant_row tables sheet plant
  <-> exists df selected,
        dict_get tables sheet = Some df
        /\ Parser.rows_of_plant df plant = Some selected
        /\ empty selected = false.
Proof.
  unfold Spec.has_plant_row, Parser.rows_of_plant, Spec.plant_column. split.
  - intros (df & r & Hdf & Hr & Hf). exists df.
    destruct (has_column df "IU CODE") eqn:H1;
      [| destruct (has_column df "IUGU CODE") eqn:H2].
    + eexists. repeat split; [exact Hdf |].
      apply not_true_iff_false. rewrite empty_rows, rows_with_filter.
      apply filter_nonempty. exists r. split; assumption.
    + eexists. repeat split; [exact Hdf |].
      apply not_true_iff_false. rewrite empty_rows, rows_with_filter.
      apply filter_nonempty. exists r. split; assumption.
    + rewrite field_eqb_no_column in Hf by exact H2. discriminate.
  - intros (df & selected & Hdf & Hsel & Hne). exists df.
    apply not_true_iff_false in Hne. rewrite empty_rows in Hne.
    destruct (has_column df "IU CODE") eqn:H1;
      [| destruct (has_column df "IUGU CODE") eqn:H2];
      try discriminate;
      injection Hsel as <-; rewrite rows_with_filter in Hne;
      apply filter_nonempty in Hne; destruct Hne as (r & Hr & Hf);
      exists r; repeat split; assumption.
Qed.

Lemma demand_row_spec (tables : dict DataFrame) (plant : cell) :
  Spec.has_demand_row tables plant
  <-> exists df,
        dict_get tables "Demand" = Some df
        /\ empty (Parser.rows_with df "IUGU CODE" plant) = false.
Proof.
  unfold Spec.has_demand_row. split.
  - intros (df & r & Hdf & Hr & Hf). exists df. split; [exact Hdf |].
    apply not_true_iff_false. rewrite empty_rows, rows_with_filter.
    apply filter_nonempty. exists r. split; assumption.
  - intros (df & Hdf & Hne). exists df.
    apply not_true_iff_false in Hne. rewrite empty_rows, rows_with_filter in Hne.
    apply filter_nonempty in Hne. destruct Hne as (r & Hr & Hf).
    exists r. repeat split; assumption.
Qed.

(** ** The route-validity index *)

Lemma freight_missing_head (logistics : DataFrame) (m : list bool) (r : row) (t : list row) :
  rows (select logistics m) = r :: t ->
  Parser.freight_missing (select logistics m) = negb (Spec.has_freight logistics r).
Proof.
  intros H. unfold Parser.freight_missing, Spec.has_freight, Spec.field.
  rewrite H. cbn [select columns].
  destruct (index_of "FREIGHT COST" (columns logistics)); cbn; [| reflexivity].
  rewrite negb_involutive. reflexivity.
Qed.

Ltac refute_complete :=
  exists false; split; [reflexivity |];
  split; [discriminate |];
  let Hp := fresh "Hp" in
  let Hc := fresh "Hc" in
  let Hd := fresh "Hd" in
  intros (_ & Hp & Hc & Hd);
  apply rows_of_plant_spec in Hp; apply rows_of_plant_spec in Hc;
  apply demand_row_spec in Hd;
  destruct Hp as (? & ? & ? & ? & ?); destruct Hc as (? & ? & ? & ? & ?);
  destruct Hd as (? & ? & ?);
  congruence.

(** The completeness test returns when the logistics table has the route
    columns, and what it returns is decided by the first row of the pair. *)
Lemma has_complete_data_spec (st : Parser.state) (source destination : cell) :
  Spec.route_columns (Parser.data st) = true ->
  exists b,
    Parser._has_complete_data st source destination = Ok b
    /\ (b = true <-> Spec.complete_first_row (Parser.data st) source destination).
Proof.
  intros Hcols. unfold Spec.complete_first_row.
  unfold Parser._has_complete_data, Spec.route_columns in *.
  destruct (dict_get (Parser.data st) "Logistics") as [logistics |] eqn:Hlog.
  2:{ exists false. split; [reflexivity |]. split; [discriminate |].
      intros [(l & b & r & a & H & _) _]. congruence. }
  apply andb_true_iff in Hcols. destruct Hcols as [Hcols _].
  apply andb_true_iff in Hcols. destruct Hcols as [Hfrom Hto].
  rewrite (mask_eq_field _ _ _ Hfrom), (mask_eq_field _ _ _ Hto). cbn [bind].
  rewrite mask_and_map.
  fold (Spec.pair_row logistics source destination).
  change (fun r : row => Spec.field_eqb logistics "FROM IU CODE" source r
                         && Spec.field_eqb logistics "TO IUGU CODE" destination r)
    with (Spec.pair_row logistics source destination).
  set (m := map (Spec.pair_row logistics source destination) (rows logistics)).
  assert (Hrows : rows (select logistics m)
                  = filter (Spec.pair_row logistics source destination) (rows logistics))
    by apply select_rows_map.
  assert (Hfirst : forall r,
             (exists t, rows (select logistics m) = r :: t)
             -> Spec.has_freight logistics r = true
             -> Spec.first_row_has_freight (Parser.data st) source destination).
  { intros r Ht Hfr. rewrite Hrows in Ht. apply filter_head in Ht.
    destruct Ht as (before & after & Hsplit & Hbefore & Hr).
    exists logistics, before, r, after. repeat split; assumption. }
  assert (Hhead : Spec.first_row_has_freight (Parser.data st) source destination
                  -> exists r t, rows (select logistics m) = r :: t
                                 /\ Spec.has_freight logistics r = true).
  { intros (l & before & r & after & Hl & Hsplit & Hbefore & Hr & Hfr).
    rewrite Hlog in Hl. injection Hl as <-.
    destruct (proj2 (filter_head (Spec.pair_row logistics source destination)
                       (rows logistics) r)) as [t Ht].
    { exists before, after. repeat split; assumption. }
    exists r, t. rewrite Hrows. split; assumption. }
  destruct (empty (select logistics m)) eqn:Hempty.
  { exists false. split; [reflexivity |]. split; [discriminate |].
    intros [H _]. apply Hhead in H. destruct H as (r & t & Ht & _).
    apply empty_rows in Hempty. congruence. }
  destruct (rows (select logistics m)) as [| r t] eqn:Hsel.
  { apply not_true_iff_false in Hempty. rewrite empty_rows in Hempty. congruence. }
  rewrite (freight_missing_head _ _ _ _ Hsel).
  destruct (Spec.has_freight logistics r) eqn:Hfr; cbn [negb].
  2:{ exists false. split; [reflexivity |]. split; [discriminate |].
      intros [H _]. apply Hhead in H. destruct H as (r' & t' & Ht & Hfr').
      injection Ht as <- _. congruence. }
  specialize (Hfirst r (ex_intro _ t eq_refl) Hfr).
  destruct (dict_get (Parser.data st) "ProductionCost") as [prod_df |] eqn:Hprod;
    [| refute_complete].
  destruct (Parser.rows_of_plant prod_df source) as [source_prod |] eqn:Hsp;
    [| refute_complete].
  destruct (empty source_prod) eqn:Hep; [refute_complete |].
  destruct (dict_get (Parser.data st) "Capacity") as [cap_df |] eqn:Hcap;
    [| refute_complete].
  destruct (Parser.rows_of_plant cap_df source) as [source_cap |] eqn:Hsc;
    [| refute_complete].
  destruct (empty source_cap) eqn:Hec; [refute_complete |].
  destruct (dict_get (Parser.data st) "Demand") as [demand_df |] eqn:Hdem;
    [| refute_complete].
  destruct (empty (Parser.rows_with demand_df "IUGU CODE" destination)) eqn:Hed;
    [refute_complete |].
  exists true. split; [reflexivity |]. split; [| reflexivity].
  intros _. split; [exact Hfirst |].
  split; [apply rows_of_plant_spec; exists prod_df, source_prod; auto |].
  split; [apply rows_of_plant_spec; exists cap_df, source_cap; auto |].
  apply demand_row_spec. exists demand_df; auto.
Qed.

(** C1, as the code has it. For tables whose logistics table has the route
    columns, the completeness test returns, and it returns true exactly when
    the first logistics row of the pair, in table order, has a freight cost
    that is not missing, the source has a production-cost row and a capacity
    row, and the destination has a demand row. *)
Theorem complete_data_first_row (st : Parser.state) (source destination : cell) :
  Spec.route_columns (Parser.data st) = true ->
  exists b,
    Parser._has_complete_data st source destination = Ok b
    /\ (b = true <-> Spec.complete_first_row (Parser.data st) source destination).
Proof.
  apply has_complete_data_spec.
Qed.

Lemma complete_data_first_row_witness :
  Spec.route_columns (Parser.data (Api.parser Examples.loaded)) = true
  /\ exists b,
       Parser._has_complete_data (Api.parser Examples.loaded) (CStr "IU1") (CStr "GU1") = Ok b
       /\ (b = true
           <-> Spec.complete_first_row (Parser.data (Api.parser Examples.loaded))
                 (CStr "IU1") (CStr "GU1")).
Proof.
  split; [vm_compute; reflexivity |].
  apply (complete_data_first_row (Api.parser Examples.loaded) (CStr "IU1") (CStr "GU1")).
  vm_compute. reflexivity.
Defined.

(** C1, as the claim states it, fails: the pair IU1, GU2 of the example has
    a logistics row with a freight cost, a production-cost row, a capacity
    row and a demand row, and the completeness test returns false, the
    freight cost being missing in the first row of the pair. *)
Lemma complete_any_row_rejected :
  Spec.complete_any_row (Parser.data (Api.parser Examples.loaded)) (CStr "IU1") (CStr "GU2")
  /\ Parser._has_complete_data (Api.parser Examples.loaded) (CStr "IU1") (CStr "GU2")
     = Ok false.
Proof.
  split; [| vm_compute; reflexivity].
  unfold Spec.complete_any_row, Spec.some_row_has_freight, Spec.has_plant_row,
    Spec.has_demand_row.
  repeat split.
  - eexists.
    exists [CStr "IU1"; CStr "GU2"; CStr "T1"; CNum 2; CNum 7; CNum 1; CNum 30].
    split; [vm_compute; reflexivity |].
    split; [cbn; do 4 right; left; reflexivity |].
    split; vm_compute; reflexivity.
  - eexists. exists [CStr "IU1"; CNum 1; CNum 10].
    split; [vm_compute; reflexivity |].
    split; [cbn; left; reflexivity | vm_compute; reflexivity].
  - eexists. exists [CStr "IU1"; CNum 1; CNum 1000].
    split; [vm_compute; reflexivity |].
    split; [cbn; left; reflexivity | vm_compute; reflexivity].
  - eexists. exists [CStr "GU2"; CNum 1; CNum 40].
    split; [vm_compute; reflexivity |].
    split; [cbn; right; left; reflexivity | vm_compute; reflexivity].
Qed.

(** ** Selection *)

Lemma getcol_select (df : DataFrame) (m : list bool) (c : string) :
  has_column df c = true -> exists col, getcol (select df m) c = Ok col.
Proof.
  intros H. apply has_column_index in H. destruct H as [i Hi].
  unfold getcol. cbn [select columns]. rewrite Hi. eexists. reflexivity.
Qed.

Lemma filter_result_total {A : Type} (f : A -> result bool) (l : list A) :
  (forall x, exists b, f x = Ok b) ->
  exists kept,
    Parser.filter_result f l = Ok kept
    /\ (forall x, In x kept -> In x l /\ f x = Ok true).
Proof.
  intros Hf. induction l as [| a l IH]; cbn.
  - exists []. split; [reflexivity | intros x []].
  - destruct (Hf a) as [b Hb]. rewrite Hb. cbn [bind].
    destruct IH as (kept & Hk & Hin). rewrite Hk. cbn [bind].
    destruct b.
    + exists (a :: kept). split; [reflexivity |].
      intros x [<- | Hx]; [split; [left; reflexivity | exact Hb] |].
      destruct (Hin x Hx). split; [right |]; assumption.
    + exists kept. split; [reflexivity |].
      intros x Hx. destruct (Hin x Hx). split; [right |]; assumption.
Qed.

Ltac route_columns_of H Hlog :=
  unfold Spec.route_columns in H; rewrite Hlog in H;
  apply andb_true_iff in H;
  let Hft := fresh "Hft" in
  let Hmode := fresh "Hmode" in
  destruct H as [Hft Hmode];
  apply andb_true_iff in Hft;
  let Hfrom := fresh "Hfrom" in
  let Hto := fresh "Hto" in
  destruct Hft as [Hfrom Hto].

(** The destinations of a source are computed when the logistics table has
    the route columns, and each of them passes the completeness test. *)
Lemma get_destinations_total (st : Parser.state) (source : cell) :
  Spec.route_columns (Parser.data st) = true ->
  exists destinations,
    Parser.get_destinations_for_source st source = Ok destinations
    /\ (forall d, In d destinations -> Parser._has_complete_data st source d = Ok true).
Proof.
  intros Hcols. unfold Parser.get_destinations_for_source.
  destruct (negb (Parser.is_loaded st)).
  { exists []. split; [reflexivity | intros d []]. }
  destruct (dict_get (Parser.data st) "Logistics") as [df |] eqn:Hlog.
  2:{ exists []. split; [reflexivity | intros d []]. }
  pose proof Hcols as Hc. route_columns_of Hc Hlog.
  rewrite (mask_eq_field _ _ _ Hfrom). cbn [bind].
  destruct (getcol_select df (map (Spec.field_eqb df "FROM IU CODE" source) (rows df))
              "TO IUGU CODE" Hto) as [col Hcol].
  rewrite Hcol. cbn [bind].
  destruct (filter_result_total (Parser._has_complete_data st source) (unique col))
    as (kept & Hk & Hin).
  { intros x. destruct (has_complete_data_spec st source x Hcols) as (b & Hb & _).
    exists b. exact Hb. }
  exists kept. split; [exact Hk |]. intros d Hd. apply Hin, Hd.
Qed.

Lemma get_modes_total (st : Parser.state) (source destination : cell) :
  Spec.route_columns (Parser.data st) = true ->
  exists modes, Parser.get_modes_for_route st source destination = Ok modes.
Proof.
  intros Hcols. unfold Parser.get_modes_for_route.
  destruct (negb (Parser.is_loaded st)); [eexists; reflexivity |].
  destruct (dict_get (Parser.data st) "Logistics") as [df |] eqn:Hlog;
    [| eexists; reflexivity].
  route_columns_of Hcols Hlog.
  rewrite (mask_eq_field _ _ _ Hfrom), (mask_eq_field _ _ _ Hto). cbn [bind].
  destruct (getcol_select df
              (mask_and (map (Spec.field_eqb df "FROM IU CODE" source) (rows df))
                        (map (Spec.field_eqb df "TO IUGU CODE" destination) (rows df)))
              "TRANSPORT CODE" Hmode) as [col Hcol].
  rewrite Hcol. cbn [bind]. eexists. reflexivity.
Qed.

Lemma cell_in_text (s : string) (l : list cell) :
  cell_in (CStr s) l = true -> In (CStr s) l.
Proof.
  unfold cell_in. intros H. apply existsb_exists in H.
  destruct H as (x & Hx & Heq). destruct x; cbn in Heq; try discriminate.
  apply String.eqb_eq in Heq. subst. exact Hx.
Qed.

Lemma truthy_text (s : string) : s <> "" -> Parser.truthy (Some s) = Some s.
Proof.
  intros H. destruct s; [contradiction | reflexivity].
Qed.

Lemma truthy_period (p : Z) : p <> 0%Z -> Parser.truthy_int (Some p) = Some p.
Proof.
  intros H. destruct p; [contradiction | reflexivity | reflexivity].
Qed.

(** What [validate_selection] answers to a query that gives the four
    parameters, on a loaded dataset whose logistics table has the route
    columns. *)
Lemma validate_selection_query (st : Parser.state) (s d m : string) (p : Z) :
  Parser.is_loaded st = true ->
  Spec.route_columns (Parser.data st) = true ->
  s <> "" -> d <> "" -> m <> "" -> p <> 0%Z ->
  exists v,
    Parser.validate_selection st (Some s) (Some d) (Some m) (Some p) = Ok v
    /\ (cell_in (CNum (inject_Z p)) (Parser.meta_list (Parser.metadata st) "periods") = false ->
        Parser.valid v = false /\ In (Parser.PeriodNotFound p) (Parser.selection_errors v))
    /\ (~ Spec.has_demand_row (Parser.data st) (CStr d) ->
        Parser.valid v = false /\ In (Parser.RouteNotFound s d) (Parser.selection_errors v)).
Proof.
  intros Hloaded Hcols Hs Hd Hm Hp.
  unfold Parser.validate_selection.
  rewrite Hloaded, (truthy_text s Hs), (truthy_text d Hd), (truthy_text m Hm),
    (truthy_period p Hp).
  cbn [negb].
  destruct (get_destinations_total st (CStr s) Hcols) as (dests & Hdests & Hcomplete).
  destruct (get_modes_total st (CStr s) (CStr d) Hcols) as (modes & Hmodes).
  rewrite Hdests, Hmodes. cbn [bind].
  assert (Hroute : ~ Spec.has_demand_row (Parser.data st) (CStr d) ->
                   cell_in (CStr d) dests = false).
  { intros Hno. apply not_true_iff_false. intros Hin.
    apply cell_in_text, Hcomplete in Hin.
    destruct (has_complete_data_spec st (CStr s) (CStr d) Hcols) as (b & Hb & Hiff).
    rewrite Hin in Hb. injection Hb as <-.
    apply Hno. apply Hiff; reflexivity. }
  destruct (cell_in (CStr s) (Parser.meta_list (Parser.metadata st) "source_ius"));
    destruct (cell_in (CStr d) dests) eqn:Hind;
    destruct (cell_in (CStr m) modes);
    destruct (cell_in (CNum (inject_Z p)) (Parser.meta_list (Parser.metadata st) "periods"));
    cbn [negb bind Parser.reject Parser.valid Parser.selection_errors Parser.warnings app];
    eexists; (split; [reflexivity |]);
    cbn [Parser.valid Parser.selection_errors];
    (split; intros H;
     [ try discriminate H | try (apply Hroute in H; try discriminate H) ]);
    (split; [reflexivity | cbn; tauto]).
Qed.

(** Without a period to check, no error names a period. *)
Lemma validate_selection_no_period (st : Parser.state) (s d m : option string)
      (v : Parser.Validation) (q : Z) :
  Parser.validate_selection st s d m None = Ok v ->
  ~ In (Parser.PeriodNotFound q) (Parser.selection_errors v).
Proof.
  intros H Hin. unfold Parser.validate_selection in H.
  cbn [Parser.truthy_int] in H.
  destruct (Parser.is_loaded st); cbn [negb] in H.
  2:{ injection H as <-. cbn in Hin. intuition discriminate. }
  destruct (Parser.truthy s); destruct (Parser.truthy d); destruct (Parser.truthy m);
    repeat (cbn [bind negb] in H;
            match type of H with
            | context [Parser.get_destinations_for_source ?a ?b] =>
                destruct (Parser.get_destinations_for_source a b)
            | context [Parser.get_modes_for_route ?a ?b ?c] =>
                destruct (Parser.get_modes_for_route a b c)
            | context [cell_in ?a ?b] => destruct (cell_in a b)
            end);
    cbn in H; try discriminate H; injection H as <-; cbn in Hin;
    intuition discriminate.
Qed.

(** C10. The period-membership check of [validate_selection] runs only for
    a period that is true as a Python value: period 0 is treated as no
    period at all, no error then names a period, and on the example dataset
    the selection with period 0 is reported valid although 0 is not among
    the periods of the dataset. *)
Theorem period_zero_not_checked :
  (forall st s d m,
      Parser.validate_selection st s d m (Some 0%Z)
      = Parser.validate_selection st s d m None)
  /\ (forall st s d m v q,
         Parser.validate_selection st s d m (Some 0%Z) = Ok v ->
         ~ In (Parser.PeriodNotFound q) (Parser.selection_errors v))
  /\ Parser.validate_selection (Api.parser Examples.loaded)
       (Some "IU1") (Some "GU1") (Some "T1") (Some 0%Z)
     = Ok (Parser.mkValidation true [] [])
  /\ cell_in (CNum (inject_Z 0))
       (Parser.meta_list (Parser.metadata (Api.parser Examples.loaded)) "periods")
     = false.
Proof.
  split; [reflexivity |].
  split; [intros st s d m v q; apply validate_selection_no_period |].
  split; vm_compute; reflexivity.
Qed.

(** ** The route query *)

(** A query that gives the four parameters on a loaded dataset is answered
    by the validation errors when the selection is not valid. *)
Lemma get_route_data_invalid (st : Api.state) (s d m : string) (p : Z)
      (v : Parser.Validation) :
  Parser.is_loaded (Api.parser st) = true ->
  s <> "" -> d <> "" -> m <> "" -> p <> 0%Z ->
  Parser.validate_selection (Api.parser st) (Some s) (Some d) (Some m) (Some p) = Ok v ->
  Parser.valid v = false ->
  Api.get_route_data st (Some s) (Some d) (Some m) (Some p)
  = Ok (Api.RouteInvalid (Parser.selection_errors v)).
Proof.
  intros Hloaded Hs Hd Hm Hp Hv Hvalid. unfold Api.get_route_data.
  rewrite Hloaded, (truthy_text s Hs), (truthy_text d Hd), (truthy_text m Hm),
    (truthy_period p Hp), Hv.
  cbn [negb bind]. rewrite Hvalid. reflexivity.
Qed.

Lemma bind_ok {A B : Type} (m : result A) (k : A -> result B) (b : B) :
  bind m k = Ok b -> exists a, m = Ok a /\ k a = Ok b.
Proof.
  destruct m as [a | e]; cbn; intros H; [| discriminate H].
  exists a. split; [reflexivity | exact H].
Qed.

Lemma filter_none {A : Type} (f : A -> bool) (l : list A) :
  (forall x, In x l -> f x = false) -> filter f l = [].
Proof.
  induction l as [| a l IH]; intros H; cbn; [reflexivity |].
  rewrite (H a (or_introl eq_refl)). apply IH. intros x Hx. apply H. right. exact Hx.
Qed.

(** A value read under a mask that selects no row is not available. *)
Lemma get_value_no_row (df : DataFrame) (f : row -> bool) (column : string) :
  (forall r, In r (rows df) -> f r = false) ->
  _get_value df (map f (rows df)) column = NOT_AVAILABLE.
Proof.
  intros H. unfold _get_value.
  destruct (index_of column (columns df)); [| reflexivity].
  cbn [select rows]. rewrite select_rows_map, (filter_none f (rows df) H). reflexivity.
Qed.

(** The demand of the destination is not available when the demand table
    of the calculator has no row for it in the period. *)
Lemma route_demand_missing (st : Optimizer.state) (s d m : string) (p : Z)
      (route : RouteData) :
  Optimizer.get_route_data st s d m p = Ok route ->
  ~ Spec.has_demand_row_in (Optimizer.data st) (CStr d) p ->
  destination_demand route = NOT_AVAILABLE.
Proof.
  unfold Optimizer.get_route_data. intros H Hno.
  apply bind_ok in H. destruct H as (logi & _ & H). destruct logi as [[fc hc] qm].
  apply bind_ok in H. destruct H as (pc & _ & H).
  apply bind_ok in H. destruct H as (sc & _ & H).
  apply bind_ok in H. destruct H as (dem & Hdem & H). destruct dem as [[sd dd] mf].
  apply bind_ok in H. destruct H as (opening & _ & H). destruct opening as [so dop].
  apply bind_ok in H. destruct H as (closing & _ & H).
  destruct closing as [[[scmin scmax] dcmin] dcmax].
  apply bind_ok in H. destruct H as (types & _ & H). destruct types as [[[t1 t2] t3] t4].
  apply bind_ok in H. destruct H as (cons & _ & H).
  injection H as <-. cbn [destination_demand].
  destruct (dict_get (data st) "Demand") as [df |] eqn:Hdf.
  2:{ injection Hdem as _ <- _. reflexivity. }
  apply bind_ok in Hdem. destruct Hdem as (ms & _ & Hdem).
  apply bind_ok in Hdem. destruct Hdem as (md & Hmd & Hdem).
  injection Hdem as _ <- _.
  unfold mask2 in Hmd.
  destruct (has_column df "IUGU CODE") eqn:Hc1.
  2:{ rewrite (mask_eq_raise _ _ _ Hc1) in Hmd. discriminate Hmd. }
  rewrite (mask_eq_field _ _ _ Hc1) in Hmd. cbn [bind] in Hmd.
  destruct (has_column df "TIME PERIOD") eqn:Hc2.
  2:{ rewrite (mask_eq_raise _ _ _ Hc2) in Hmd. discriminate Hmd. }
  rewrite (mask_eq_field _ _ _ Hc2) in Hmd. cbn [bind] in Hmd.
  rewrite mask_and_map in Hmd. injection Hmd as <-.
  apply get_value_no_row. intros r Hr.
  apply not_true_iff_false. intros Hboth. apply andb_true_iff in Hboth.
  apply Hno. exists df, r. unfold pnum in Hboth. tauto.
Qed.

(** A query that passes the four checks of [validate_selection] is valid. *)
Lemma validate_selection_accepts (st : Parser.state) (s d m : string) (p : Z)
      (dests modes : list cell) :
  Parser.is_loaded st = true ->
  s <> "" -> d <> "" -> m <> "" -> p <> 0%Z ->
  cell_in (CStr s) (Parser.meta_list (Parser.metadata st) "source_ius") = true ->
  Parser.get_destinations_for_source st (CStr s) = Ok dests ->
  cell_in (CStr d) dests = true ->
  Parser.get_modes_for_route st (CStr s) (CStr d) = Ok modes ->
  cell_in (CStr m) modes = true ->
  cell_in (CNum (inject_Z p)) (Parser.meta_list (Parser.metadata st) "periods") = true ->
  Parser.validate_selection st (Some s) (Some d) (Some m) (Some p)
  = Ok (Parser.mkValidation true [] []).
Proof.
  intros Hloaded Hs Hd Hm Hp Hsource Hdests Hdest Hmodes Hmode Hperiod.
  unfold Parser.validate_selection.
  rewrite Hloaded, (truthy_text s Hs), (truthy_text d Hd), (truthy_text m Hm),
    (truthy_period p Hp), Hsource, Hdests.
  cbn [negb bind]. rewrite Hdest. cbn [negb]. rewrite Hmodes. cbn [bind].
  rewrite Hmode, Hperiod. reflexivity.
Qed.

(** C2, as the code has it. On a loaded dataset whose logistics table has
    the route columns, a route query that gives the four parameters is
    answered by validation errors, and by no result, when the period is not
    among the periods of the dataset (an error names the period) and when
    the destination has no demand row in any period (an error names the
    route). A missing demand row for the period alone is no ground for
    rejection: a query whose source is listed, whose destination is among
    the destinations of the source, whose mode is among the modes of the
    pair and whose period is among the periods is passed to the calculator;
    and whenever a result is returned while the demand table of the
    calculator has no row for the destination in the period, the demand
    field of the route reads N/A and the result is the one computed from
    that route, with a destination demand of 0. *)
Theorem route_query_answers (st : Api.state) (s d m : string) (p : Z) :
  Parser.is_loaded (Api.parser st) = true ->
  Spec.route_columns (Parser.data (Api.parser st)) = true ->
  s <> "" -> d <> "" -> m <> "" -> p <> 0%Z ->
  (cell_in (CNum (inject_Z p))
     (Parser.meta_list (Parser.metadata (Api.parser st)) "periods") = false ->
   exists errors,
     Api.get_route_data st (Some s) (Some d) (Some m) (Some p)
     = Ok (Api.RouteInvalid errors)
     /\ In (Parser.PeriodNotFound p) errors)
  /\ (~ Spec.has_demand_row (Parser.data (Api.parser st)) (CStr d) ->
      exists errors,
        Api.get_route_data st (Some s) (Some d) (Some m) (Some p)
        = Ok (Api.RouteInvalid errors)
        /\ In (Parser.RouteNotFound s d) errors)
  /\ (forall dests modes,
         cell_in (CStr s)
           (Parser.meta_list (Parser.metadata (Api.parser st)) "source_ius") = true ->
         Parser.get_destinations_for_source (Api.parser st) (CStr s) = Ok dests ->
         cell_in (CStr d) dests = true ->
         Parser.get_modes_for_route (Api.parser st) (CStr s) (CStr d) = Ok modes ->
         cell_in (CStr m) modes = true ->
         cell_in (CNum (inject_Z p))
           (Parser.meta_list (Parser.metadata (Api.parser st)) "periods") = true ->
         Api.get_route_data st (Some s) (Some d) (Some m) (Some p)
         = do solution <- Optimizer.get_all_data_for_route (Api.optimizer st) s d m p;
           Ok (Api.RouteOk solution))
  /\ (forall solution,
         Api.get_route_data st (Some s) (Some d) (Some m) (Some p)
         = Ok (Api.RouteOk solution) ->
         ~ Spec.has_demand_row_in (Optimizer.data (Api.optimizer st)) (CStr d) p ->
         destination_demand (res_route solution) = NOT_AVAILABLE
         /\ solution = report (res_route solution) (solve (res_route solution) m)
         /\ d_demand (solve (res_route solution) m) = 0
         /\ D_t (mass_balance_destination solution) = 0).
Proof.
  intros Hloaded Hcols Hs Hd Hm Hp.
  destruct (validate_selection_query (Api.parser st) s d m p Hloaded Hcols Hs Hd Hm Hp)
    as (v & Hv & Hperiod & Hroute).
  split; [| split; [| split]].
  - intros H. apply Hperiod in H. destruct H as [Hvalid Hin].
    exists (Parser.selection_errors v).
    split; [apply get_route_data_invalid; assumption | exact Hin].
  - intros H. apply Hroute in H. destruct H as [Hvalid Hin].
    exists (Parser.selection_errors v).
    split; [apply get_route_data_invalid; assumption | exact Hin].
  - intros dests modes Hsource Hdests Hdest Hmodes Hmode Hin.
    unfold Api.get_route_data.
    rewrite Hloaded, (truthy_text s Hs), (truthy_text d Hd), (truthy_text m Hm),
      (truthy_period p Hp).
    rewrite (validate_selection_accepts _ s d m p dests modes Hloaded Hs Hd Hm Hp
               Hsource Hdests Hdest Hmodes Hmode Hin).
    reflexivity.
  - intros solution H Hno. unfold Api.get_route_data in H.
    rewrite Hloaded, (truthy_text s Hs), (truthy_text d Hd), (truthy_text m Hm),
      (truthy_period p Hp), Hv in H.
    cbn [negb bind] in H. destruct (negb (Parser.valid v)); [discriminate H |].
    apply bind_ok in H. destruct H as (answer & Hanswer & H). injection H as <-.
    unfold get_all_data_for_route, calculate_milp_solution in Hanswer.
    apply bind_ok in Hanswer. destruct Hanswer as (route & Hroute' & Hanswer).
    injection Hanswer as <-.
    pose proof (route_demand_missing _ _ _ _ _ _ Hroute' Hno) as Hna.
    destruct (solve_production route m) as (_ & _ & _ & Hdemand & _).
    cbv zeta in Hdemand. cbn [res_route].
    assert (Hzero : d_demand (solve route m) = 0)
      by (rewrite Hdemand, Hna; reflexivity).
    repeat split; assumption.
Qed.

Lemma route_query_answers_witness :
  exists errors,
    Api.get_route_data Examples.loaded (Some "IU1") (Some "GU1") (Some "T1") (Some 3%Z)
    = Ok (Api.RouteInvalid errors)
    /\ In (Parser.PeriodNotFound 3) errors.
Proof.
  destruct (route_query_answers Examples.loaded "IU1" "GU1" "T1" 3) as (H & _);
    try discriminate; try (vm_compute; reflexivity).
  apply H. vm_compute. reflexivity.
Defined.

(** C2, as the claim states it, fails: in the example GU1 has no demand row
    for period 2, and the query for period 2 is answered by a result, not by
    an error; the result gives the demand as not available and is computed
    with a demand of 0. *)
Lemma missing_demand_computed_as_zero :
  ~ Spec.has_demand_row_in (Parser.data (Api.parser Examples.loaded)) (CStr "GU1") 2
  /\ exists solution,
       Api.get_route_data Examples.loaded (Some "IU1") (Some "GU1") (Some "T1") (Some 2%Z)
       = Ok (Api.RouteOk solution)
       /\ destination_demand (res_route solution) = NOT_AVAILABLE
       /\ D_t (mass_balance_destination solution) = 0
       /\ T_value (decision_variables solution) = 1%Z.
Proof.
  split.
  - intros (df & r & Hdf & Hr & Hplant & Hperiod).
    vm_compute in Hdf. injection Hdf as <-.
    cbn in Hr. destruct Hr as [<- | [<- | []]];
      vm_compute in Hplant; vm_compute in Hperiod; discriminate.
  - eexists. split; [vm_compute; reflexivity |].
    repeat split; vm_compute; reflexivity.
Qed.

(** ** Loading *)

Lemma keeps_ret {A : Type} (a : A) : Spec.keeps_tables (Parser.ret a).
Proof. intros st. cbn. auto. Qed.

Lemma keeps_lift {A : Type} (r : result A) : Spec.keeps_tables (Parser.lift r).
Proof. intros st. cbn. auto. Qed.

Lemma keeps_get : Spec.keeps_tables Parser.get.
Proof. intros st. cbn. auto. Qed.

Lemma keeps_put_meta (key : string) (v : Parser.meta_value) :
  Spec.keeps_tables (Parser.put_meta key v).
Proof. intros st. cbn. auto. Qed.

Lemma keeps_bind {A B : Type} (m : Parser.M A) (k : A -> Parser.M B) :
  Spec.keeps_tables m -> (forall a, Spec.keeps_tables (k a)) ->
  Spec.keeps_tables (Parser.bindM m k).
Proof.
  intros Hm Hk st. unfold Parser.bindM.
  destruct (Hm st) as (Hd & Hl & He).
  destruct (m st) as [st' [a | e]]; cbn [fst] in *.
  - destruct (Hk a st') as (Hd' & Hl' & He'). repeat split; congruence.
  - auto.
Qed.

Ltac keeps_tables :=
  repeat first
    [ apply keeps_ret | apply keeps_lift | apply keeps_get | apply keeps_put_meta
    | apply keeps_bind; [| intros ?]
    | match goal with
      | |- Spec.keeps_tables (match ?x with _ => _ end) => destruct x
      end ].

Lemma keeps_extract_metadata : Spec.keeps_tables Parser._extract_metadata.
Proof.
  unfold Parser._extract_metadata, Parser.extract_plants, Parser.extract_logistics,
    Parser.extract_periods, Parser._build_route_index,
    Parser._filter_sources_with_complete_data.
  keeps_tables.
Qed.

(** A load from a workbook that finds an error resets the parser to the
    tables that passed, with no metadata. *)
Lemma load_from_excel_failed (st : Parser.state) (book : Parser.workbook) :
  Parser.scan_errors (Parser.scan_workbook book) <> [] ->
  fst (Parser.load_from_excel st book)
  = Parser.mkState (Parser.scan_data (Parser.scan_workbook book)) []
      (Parser.is_loaded st)
      (Parser.scan_errors (Parser.scan_workbook book)
         ++ [Parser.BlankLine; Parser.RequiredStructure]
         ++ map (fun '(sheet_name, config) =>
                   Parser.RequiredSheetLine sheet_name (Parser.file config)
                     (Parser.config_columns config))
                Parser.required_sheets)%list.
Proof.
  intros H. unfold Parser.load_from_excel. cbv zeta.
  destruct (Parser.scan_errors (Parser.scan_workbook book)); [congruence | reflexivity].
Qed.

Lemma load_from_folder_failed (st : Parser.state) (dir : Parser.folder) :
  snd (Parser.read_folder dir) <> [] ->
  fst (Parser.load_from_folder st dir)
  = Parser.mkState (fst (Parser.read_folder dir)) [] (Parser.is_loaded st)
      (snd (Parser.read_folder dir)).
Proof.
  intros H. unfold Parser.load_from_folder.
  destruct (Parser.read_folder dir) as [d errs]. cbn [fst snd] in *.
  destruct errs; [congruence | reflexivity].
Qed.

(** C3, as the code has it. A load that fails leaves the tables of the
    calculator as they were: they are replaced only after a load that
    succeeds. The store of the parser is not kept: a load that finds a
    missing or invalid table leaves in it the tables that were read and
    passed their checks, and no metadata, whatever it held before. *)
Theorem failed_load_keeps_calculator
        (to_numeric : string -> option Q) (st : Api.state)
        (book : Parser.workbook) (dir : Parser.folder) :
  (Parser.success (snd (Api.upload_file to_numeric st book)) = false ->
   Api.optimizer (fst (Api.upload_file to_numeric st book)) = Api.optimizer st
   /\ (Parser.scan_errors (Parser.scan_workbook book) <> [] ->
       Parser.data (Api.parser (fst (Api.upload_file to_numeric st book)))
       = Parser.scan_data (Parser.scan_workbook book)
       /\ Parser.metadata (Api.parser (fst (Api.upload_file to_numeric st book))) = []))
  /\ (forall answer,
         snd (Api.load_from_folder to_numeric st dir) = Ok answer ->
         Parser.success answer = false ->
         Api.optimizer (fst (Api.load_from_folder to_numeric st dir)) = Api.optimizer st
         /\ (snd (Parser.read_folder dir) <> [] ->
             Parser.data (Api.parser (fst (Api.load_from_folder to_numeric st dir)))
             = fst (Parser.read_folder dir)
             /\ Parser.metadata (Api.parser (fst (Api.load_from_folder to_numeric st dir)))
                = []))
  /\ (forall e,
         snd (Api.load_from_folder to_numeric st dir) = Raise e ->
         Api.optimizer (fst (Api.load_from_folder to_numeric st dir)) = Api.optimizer st).
Proof.
  split; [| split].
  - unfold Api.upload_file.
    pose proof (load_from_excel_failed (Api.parser st) book) as Hfailed.
    destruct (Parser.load_from_excel (Api.parser st) book) as [p answer].
    cbn [fst snd] in *. intros Hsuccess. rewrite Hsuccess. cbn [fst Api.optimizer Api.parser].
    split; [reflexivity |]. intros Herr. rewrite (Hfailed Herr). split; reflexivity.
  - intros answer. unfold Api.load_from_folder.
    pose proof (load_from_folder_failed (Api.parser st) dir) as Hfailed.
    destruct (Parser.load_from_folder (Api.parser st) dir) as [p [a | e]];
      cbn [fst snd] in *; [| discriminate].
    intros Ha Hsuccess. injection Ha as ->. rewrite Hsuccess.
    cbn [fst Api.optimizer Api.parser].
    split; [reflexivity |]. intros Herr. rewrite (Hfailed Herr). split; reflexivity.
  - intros e. unfold Api.load_from_folder.
    destruct (Parser.load_from_folder (Api.parser st) dir) as [p [a | e']];
      cbn [fst snd]; [| reflexivity].
    destruct (Parser.success a); discriminate.
Qed.

Lemma failed_load_keeps_calculator_witness :
  Parser.success
    (snd (Api.upload_file Examples.no_number Examples.loaded Examples.partial_book)) = false
  /\ Api.optimizer
       (fst (Api.upload_file Examples.no_number Examples.loaded Examples.partial_book))
     = Api.optimizer Examples.loaded.
Proof.
  split; [vm_compute; reflexivity |].
  apply (failed_load_keeps_calculator Examples.no_number Examples.loaded
           Examples.partial_book Examples.folder_no_capacity).
  vm_compute. reflexivity.
Defined.

(** C3, as the claim states it, fails: after the example workbook is
    loaded, the upload of a workbook with one sheet fails, and the parser no
    longer holds the tables it held: it holds the one table of the failed
    upload, and it still counts as loaded. *)
Lemma failed_load_replaces_tables :
  Parser.success
    (snd (Api.upload_file Examples.no_number Examples.loaded Examples.partial_book)) = false
  /\ Parser.data
       (Api.parser
          (fst (Api.upload_file Examples.no_number Examples.loaded Examples.partial_book)))
     = [("IUGUType", Examples.plant_types)]
  /\ List.length (Parser.data (Api.parser Examples.loaded)) = 7%nat
  /\ Parser.is_loaded
       (Api.parser
          (fst (Api.upload_file Examples.no_number Examples.loaded Examples.partial_book)))
     = true.
Proof.
  repeat split; vm_compute; reflexivity.
Qed.

(** ** The consistency validator and the column check *)

Lemma dict_get_set {A : Type} (d : dict A) (k k' : string) (v : A) :
  dict_get (dict_set d k v) k'
  = if String.eqb k' k then Some v else dict_get d k'.
Proof.
  induction d as [| [k0 v0] d IH]; cbn.
  - reflexivity.
  - destruct (String.eqb_spec k k0) as [-> | Hk]; cbn.
    + destruct (String.eqb k' k0); reflexivity.
    + rewrite IH. destruct (String.eqb_spec k' k0) as [-> | Hk'].
      * destruct (String.eqb_spec k0 k); [congruence | reflexivity].
      * reflexivity.
Qed.

Lemma dict_mem_set {A : Type} (d : dict A) (k k' : string) (v : A) :
  dict_mem (dict_set d k v) k' = String.eqb k' k || dict_mem d k'.
Proof.
  unfold dict_mem. rewrite dict_get_set. destruct (String.eqb k' k); reflexivity.
Qed.

Lemma missing_columns_none (df : DataFrame) (config : Parser.sheet_config) :
  Parser.missing_columns df config = [] -> Spec.has_all_columns df config.
Proof.
  unfold Parser.missing_columns, Spec.has_all_columns. intros H col Hcol.
  destruct (existsb (String.eqb (upper col)) (map upper (columns df))) eqn:E.
  - apply existsb_exists in E. destruct E as (u & Hu & Heq).
    apply in_map_iff in Hu. destruct Hu as (c & <- & Hc).
    apply String.eqb_eq in Heq. exists c. split; [exact Hc | congruence].
  - exfalso.
    assert (Hin : In col (filter (fun col => negb (existsb (String.eqb (upper col))
                                                     (map upper (columns df))))
                                 (Parser.config_columns config))).
    { apply filter_In. split; [exact Hcol |]. rewrite E. reflexivity. }
    rewrite H in Hin. exact Hin.
Qed.

(** What one turn of the loop of [load_from_excel] does to the tables. *)
Lemma scan_sheet_data (book : Parser.workbook) (acc : Parser.excel_scan)
      (name : string) (config : Parser.sheet_config) :
  Parser.scan_data (Parser.scan_sheet book acc (name, config)) = Parser.scan_data acc
  \/ exists sheet df0,
       dict_get book sheet = Some (Some df0)
       /\ (Parser.required config = true
           -> Parser.missing_columns (Parser.strip_columns df0) config = [])
       /\ Parser.scan_data (Parser.scan_sheet book acc (name, config))
          = dict_set (Parser.scan_data acc) name (Parser.strip_columns df0).
Proof.
  unfold Parser.scan_sheet.
  destruct (Parser.match_sheet (map fst book) name config) as [sheet |].
  2:{ destruct (Parser.required config); left; reflexivity. }
  destruct (dict_get book sheet) as [[df0 |] |] eqn:Hread.
  2,3: destruct (Parser.required config); left; reflexivity.
  destruct (Parser.required config) eqn:Hreq.
  - destruct (Parser.missing_columns (Parser.strip_columns df0) config) eqn:Hmiss.
    + right. exists sheet, df0. repeat split; auto.
    + left. reflexivity.
  - right. exists sheet, df0. repeat split; auto. discriminate.
Qed.

Lemma scan_fold_stored (book : Parser.workbook)
      (configs : list (string * Parser.sheet_config)) (acc : Parser.excel_scan) :
  Forall (fun e => dict_get Parser.SHEET_CONFIG (fst e) = Some (snd e)) configs ->
  (forall name df, dict_get (Parser.scan_data acc) name = Some df ->
                   Spec.stored_from book name df) ->
  forall name df,
    dict_get (Parser.scan_data (fold_left (Parser.scan_sheet book) configs acc)) name
    = Some df ->
    Spec.stored_from book name df.
Proof.
  revert acc. induction configs as [| [n config] configs IH]; intros acc Hall Hacc.
  - exact Hacc.
  - cbn [fold_left]. apply Forall_cons_iff in Hall. destruct Hall as [Hentry Hall].
    apply IH; [exact Hall |].
    intros name df Hget.
    destruct (scan_sheet_data book acc n config) as [Hsame | (sheet & df0 & Hread & Hcols & Hset)].
    + rewrite Hsame in Hget. apply Hacc, Hget.
    + rewrite Hset, dict_get_set in Hget.
      destruct (String.eqb_spec name n) as [-> | Hne]; [| apply Hacc, Hget].
      injection Hget as <-. exists config, sheet, df0. cbn in Hentry. auto.
Qed.

Lemma sheet_config_keys :
  Forall (fun e => dict_get Parser.SHEET_CONFIG (fst e) = Some (snd e)) Parser.SHEET_CONFIG.
Proof.
  unfold Parser.SHEET_CONFIG at 2.
  repeat (apply Forall_cons; [vm_compute; reflexivity |]). apply Forall_nil.
Qed.

(** A load from a workbook leaves in the store the tables its loop stored. *)
Lemma load_from_excel_data (st : Parser.state) (book : Parser.workbook) :
  Parser.data (fst (Parser.load_from_excel st book))
  = Parser.scan_data (Parser.scan_workbook book).
Proof.
  unfold Parser.load_from_excel. cbv zeta.
  generalize (Parser.scan_workbook book). intros sc.
  destruct (Parser.scan_errors sc); [| reflexivity].
  pose proof (keeps_extract_metadata (Parser.mkState (Parser.scan_data sc) [] true []))
    as (Hdata & _).
  destruct (Parser._extract_metadata (Parser.mkState (Parser.scan_data sc) [] true []))
    as [st1 [u | e]]; cbn [fst] in *; exact Hdata.
Qed.

Lemma dict_get_In {A : Type} (d : dict A) (k : string) (v : A) :
  dict_get d k = Some v -> In (k, v) d.
Proof.
  induction d as [| [k0 v0] d IH]; cbn; [discriminate |].
  destruct (String.eqb_spec k k0) as [-> | Hne].
  - intros H. injection H as ->. left. reflexivity.
  - intros H. right. apply IH, H.
Qed.

Lemma required_sheet_config (name : string) (config : Parser.sheet_config) :
  dict_get Parser.required_sheets name = Some config ->
  dict_get Parser.SHEET_CONFIG name = Some config /\ Parser.required config = true.
Proof.
  intros H. apply dict_get_In in H. unfold Parser.required_sheets in H.
  apply filter_In in H. destruct H as [Hin Hreq]. split; [| exact Hreq].
  pose proof sheet_config_keys as Hkeys. rewrite Forall_forall in Hkeys.
  apply (Hkeys (name, config) Hin).
Qed.

Lemma dict_mem_keys {A : Type} (d : dict A) (k : string) :
  dict_mem d k = true <-> In k (dict_keys d).
Proof.
  unfold dict_mem, dict_keys. induction d as [| [k0 v0] d IH]; cbn.
  - split; [discriminate | intros []].
  - destruct (String.eqb_spec k k0) as [-> | Hne].
    + split; auto.
    + rewrite IH. split; [auto |]. intros [H | H]; [congruence | exact H].
Qed.

(** Error lines only accumulate along the loop of [load_from_excel], and a
    required sheet is stored unless an error line is added. *)
Lemma scan_sheet_step (book : Parser.workbook) (acc : Parser.excel_scan)
      (name : string) (config : Parser.sheet_config) :
  let acc' := Parser.scan_sheet book acc (name, config) in
  (Parser.scan_errors acc' = [] -> Parser.scan_errors acc = [])
  /\ (forall k, dict_mem (Parser.scan_data acc) k = true ->
                dict_mem (Parser.scan_data acc') k = true)
  /\ (Parser.scan_errors acc' = [] -> Parser.required config = true ->
      dict_mem (Parser.scan_data acc') name = true).
Proof.
  cbv zeta. unfold Parser.scan_sheet, Parser.scan_errors.
  destruct (Parser.match_sheet (map fst book) name config) as [sheet |];
    [destruct (dict_get book sheet) as [[df0 |] |] |];
    destruct (Parser.required config);
    try destruct (Parser.missing_columns (Parser.strip_columns df0) config);
    cbn [Parser.scan_data Parser.missing_sheets Parser.invalid_columns
         Parser.validation_errors];
    repeat split; try (intros; assumption); try discriminate;
    try (intros k Hk; rewrite dict_mem_set, Hk; apply orb_true_r);
    try (intros; rewrite dict_mem_set, String.eqb_refl; reflexivity);
    try (intros H; exfalso; revert H;
         destruct (Parser.missing_sheets acc); destruct (Parser.invalid_columns acc);
         destruct (Parser.validation_errors acc); discriminate).
Qed.

Lemma scan_fold_complete (book : Parser.workbook)
      (configs : list (string * Parser.sheet_config)) (acc : Parser.excel_scan) :
  Parser.scan_errors (fold_left (Parser.scan_sheet book) configs acc) = [] ->
  Parser.scan_errors acc = []
  /\ (forall k, dict_mem (Parser.scan_data acc) k = true ->
                dict_mem (Parser.scan_data (fold_left (Parser.scan_sheet book) configs acc)) k
                = true)
  /\ (forall name config,
         In (name, config) configs -> Parser.required config = true ->
         dict_mem (Parser.scan_data (fold_left (Parser.scan_sheet book) configs acc)) name
         = true).
Proof.
  revert acc. induction configs as [| [n c] configs IH]; intros acc Herr; cbn [fold_left] in *.
  - repeat split; auto.
  - destruct (IH _ Herr) as (Herr' & Hmono & Hall).
    destruct (scan_sheet_step book acc n c) as (Hstep & Hkeep & Hstore).
    repeat split.
    + apply Hstep, Herr'.
    + intros k Hk. apply Hmono, Hkeep, Hk.
    + intros name config [Heq | Hin] Hreq.
      * injection Heq as <- <-. apply Hmono, Hstore; assumption.
      * apply (Hall name config Hin Hreq).
Qed.

Lemma scan_sheet_marked (book : Parser.workbook) (acc : Parser.excel_scan)
      (entry : string * Parser.sheet_config) :
  (forall e, In e (Parser.invalid_columns acc ++ Parser.validation_errors acc) ->
             Parser.marked e = true) ->
  forall e,
    In e (Parser.invalid_columns (Parser.scan_sheet book acc entry)
          ++ Parser.validation_errors (Parser.scan_sheet book acc entry)) ->
    Parser.marked e = true.
Proof.
  intros Hacc e. destruct entry as [name config]. unfold Parser.scan_sheet.
  destruct (Parser.match_sheet (map fst book) name config) as [sheet |];
    [destruct (dict_get book sheet) as [[df0 |] |] |];
    destruct (Parser.required config);
    try destruct (Parser.missing_columns (Parser.strip_columns df0) config);
    cbn [Parser.invalid_columns Parser.validation_errors];
    try apply Hacc;
    rewrite ?in_app_iff; cbn [In]; intros H;
    repeat match type of H with
           | _ \/ _ => destruct H as [H | H]
           end;
    try (subst e; reflexivity); try contradiction;
    apply Hacc; apply in_app_iff; auto.
Qed.

Lemma scan_workbook_marked (book : Parser.workbook) (e : Parser.load_error) :
  In e (Parser.scan_errors (Parser.scan_workbook book)) -> Parser.marked e = true.
Proof.
  unfold Parser.scan_workbook.
  assert (H : forall configs acc,
             (forall e, In e (Parser.invalid_columns acc ++ Parser.validation_errors acc) ->
                        Parser.marked e = true) ->
             forall e,
               In e (Parser.invalid_columns (fold_left (Parser.scan_sheet book) configs acc)
                     ++ Parser.validation_errors
                          (fold_left (Parser.scan_sheet book) configs acc)) ->
               Parser.marked e = true).
  { induction configs as [| entry configs IH]; intros acc Hacc; cbn [fold_left].
    - exact Hacc.
    - apply IH. apply scan_sheet_marked, Hacc. }
  specialize (H Parser.SHEET_CONFIG (Parser.mkScan [] [] [] [])).
  generalize dependent (fold_left (Parser.scan_sheet book) Parser.SHEET_CONFIG
                          (Parser.mkScan [] [] [] [])).
  intros sc H. unfold Parser.scan_errors. rewrite in_app_iff.
  intros [Hm | Hrest].
  - destruct (Parser.missing_sheets sc); [contradiction |].
    destruct Hm as [<- | []]. reflexivity.
  - apply H; [intros e' [] | exact Hrest].
Qed.

(** A load from a workbook succeeds only when its loop found no error. *)
Lemma load_from_excel_success (st : Parser.state) (book : Parser.workbook) :
  Parser.success (snd (Parser.load_from_excel st book)) = true ->
  Parser.scan_errors (Parser.scan_workbook book) = [].
Proof.
  pose proof (scan_workbook_marked book) as Hmarked.
  unfold Parser.load_from_excel. cbv zeta.
  generalize dependent (Parser.scan_workbook book). intros sc Hmarked.
  destruct (Parser.scan_errors sc) as [| e errs]; [reflexivity |].
  cbn [snd Parser.success Parser.load_errors app forallb].
  rewrite (Hmarked e (or_introl eq_refl)). discriminate.
Qed.

Lemma scan_workbook_fold (book : Parser.workbook) :
  Parser.scan_workbook book
  = fold_left (Parser.scan_sheet book) Parser.SHEET_CONFIG (Parser.mkScan [] [] [] []).
Proof. reflexivity. Qed.

(** Every table the loop of [load_from_excel] stores comes from a sheet of
    the workbook and misses no required column. *)
Lemma scan_workbook_stored (book : Parser.workbook) (name : string) (df : DataFrame) :
  dict_get (Parser.scan_data (Parser.scan_workbook book)) name = Some df ->
  Spec.stored_from book name df.
Proof.
  rewrite scan_workbook_fold.
  apply scan_fold_stored.
  - exact sheet_config_keys.
  - intros n d H. discriminate H.
Qed.

(** When the loop finds no error, it stores every required table. *)
Lemma scan_workbook_complete (book : Parser.workbook)
      (name : string) (config : Parser.sheet_config) :
  Parser.scan_errors (Parser.scan_workbook book) = [] ->
  In (name, config) Parser.SHEET_CONFIG -> Parser.required config = true ->
  dict_mem (Parser.scan_data (Parser.scan_workbook book)) name = true.
Proof.
  rewrite scan_workbook_fold. intros Herr.
  apply (scan_fold_complete book Parser.SHEET_CONFIG (Parser.mkScan [] [] [] []) Herr).
Qed.

(** C4, as the code has it. The validator counts a required table as
    present exactly when the store has a table of that name, as missing
    otherwise, and reports the dataset complete exactly when none is
    missing; it looks at no column. The columns are checked by the load from
    a workbook, before a table is stored: every required table in the store
    after such a load is a sheet of the workbook with its column names
    stripped and has every column its schema entry requires, the names
    compared without regard to case; and a load that succeeds leaves every
    required table in the store. *)
Theorem validator_counts_names (st : Parser.state) (book : Parser.workbook) :
  let v := Parser.validate_complete_dataset st in
  let st' := fst (Parser.load_from_excel st book) in
  (forall name,
      In name (Parser.present v)
      <-> In name (dict_keys Parser.required_sheets)
          /\ dict_mem (Parser.data st) name = true)
  /\ (forall name,
         In name (Parser.missing v)
         <-> In name (dict_keys Parser.required_sheets)
             /\ dict_mem (Parser.data st) name = false)
  /\ (Parser.complete v = true <-> Parser.missing v = [])
  /\ (forall name config df,
         dict_get Parser.required_sheets name = Some config ->
         dict_get (Parser.data st') name = Some df ->
         Spec.has_all_columns df config
         /\ exists sheet df0,
              dict_get book sheet = Some (Some df0) /\ df = Parser.strip_columns df0)
  /\ (Parser.success (snd (Parser.load_from_excel st book)) = true ->
      Parser.complete (Parser.validate_complete_dataset st') = true).
Proof.
  cbv zeta. unfold Parser.validate_complete_dataset.
  cbn [Parser.present Parser.missing Parser.complete].
  split; [| split; [| split; [| split]]].
  - intros name. apply filter_In.
  - intros name. rewrite filter_In, negb_true_iff. reflexivity.
  - destruct (filter _ _); cbn; split; congruence.
  - intros name config df Hconfig Hget.
    rewrite load_from_excel_data in Hget.
    apply required_sheet_config in Hconfig. destruct Hconfig as [Hconfig Hreq].
    apply scan_workbook_stored in Hget.
    destruct Hget as (config' & sheet & df0 & Hc & Hread & Hdf & Hcols).
    rewrite Hconfig in Hc. injection Hc as <-. split.
    + apply missing_columns_none, Hcols, Hreq.
    + exists sheet, df0. split; assumption.
  - intros Hsuccess. apply load_from_excel_success in Hsuccess.
    rewrite load_from_excel_data.
    rewrite filter_none; [reflexivity |].
    intros name Hname. apply negb_false_iff.
    unfold dict_keys in Hname. apply in_map_iff in Hname.
    destruct Hname as ([n config] & <- & Hin). cbn [fst].
    unfold Parser.required_sheets in Hin. apply filter_In in Hin.
    destruct Hin as [Hin Hreq].
    apply (scan_workbook_complete book n config Hsuccess Hin Hreq).
Qed.

(** C4, as the claim states it, fails: the folder of the example has a
    demand file with one of its three required columns; the load succeeds,
    and the validator counts the demand table as present and reports the
    dataset complete. *)
Lemma table_without_columns_counts_present :
  (exists answer,
      snd (Parser.load_from_folder Parser.init Examples.folder_short_demand) = Ok answer
      /\ Parser.success answer = true)
  /\ Parser.complete
       (Parser.validate_complete_dataset
          (fst (Parser.load_from_folder Parser.init Examples.folder_short_demand)))
     = true
  /\ In "Demand"
       (Parser.present
          (Parser.validate_complete_dataset
             (fst (Parser.load_from_folder Parser.init Examples.folder_short_demand))))
  /\ exists df config,
       dict_get
         (Parser.data (fst (Parser.load_from_folder Parser.init Examples.folder_short_demand)))
         "Demand" = Some df
       /\ dict_get Parser.SHEET_CONFIG "Demand" = Some config
       /\ Parser.missing_columns df config = ["TIME PERIOD"; "DEMAND"].
Proof.
  split; [eexists; split; vm_compute; reflexivity |].
  split; [vm_compute; reflexivity |].
  split; [vm_compute; auto |].
  eexists. eexists. repeat split; vm_compute; reflexivity.
Qed.

(** ** Transport modes *)

Lemma mode_capacity_default (mode : string) :
  mode <> "T1" -> mode <> "T2" -> mode_capacity mode = 30%Z.
Proof.
  intros H1 H2. unfold mode_capacity, TRANSPORT_MODES. cbn [dict_get].
  destruct (String.eqb_spec mode "T1"); [contradiction |].
  destruct (String.eqb_spec mode "T2"); [contradiction |]. reflexivity.
Qed.

Lemma solve_by_capacity (route : RouteData) (mode mode' : string) :
  mode_capacity mode = mode_capacity mode' -> solve route mode = solve route mode'.
Proof.
  intros H. unfold solve. rewrite H. reflexivity.
Qed.

(** C9, as the code has it. For a mode code other than T1 and T2 the
    calculator uses a vehicle capacity of 30, and what it computes is what
    it computes for T1 on the same route data: nothing in it tells that the
    capacity is a default. The mode listing gives the capacity as not
    available for the codes other than T1, T2 and T3; for T3 it gives
    10000. *)
Theorem unlisted_mode_capacity (route : RouteData) (mode : string) :
  mode <> "T1" -> mode <> "T2" ->
  vehicle_capacity (solve route mode) = 30%Z
  /\ solve route mode = solve route "T1"
  /\ (mode <> "T3" ->
      Api.detail_of (CStr mode) = Api.mkModeDetail (CStr mode) (CStr mode) Api.CapacityNotAvailable)
  /\ Api.detail_of (CStr "T3") = Api.mkModeDetail (CStr "T3") (CStr "Sea") (Api.CapacityOf 10000)
  /\ (forall st s d details,
         Api.get_transport_modes st s d = Ok (Api.ModesOk details) ->
         forall detail, In detail details -> detail = Api.detail_of (Api.code detail)).
Proof.
  intros H1 H2.
  pose proof (mode_capacity_default mode H1 H2) as Hcap.
  split; [| split; [| split; [| split]]].
  - destruct (solve_shipment route mode) as (Hvc & _). cbv zeta in Hvc.
    rewrite Hvc. exact Hcap.
  - apply solve_by_capacity. rewrite Hcap. reflexivity.
  - intros H3. unfold Api.detail_of, Api.transport_info_of, Parser.TRANSPORT_INFO.
    cbn [dict_get].
    destruct (String.eqb_spec mode "T1"); [contradiction |].
    destruct (String.eqb_spec mode "T2"); [contradiction |].
    destruct (String.eqb_spec mode "T3"); [contradiction |]. reflexivity.
  - reflexivity.
  - intros st s d details H detail Hin. unfold Api.get_transport_modes in H.
    destruct (negb (Parser.is_loaded (Api.parser st))); [discriminate |].
    destruct (Parser.validate_selection _ _ _ _ _) as [v | e]; [| discriminate].
    cbn [bind] in H. destruct (negb (Parser.valid v)); [discriminate |].
    destruct (Parser.get_modes_for_route _ _ _) as [modes | e]; [| discriminate].
    cbn [bind] in H. injection H as <-.
    apply in_map_iff in Hin. destruct Hin as (m & <- & _).
    unfold Api.detail_of.
    destruct (Api.transport_info_of m) eqn:E; cbn [Api.code]; rewrite E; reflexivity.
Qed.

Lemma unlisted_mode_capacity_witness :
  vehicle_capacity (solve Examples.route_A "T9") = 30%Z
  /\ solve Examples.route_A "T9" = solve Examples.route_A "T1".
Proof.
  destruct (unlisted_mode_capacity Examples.route_A "T9") as (H1 & H2 & _);
    [discriminate | discriminate |].
  split; [exact H1 | exact H2].
Defined.

(** C9, as the claim states it, fails for T3: the calculator has no entry
    for it and uses 30, and the mode listing of the example route gives its
    capacity as 10000, not as unavailable. *)
Lemma sea_mode_capacity_listed :
  dict_get TRANSPORT_MODES "T3" = None
  /\ mode_capacity "T3" = 30%Z
  /\ Api.get_transport_modes Examples.loaded "IU1" "GU1"
     = Ok (Api.ModesOk
             [ Api.mkModeDetail (CStr "T1") (CStr "Road") (Api.CapacityOf 30);
               Api.mkModeDetail (CStr "T3") (CStr "Sea") (Api.CapacityOf 10000) ]).
Proof.
  repeat split; vm_compute; reflexivity.
Qed.

(** ** The calculator: further properties *)



(** ** Selection: further properties *)

Ltac validation_cases H :=
  repeat (cbn [bind negb] in H;
          match type of H with
          | context [Parser.get_destinations_for_source ?a ?b] =>
              destruct (Parser.get_destinations_for_source a b)
          | context [Parser.get_modes_for_route ?a ?b ?c] =>
              destruct (Parser.get_modes_for_route a b c)
          | context [cell_in ?a ?b] =>
              let E := fresh "Hin" in destruct (cell_in a b) eqn:E
          end).

(** The answer of [validate_selection] is valid exactly when it lists no
    error, and it never lists a warning. *)
Lemma validation_errors_spec (st : Parser.state) (s d m : option string) (p : option Z)
      (v : Parser.Validation) :
  Parser.validate_selection st s d m p = Ok v ->
  (Parser.valid v = true <-> Parser.selection_errors v = []) /\ Parser.warnings v = [].
Proof.
  intros H. unfold Parser.validate_selection in H.
  destruct (Parser.is_loaded st); cbn [negb] in H.
  2:{ injection H as <-. cbn. split; [split; discriminate | reflexivity]. }
  destruct (Parser.truthy s); destruct (Parser.truthy d); destruct (Parser.truthy m);
    destruct (Parser.truthy_int p);
    validation_cases H;
    cbn in H; try discriminate H; injection H as <-; cbn;
    (split; [split; (discriminate || reflexivity) | reflexivity]).
Qed.

(** X6. Whatever the selection, when [validate_selection] answers, the
    answer is valid exactly when its list of errors is empty, and its list
    of warnings is always empty. *)
Theorem validation_valid_iff_no_error
        (st : Parser.state) (s d m : option string) (p : option Z) (v : Parser.Validation) :
  Parser.validate_selection st s d m p = Ok v ->
  (Parser.valid v = true <-> Parser.selection_errors v = []) /\ Parser.warnings v = [].
Proof.
  apply validation_errors_spec.
Qed.

Lemma validation_valid_iff_no_error_witness :
  (Parser.valid (Parser.mkValidation false [Parser.PeriodNotFound 3] []) = true
   <-> Parser.selection_errors (Parser.mkValidation false [Parser.PeriodNotFound 3] []) = [])
  /\ Parser.warnings (Parser.mkValidation false [Parser.PeriodNotFound 3] []) = [].
Proof.
  apply (validation_valid_iff_no_error (Api.parser Examples.loaded)
           (Some "IU1") (Some "GU1") (Some "T1") (Some 3%Z)).
  vm_compute. reflexivity.
Defined.

(** What a valid answer of [validate_selection] tells about a selection
    that gives the four parameters. *)
Lemma valid_selection_spec (st : Parser.state) (s d m : string) (p : Z)
      (v : Parser.Validation) :
  s <> "" -> d <> "" -> m <> "" -> p <> 0%Z ->
  Parser.validate_selection st (Some s) (Some d) (Some m) (Some p) = Ok v ->
  Parser.valid v = true ->
  Parser.is_loaded st = true
  /\ cell_in (CStr s) (Parser.meta_list (Parser.metadata st) "source_ius") = true
  /\ (exists destinations,
         Parser.get_destinations_for_source st (CStr s) = Ok destinations
         /\ In (CStr d) destinations)
  /\ (exists modes,
         Parser.get_modes_for_route st (CStr s) (CStr d) = Ok modes
         /\ In (CStr m) modes)
  /\ cell_in (CNum (inject_Z p)) (Parser.meta_list (Parser.metadata st) "periods") = true.
Proof.
  intros Hs Hd Hm Hp H Hvalid. unfold Parser.validate_selection in H.
  rewrite (truthy_text s Hs), (truthy_text d Hd), (truthy_text m Hm), (truthy_period p Hp)
    in H.
  destruct (Parser.is_loaded st); cbn [negb] in H.
  2:{ injection H as <-. discriminate Hvalid. }
  destruct (Parser.get_destinations_for_source st (CStr s)) as [dests | e] eqn:Hdests;
    [| cbn in H; destruct (cell_in _ _); discriminate H].
  destruct (Parser.get_modes_for_route st (CStr s) (CStr d)) as [modes | e] eqn:Hmodes;
    [| cbn in H; destruct (cell_in _ _); destruct (cell_in _ _); discriminate H].
  cbn [bind] in H.
  destruct (cell_in (CStr s) (Parser.meta_list (Parser.metadata st) "source_ius")) eqn:E1;
    destruct (cell_in (CStr d) dests) eqn:E2;
    destruct (cell_in (CStr m) modes) eqn:E3;
    destruct (cell_in (CNum (inject_Z p)) (Parser.meta_list (Parser.metadata st) "periods"))
      eqn:E4;
    cbn in H; injection H as <-; try discriminate Hvalid.
  repeat split.
  - exists dests. split; [reflexivity | apply cell_in_text, E2].
  - exists modes. split; [reflexivity | apply cell_in_text, E3].
Qed.

Lemma unique_acc_In (seen l : list cell) (x : cell) :
  In x (unique_acc seen l) -> In x l.
Proof.
  revert seen. induction l as [| c l IH]; intros seen; cbn; [auto |].
  destruct (existsb (cell_same c) seen).
  - intros H. right. apply (IH _ H).
  - intros [H | H]; [left; exact H | right; apply (IH _ H)].
Qed.

Lemma unique_In (l : list cell) (x : cell) : In x (unique l) -> In x l.
Proof.
  apply unique_acc_In.
Qed.

Lemma getcol_select_rows (df : DataFrame) (f : row -> bool) (c : string) (col : list cell) :
  getcol (select df (map f (rows df))) c = Ok col ->
  forall x, In x col ->
    exists r, In r (rows df) /\ f r = true /\ Spec.field df c r = Some x.
Proof.
  unfold getcol, Spec.field. cbn [select columns rows].
  destruct (index_of c (columns df)) as [i |]; [| discriminate].
  intros H x Hx. injection H as <-. rewrite select_rows_map in Hx.
  apply in_map_iff in Hx. destruct Hx as (r & <- & Hr).
  apply filter_In in Hr. destruct Hr as [Hr Hf].
  exists r. repeat split; assumption.
Qed.

Lemma filter_result_kept {A : Type} (f : A -> result bool) (l kept : list A) :
  Parser.filter_result f l = Ok kept ->
  forall x, In x kept -> In x l /\ f x = Ok true.
Proof.
  revert kept. induction l as [| a l IH]; intros kept; cbn.
  - intros H. injection H as <-. intros x [].
  - destruct (f a) as [b | e] eqn:Hfa; cbn [bind]; [| discriminate].
    destruct (Parser.filter_result f l) as [rest | e]; cbn [bind]; [| discriminate].
    intros H. injection H as <-. intros x Hx.
    destruct b.
    + destruct Hx as [<- | Hx]; [split; [left; reflexivity | exact Hfa] |].
      destruct (IH rest eq_refl x Hx). split; [right |]; assumption.
    + destruct (IH rest eq_refl x Hx). split; [right |]; assumption.
Qed.

(** The destinations of a source are destinations of its logistics rows,
    and each passes the completeness test. *)
Lemma get_destinations_sound (st : Parser.state) (source : cell) (destinations : list cell) :
  Parser.get_destinations_for_source st source = Ok destinations ->
  forall d, In d destinations ->
    (exists logistics r,
        dict_get (Parser.data st) "Logistics" = Some logistics
        /\ In r (rows logistics)
        /\ Spec.field_eqb logistics "FROM IU CODE" source r = true
        /\ Spec.field logistics "TO IUGU CODE" r = Some d)
    /\ Parser._has_complete_data st source d = Ok true.
Proof.
  unfold Parser.get_destinations_for_source.
  destruct (negb (Parser.is_loaded st)).
  { intros H. injection H as <-. intros d []. }
  destruct (dict_get (Parser.data st) "Logistics") as [df |] eqn:Hlog.
  2:{ intros H. injection H as <-. intros d []. }
  destruct (has_column df "FROM IU CODE") eqn:Hfrom.
  2:{ rewrite (mask_eq_raise _ _ _ Hfrom). discriminate. }
  rewrite (mask_eq_field _ _ _ Hfrom). cbn [bind].
  destruct (getcol _ "TO IUGU CODE") as [col | e] eqn:Hcol; cbn [bind]; [| discriminate].
  intros H d Hd.
  destruct (filter_result_kept _ _ _ H d Hd) as [Hin Hcomplete].
  split; [| exact Hcomplete].
  apply unique_In in Hin.
  destruct (getcol_select_rows df _ _ _ Hcol d Hin) as (r & Hr & Hf & Hto).
  exists df, r. repeat split; assumption.
Qed.

(** The modes of a route are modes of the logistics rows of the pair. *)
Lemma get_modes_sound (st : Parser.state) (source destination : cell) (modes : list cell) :
  Parser.get_modes_for_route st source destination = Ok modes ->
  forall m, In m modes ->
    exists logistics r,
      dict_get (Parser.data st) "Logistics" = Some logistics
      /\ In r (rows logistics)
      /\ Spec.pair_row logistics source destination r = true
      /\ Spec.field logistics "TRANSPORT CODE" r = Some m.
Proof.
  unfold Parser.get_modes_for_route.
  destruct (negb (Parser.is_loaded st)).
  { intros H. injection H as <-. intros m []. }
  destruct (dict_get (Parser.data st) "Logistics") as [df |] eqn:Hlog.
  2:{ intros H. injection H as <-. intros m []. }
  destruct (has_column df "FROM IU CODE") eqn:Hfrom.
  2:{ rewrite (mask_eq_raise _ _ _ Hfrom). discriminate. }
  rewrite (mask_eq_field _ _ _ Hfrom). cbn [bind].
  destruct (has_column df "TO IUGU CODE") eqn:Hto.
  2:{ rewrite (mask_eq_raise _ _ _ Hto). discriminate. }
  rewrite (mask_eq_field _ _ _ Hto). cbn [bind]. rewrite mask_and_map.
  destruct (getcol _ "TRANSPORT CODE") as [col | e] eqn:Hcol; cbn [bind]; [| discriminate].
  intros H m Hm. injection H as <-. apply unique_In in Hm.
  destruct (getcol_select_rows df _ _ _ Hcol m Hm) as (r & Hr & Hf & Hmode).
  exists df, r. repeat split; assumption.
Qed.

(** X7. What a valid selection guarantees. When [validate_selection]
    answers that a selection with a source, a destination, a mode and a
    period is valid, the dataset is loaded, the source is a listed source,
    the pair passes the completeness test, some logistics row of the pair
    has the mode, and the period is a listed period. *)
Theorem valid_selection_meaning (st : Parser.state) (s d m : string) (p : Z)
        (v : Parser.Validation) :
  s <> "" -> d <> "" -> m <> "" -> p <> 0%Z ->
  Parser.validate_selection st (Some s) (Some d) (Some m) (Some p) = Ok v ->
  Parser.valid v = true ->
  Parser.is_loaded st = true
  /\ cell_in (CStr s) (Parser.meta_list (Parser.metadata st) "source_ius") = true
  /\ Parser._has_complete_data st (CStr s) (CStr d) = Ok true
  /\ (exists logistics r,
         dict_get (Parser.data st) "Logistics" = Some logistics
         /\ In r (rows logistics)
         /\ Spec.pair_row logistics (CStr s) (CStr d) r = true
         /\ Spec.field logistics "TRANSPORT CODE" r = Some (CStr m))
  /\ cell_in (CNum (inject_Z p)) (Parser.meta_list (Parser.metadata st) "periods") = true.
Proof.
  intros Hs Hd Hm Hp H Hvalid.
  destruct (valid_selection_spec st s d m p v Hs Hd Hm Hp H Hvalid)
    as (Hloaded & Hsource & (dests & Hdests & Hind) & (modes & Hmodes & Hinm) & Hperiod).
  repeat split; try assumption.
  - apply (get_destinations_sound st (CStr s) dests Hdests (CStr d) Hind).
  - apply (get_modes_sound st (CStr s) (CStr d) modes Hmodes (CStr m) Hinm).
Qed.

Lemma valid_selection_meaning_witness :
  Parser.is_loaded (Api.parser Examples.loaded) = true
  /\ cell_in (CStr "IU1")
       (Parser.meta_list (Parser.metadata (Api.parser Examples.loaded)) "source_ius") = true
  /\ Parser._has_complete_data (Api.parser Examples.loaded) (CStr "IU1") (CStr "GU1") = Ok true
  /\ (exists logistics r,
         dict_get (Parser.data (Api.parser Examples.loaded)) "Logistics" = Some logistics
         /\ In r (rows logistics)
         /\ Spec.pair_row logistics (CStr "IU1") (CStr "GU1") r = true
         /\ Spec.field logistics "TRANSPORT CODE" r = Some (CStr "T1"))
  /\ cell_in (CNum (inject_Z 1))
       (Parser.meta_list (Parser.metadata (Api.parser Examples.loaded)) "periods") = true.
Proof.
  apply (valid_selection_meaning (Api.parser Examples.loaded) "IU1" "GU1" "T1" 1
           (Parser.mkValidation true [] []));
    try discriminate; vm_compute; reflexivity.
Defined.

Lemma cell_same_text (t : string) (c : cell) : cell_same (CStr t) c = true -> c = CStr t.
Proof.
  destruct c; cbn; try discriminate.
  intros H. apply String.eqb_eq in H. congruence.
Qed.

Lemma cell_text_dec (t : string) (c : cell) : c = CStr t \/ c <> CStr t.
Proof.
  destruct c as [q | s |]; try (right; discriminate).
  destruct (String.eqb_spec s t) as [-> | Hne]; [left; reflexivity | right; congruence].
Qed.

Lemma unique_acc_text (seen l : list cell) (t : string) :
  In (CStr t) l ->
  In (CStr t) (unique_acc seen l) \/ In (CStr t) seen.
Proof.
  revert seen. induction l as [| c l IH]; intros seen; cbn; [intros [] |].
  intros Hin.
  destruct (existsb (cell_same c) seen) eqn:Hseen.
  - destruct Hin as [-> | Hin]; [| apply IH, Hin].
    right. apply existsb_exists in Hseen. destruct Hseen as (y & Hy & Hsame).
    apply cell_same_text in Hsame. subst y. exact Hy.
  - destruct (cell_text_dec t c) as [-> | Hne]; [left; left; reflexivity |].
    destruct Hin as [-> | Hin]; [congruence |].
    destruct (IH (c :: seen) Hin) as [H | [H | H]].
    + left. right. exact H.
    + congruence.
    + right. exact H.
Qed.

Lemma unique_text (l : list cell) (t : string) : In (CStr t) l -> In (CStr t) (unique l).
Proof.
  intros H. destruct (unique_acc_text [] l t H) as [H' | []]. exact H'.
Qed.

Lemma filter_result_keeps {A : Type} (f : A -> result bool) (l kept : list A) (x : A) :
  Parser.filter_result f l = Ok kept -> In x l -> f x = Ok true -> In x kept.
Proof.
  revert kept. induction l as [| a l IH]; intros kept; cbn; [intros _ [] |].
  destruct (f a) as [b | e] eqn:Hfa; cbn [bind]; [| discriminate].
  destruct (Parser.filter_result f l) as [rest | e]; cbn [bind]; [| discriminate].
  intros H [<- | Hin] Hfx; injection H as <-.
  - rewrite Hfx in Hfa. injection Hfa as <-. left. reflexivity.
  - destruct b; [right |]; apply (IH rest eq_refl Hin Hfx).
Qed.

Lemma getcol_select_member (df : DataFrame) (f : row -> bool) (c : string) (col : list cell)
      (r : row) (x : cell) :
  getcol (select df (map f (rows df))) c = Ok col ->
  In r (rows df) -> f r = true -> Spec.field df c r = Some x -> In x col.
Proof.
  unfold getcol, Spec.field. cbn [select columns rows].
  destruct (index_of c (columns df)) as [i |]; [| discriminate].
  intros H Hr Hf Hx. injection H as <-. injection Hx as <-.
  rewrite select_rows_map. apply in_map. apply filter_In. split; assumption.
Qed.

(** X8. The destinations listed for a source. When
    [get_destinations_for_source] answers on a loaded dataset, a
    destination code is in the list exactly when some logistics row of the
    source goes to it and the pair passes the completeness test. *)
Theorem destinations_listed (st : Parser.state) (source : cell) (destinations : list cell)
        (t : string) :
  Parser.is_loaded st = true ->
  Parser.get_destinations_for_source st source = Ok destinations ->
  (In (CStr t) destinations
   <-> (exists logistics r,
           dict_get (Parser.data st) "Logistics" = Some logistics
           /\ In r (rows logistics)
           /\ Spec.field_eqb logistics "FROM IU CODE" source r = true
           /\ Spec.field logistics "TO IUGU CODE" r = Some (CStr t))
       /\ Parser._has_complete_data st source (CStr t) = Ok true).
Proof.
  intros Hloaded H. split.
  - apply (get_destinations_sound st source destinations H).
  - intros [(logistics & r & Hlog & Hr & Hfrom & Hto) Hcomplete].
    unfold Parser.get_destinations_for_source in H.
    rewrite Hloaded, Hlog in H. cbn [negb] in H.
    destruct (has_column logistics "FROM IU CODE") eqn:Hc.
    2:{ rewrite (mask_eq_raise _ _ _ Hc) in H. discriminate. }
    rewrite (mask_eq_field _ _ _ Hc) in H. cbn [bind] in H.
    destruct (getcol _ "TO IUGU CODE") as [col | e] eqn:Hcol; cbn [bind] in H;
      [| discriminate].
    apply (filter_result_keeps _ _ _ _ H); [| exact Hcomplete].
    apply unique_text.
    apply (getcol_select_member logistics _ _ _ r _ Hcol Hr Hfrom Hto).
Qed.

Lemma destinations_listed_witness :
  In (CStr "GU1") [CStr "GU1"]
  <-> (exists logistics r,
          dict_get (Parser.data (Api.parser Examples.loaded)) "Logistics" = Some logistics
          /\ In r (rows logistics)
          /\ Spec.field_eqb logistics "FROM IU CODE" (CStr "IU1") r = true
          /\ Spec.field logistics "TO IUGU CODE" r = Some (CStr "GU1"))
      /\ Parser._has_complete_data (Api.parser Examples.loaded) (CStr "IU1") (CStr "GU1")
         = Ok true.
Proof.
  apply (destinations_listed (Api.parser Examples.loaded) (CStr "IU1") [CStr "GU1"] "GU1");
    vm_compute; reflexivity.
Defined.

(** ** Metadata: further properties *)

Lemma bindM_ok {A B : Type} (m : Parser.M A) (k : A -> Parser.M B)
      (st st' : Parser.state) (b : B) :
  Parser.bindM m k st = (st', Ok b) ->
  exists st1 a, m st = (st1, Ok a) /\ k a st1 = (st', Ok b).
Proof.
  unfold Parser.bindM. destruct (m st) as [st1 [a | e]]; intros H.
  - exists st1, a. split; [reflexivity | exact H].
  - discriminate H.
Qed.

Lemma keeps_meta_ret {A : Type} (key : string) (a : A) : Spec.keeps_meta key (Parser.ret a).
Proof. intros st. reflexivity. Qed.

Lemma keeps_meta_lift {A : Type} (key : string) (r : result A) :
  Spec.keeps_meta key (Parser.lift r).
Proof. intros st. reflexivity. Qed.

Lemma keeps_meta_get (key : string) : Spec.keeps_meta key Parser.get.
Proof. intros st. reflexivity. Qed.

Lemma keeps_meta_put (key key' : string) (v : Parser.meta_value) :
  String.eqb key key' = false -> Spec.keeps_meta key (Parser.put_meta key' v).
Proof.
  intros H st. cbn. rewrite dict_get_set, H. reflexivity.
Qed.

Lemma keeps_meta_bind {A B : Type} (key : string) (m : Parser.M A) (k : A -> Parser.M B) :
  Spec.keeps_meta key m -> (forall a, Spec.keeps_meta key (k a)) ->
  Spec.keeps_meta key (Parser.bindM m k).
Proof.
  intros Hm Hk st. unfold Parser.bindM. specialize (Hm st).
  destruct (m st) as [st' [a | e]]; cbn [fst] in *.
  - rewrite (Hk a st'). exact Hm.
  - exact Hm.
Qed.

Ltac keeps_meta :=
  repeat first
    [ apply keeps_meta_ret | apply keeps_meta_lift | apply keeps_meta_get
    | apply keeps_meta_put; reflexivity
    | apply keeps_meta_bind; [| intros ?]
    | match goal with
      | |- Spec.keeps_meta _ (match ?x with _ => _ end) => destruct x
      end ].

Lemma keeps_periods_route_index : Spec.keeps_meta "periods" Parser._build_route_index.
Proof.
  unfold Parser._build_route_index. keeps_meta.
Qed.

Lemma keeps_periods_filter_sources :
  Spec.keeps_meta "periods" Parser._filter_sources_with_complete_data.
Proof.
  unfold Parser._filter_sources_with_complete_data. keeps_meta.
Qed.

Lemma keeps_step {A : Type} (m : Parser.M A) (a b : Parser.state) (r : result A) :
  Spec.keeps_tables m -> m a = (b, r) ->
  Parser.data b = Parser.data a /\ Parser.is_loaded b = Parser.is_loaded a.
Proof.
  intros Hk E. destruct (Hk a) as (Hd & Hl & _). rewrite E in Hd, Hl. split; assumption.
Qed.

(** The steps of [_extract_metadata] when it raises nothing. *)
Lemma extract_metadata_steps (st st' : Parser.state) :
  Parser._extract_metadata st = (st', Ok tt) ->
  exists s1 s2 s3 s5,
    Parser.extract_plants (Parser.data st) st = (s1, Ok tt)
    /\ Parser.extract_logistics (Parser.data st) s1 = (s2, Ok tt)
    /\ Parser.extract_periods (Parser.data st) s2 = (s3, Ok tt)
    /\ dict_get (Parser.metadata s5) "periods" = dict_get (Parser.metadata s3) "periods"
    /\ Parser.data s5 = Parser.data st
    /\ Parser.is_loaded s5 = Parser.is_loaded st
    /\ Parser._filter_sources_with_complete_data s5 = (st', Ok tt).
Proof.
  unfold Parser._extract_metadata. intros H.
  apply bindM_ok in H. destruct H as (s0 & st0 & Hget & H).
  cbn in Hget. injection Hget as <- <-.
  apply bindM_ok in H. destruct H as (s1 & [] & H1 & H).
  apply bindM_ok in H. destruct H as (s2 & [] & H2 & H).
  apply bindM_ok in H. destruct H as (s3 & [] & H3 & H).
  apply bindM_ok in H. destruct H as (s4 & [] & H4 & H).
  apply bindM_ok in H. destruct H as (s5 & [] & H5 & H).
  assert (K1 : Spec.keeps_tables (Parser.extract_plants (Parser.data st)))
    by (unfold Parser.extract_plants; keeps_tables).
  assert (K2 : Spec.keeps_tables (Parser.extract_logistics (Parser.data st)))
    by (unfold Parser.extract_logistics; keeps_tables).
  assert (K3 : Spec.keeps_tables (Parser.extract_periods (Parser.data st)))
    by (unfold Parser.extract_periods; keeps_tables).
  assert (K5 : Spec.keeps_tables
                 (if dict_mem (Parser.data st) "Logistics"
                  then Parser._build_route_index else Parser.ret tt)).
  { destruct (dict_mem _ _); [unfold Parser._build_route_index; keeps_tables | apply keeps_ret]. }
  exists s1, s2, s3, s5. repeat split; try assumption.
  - assert (M5 : Spec.keeps_meta "periods"
                   (if dict_mem (Parser.data st) "Logistics"
                    then Parser._build_route_index else Parser.ret tt)).
    { destruct (dict_mem _ _); [apply keeps_periods_route_index | apply keeps_meta_ret]. }
    specialize (M5 s4). rewrite H5 in M5. cbn [fst] in M5. rewrite M5.
    cbn in H4. injection H4 as <-. cbn. rewrite dict_get_set. reflexivity.
  - destruct (keeps_step _ _ _ _ K1 H1) as [D1 _].
    destruct (keeps_step _ _ _ _ K2 H2) as [D2 _].
    destruct (keeps_step _ _ _ _ K3 H3) as [D3 _].
    destruct (keeps_step _ _ _ _ (keeps_put_meta _ _) H4) as [D4 _].
    destruct (keeps_step _ _ _ _ K5 H5) as [D5 _]. congruence.
  - destruct (keeps_step _ _ _ _ K1 H1) as [_ L1].
    destruct (keeps_step _ _ _ _ K2 H2) as [_ L2].
    destruct (keeps_step _ _ _ _ K3 H3) as [_ L3].
    destruct (keeps_step _ _ _ _ (keeps_put_meta _ _) H4) as [_ L4].
    destruct (keeps_step _ _ _ _ K5 H5) as [_ L5]. congruence.
Qed.

Lemma filter_result_ext {A : Type} (f g : A -> result bool) (l : list A) :
  (forall x, f x = g x) -> Parser.filter_result f l = Parser.filter_result g l.
Proof.
  intros H. induction l as [| a l IH]; cbn; [reflexivity |].
  rewrite H, IH. reflexivity.
Qed.

(** The route queries of the parser read the tables and the loaded flag
    only. *)
Lemma has_complete_data_ext (a b : Parser.state) (s d : cell) :
  Parser.data a = Parser.data b ->
  Parser._has_complete_data a s d = Parser._has_complete_data b s d.
Proof.
  intros H. unfold Parser._has_complete_data. rewrite H. reflexivity.
Qed.

Lemma get_destinations_ext (a b : Parser.state) (s : cell) :
  Parser.data a = Parser.data b -> Parser.is_loaded a = Parser.is_loaded b ->
  Parser.get_destinations_for_source a s = Parser.get_destinations_for_source b s.
Proof.
  intros Hd Hl. unfold Parser.get_destinations_for_source. rewrite Hd, Hl.
  destruct (negb (Parser.is_loaded b)); [reflexivity |].
  destruct (dict_get (Parser.data b) "Logistics"); [| reflexivity].
  destruct (mask_eq _ _ _); cbn [bind]; [| reflexivity].
  destruct (getcol _ _); cbn [bind]; [| reflexivity].
  apply filter_result_ext. intros x. apply has_complete_data_ext, Hd.
Qed.

(** The sources [_filter_sources_with_complete_data] keeps have a
    destination. *)
Lemma filter_sources_spec (st st' : Parser.state) :
  Parser._filter_sources_with_complete_data st = (st', Ok tt) ->
  Parser.data st' = Parser.data st
  /\ Parser.is_loaded st' = Parser.is_loaded st
  /\ dict_get (Parser.metadata st') "periods" = dict_get (Parser.metadata st) "periods"
  /\ forall s, In s (Parser.meta_list (Parser.metadata st') "source_ius") ->
               Parser.has_destinations st s = Ok true.
Proof.
  intros H.
  assert (K : Spec.keeps_tables Parser._filter_sources_with_complete_data)
    by (unfold Parser._filter_sources_with_complete_data; keeps_tables).
  destruct (keeps_step _ _ _ _ K H) as [Hd Hl].
  pose proof (keeps_periods_filter_sources st) as Hp. rewrite H in Hp. cbn [fst] in Hp.
  repeat split; try assumption.
  unfold Parser._filter_sources_with_complete_data in H.
  apply bindM_ok in H. destruct H as (s0 & st0 & Hget & H).
  cbn in Hget. injection Hget as <- <-.
  destruct (negb (dict_mem (Parser.metadata st) "source_ius")) eqn:Hmem.
  - cbn in H. injection H as <-. intros s Hs.
    unfold Parser.meta_list in Hs. unfold dict_mem in Hmem.
    destruct (dict_get (Parser.metadata st) "source_ius"); [discriminate | contradiction].
  - apply bindM_ok in H. destruct H as (s1 & valid & Hvalid & H).
    unfold Parser.lift in Hvalid.
    destruct (Parser.filter_result (Parser.has_destinations st)
                (Parser.meta_list (Parser.metadata st) "source_ius")) as [kept | e] eqn:Hk;
      [| discriminate Hvalid].
    injection Hvalid as E1 E2. subst s1 valid.
    unfold Parser.bindM, Parser.put_meta, Parser.set_metadata in H.
    cbn [Parser.data Parser.metadata Parser.is_loaded Parser.load_errors] in H.
    injection H as <-. intros s Hs.
    unfold Parser.meta_list in Hs. cbn [Parser.metadata] in Hs.
    rewrite !dict_get_set in Hs. cbn in Hs.
    apply (filter_result_kept _ _ _ Hk s Hs).
Qed.

(** The sources listed after the metadata are extracted have a
    destination. *)
Lemma extract_metadata_sources (st st' : Parser.state) :
  Parser._extract_metadata st = (st', Ok tt) ->
  forall s, In s (Parser.meta_list (Parser.metadata st') "source_ius") ->
    exists d ds, Parser.get_destinations_for_source st' s = Ok (d :: ds).
Proof.
  intros H s Hs.
  destruct (extract_metadata_steps st st' H)
    as (s1 & s2 & s3 & s5 & _ & _ & _ & _ & Hd5 & Hl5 & Hfilter).
  destruct (filter_sources_spec s5 st' Hfilter) as (Hd & Hl & _ & Hsources).
  specialize (Hsources s Hs). unfold Parser.has_destinations in Hsources.
  rewrite (get_destinations_ext st' s5 s Hd Hl).
  destruct (Parser.get_destinations_for_source s5 s) as [[| d ds] | e];
    cbn in Hsources; try discriminate.
  exists d, ds. reflexivity.
Qed.

(** A load from a workbook that succeeds ends with the metadata extracted
    from the tables its loop stored. *)
Lemma load_from_excel_succeeded (st : Parser.state) (book : Parser.workbook) :
  Parser.success (snd (Parser.load_from_excel st book)) = true ->
  Parser.scan_errors (Parser.scan_workbook book) = []
  /\ Parser._extract_metadata
       (Parser.mkState (Parser.scan_data (Parser.scan_workbook book)) [] true [])
     = (fst (Parser.load_from_excel st book), Ok tt)
  /\ Parser.load_errors (fst (Parser.load_from_excel st book)) = [].
Proof.
  intros Hsuccess.
  pose proof (load_from_excel_success st book Hsuccess) as Herr.
  split; [exact Herr |].
  revert Hsuccess. unfold Parser.load_from_excel. cbv zeta.
  generalize dependent (Parser.scan_workbook book). intros sc Herr.
  rewrite Herr.
  pose proof (keeps_extract_metadata (Parser.mkState (Parser.scan_data sc) [] true []))
    as (_ & _ & Herrors).
  destruct (Parser._extract_metadata (Parser.mkState (Parser.scan_data sc) [] true []))
    as [st1 [[] | e]]; cbn [fst snd Parser.success Parser.load_errors] in *.
  - intros _. split; [reflexivity | exact Herrors].
  - rewrite Herrors. cbn. discriminate.
Qed.

Lemma truthy_some (o : option string) (s : string) :
  Parser.truthy o = Some s -> o = Some s /\ s <> "".
Proof.
  destruct o as [[| c t] |]; cbn; intros H; try discriminate H.
  injection H as <-. split; [reflexivity | discriminate].
Qed.

(** A selection whose source is not a listed source is not valid. *)
Lemma validate_selection_unknown_source (st : Parser.state) (s : string)
      (d m : option string) (p : option Z) (v : Parser.Validation) :
  s <> "" ->
  cell_in (CStr s) (Parser.meta_list (Parser.metadata st) "source_ius") = false ->
  Parser.validate_selection st (Some s) d m p = Ok v ->
  Parser.valid v = false.
Proof.
  intros Hs Hsrc H. unfold Parser.validate_selection in H.
  rewrite (truthy_text s Hs), Hsrc in H.
  destruct (Parser.is_loaded st); cbn [negb] in H.
  2:{ injection H as <-. reflexivity. }
  destruct (Parser.truthy d); destruct (Parser.truthy m); destruct (Parser.truthy_int p);
    validation_cases H;
    cbn in H; try discriminate H; injection H as <-; reflexivity.
Qed.

(** With no metadata, no route query is answered by a result. *)
Lemma no_metadata_no_route (st : Api.state) (s d m : option string) (p : option Z)
      (solution : MilpResult) :
  Parser.metadata (Api.parser st) = [] ->
  Api.get_route_data st s d m p <> Ok (Api.RouteOk solution).
Proof.
  intros Hmeta H. unfold Api.get_route_data in H.
  destruct (negb (Parser.is_loaded (Api.parser st))); [discriminate H |].
  destruct (Parser.truthy s) as [s0 |] eqn:Es; [| discriminate H].
  destruct (Parser.truthy d) as [d0 |]; [| discriminate H].
  destruct (Parser.truthy m) as [m0 |]; [| discriminate H].
  destruct (Parser.truthy_int p) as [p0 |]; [| discriminate H].
  apply truthy_some in Es. destruct Es as [-> Hs0].
  destruct (Parser.validate_selection (Api.parser st) (Some s0) d m p) as [v | e] eqn:Hv;
    cbn [bind] in H; [| discriminate H].
  rewrite (validate_selection_unknown_source _ _ _ _ _ _ Hs0 ltac:(rewrite Hmeta; reflexivity) Hv)
    in H.
  discriminate H.
Qed.

(** X10. No result is served after a failed load. When a load from a
    workbook, or from a folder, finds a missing or invalid table, no route
    query on the state it leaves is answered by a computed result, whatever
    was loaded before: the query is refused or raises. *)
Theorem failed_load_serves_no_route
        (to_numeric : string -> option Q) (st : Api.state)
        (book : Parser.workbook) (dir : Parser.folder)
        (s d m : option string) (p : option Z) (solution : MilpResult) :
  (Parser.scan_errors (Parser.scan_workbook book) <> [] ->
   Api.get_route_data (fst (Api.upload_file to_numeric st book)) s d m p
   <> Ok (Api.RouteOk solution))
  /\ (snd (Parser.read_folder dir) <> [] ->
      Api.get_route_data (fst (Api.load_from_folder to_numeric st dir)) s d m p
      <> Ok (Api.RouteOk solution)).
Proof.
  split; intros Herr; apply no_metadata_no_route.
  - unfold Api.upload_file.
    pose proof (load_from_excel_failed (Api.parser st) book Herr) as Hstate.
    pose proof (load_from_excel_success (Api.parser st) book) as Hsuccess.
    destruct (Parser.load_from_excel (Api.parser st) book) as [ps answer].
    cbn [fst snd] in *.
    destruct (Parser.success answer); [specialize (Hsuccess eq_refl); contradiction |].
    cbn [fst Api.parser]. rewrite Hstate. reflexivity.
  - unfold Api.load_from_folder.
    pose proof (load_from_folder_failed (Api.parser st) dir Herr) as Hstate.
    assert (Hanswer : forall answer,
               snd (Parser.load_from_folder (Api.parser st) dir) = Ok answer ->
               Parser.success answer = false).
    { unfold Parser.load_from_folder.
      destruct (Parser.read_folder dir) as [tables errs]. cbn [snd] in Herr.
      destruct errs as [| e errs]; [congruence |].
      intros answer H. cbn [snd] in H. injection H as <-. reflexivity. }
    destruct (Parser.load_from_folder (Api.parser st) dir) as [ps [answer | e]];
      cbn [fst snd] in *.
    + rewrite (Hanswer answer eq_refl). cbn [fst Api.parser]. rewrite Hstate. reflexivity.
    + cbn [Api.parser]. rewrite Hstate. reflexivity.
Qed.

(** X11. The outcome of a load from a workbook. The load succeeds exactly
    when its loop finds no missing or invalid sheet and the extraction of
    the metadata raises nothing; the parser is then loaded, holds no error
    line, and the answer gives its metadata and finds every required
    sheet. *)
Theorem excel_load_outcome (st : Parser.state) (book : Parser.workbook) :
  let st' := fst (Parser.load_from_excel st book) in
  let answer := snd (Parser.load_from_excel st book) in
  (Parser.success answer = true
   <-> Parser.scan_errors (Parser.scan_workbook book) = []
       /\ exists st1,
            Parser._extract_metadata
              (Parser.mkState (Parser.scan_data (Parser.scan_workbook book)) [] true [])
            = (st1, Ok tt))
  /\ (Parser.success answer = true ->
      Parser.is_loaded st' = true
      /\ Parser.errors answer = []
      /\ Parser.result_metadata answer = Parser.metadata st'
      /\ forall name, In name (dict_keys Parser.required_sheets) ->
                      In name (Parser.sheets_found answer)).
Proof.
  cbv zeta.
  pose proof (scan_workbook_marked book) as Hmarked.
  pose proof (scan_workbook_complete book) as Hcomplete.
  unfold Parser.load_from_excel. cbv zeta.
  generalize dependent (Parser.scan_workbook book). intros sc Hmarked Hcomplete.
  pose proof (keeps_extract_metadata (Parser.mkState (Parser.scan_data sc) [] true []))
    as (Hdata & Hloaded & Herrors).
  destruct (Parser.scan_errors sc) as [| e errs].
  - destruct (Parser._extract_metadata (Parser.mkState (Parser.scan_data sc) [] true []))
      as [st1 [[] | e]];
      cbn [fst snd Parser.success Parser.errors Parser.result_metadata Parser.sheets_found
           Parser.data Parser.is_loaded Parser.load_errors] in *;
      rewrite Herrors.
    + split.
      * split; [intros _; split; [reflexivity | exists st1; reflexivity] | reflexivity].
      * intros _. rewrite Hloaded, Hdata. repeat split.
        intros name Hname. apply dict_mem_keys.
        unfold dict_keys in Hname. apply in_map_iff in Hname.
        destruct Hname as ([n config] & <- & Hin). cbn [fst].
        unfold Parser.required_sheets in Hin. apply filter_In in Hin.
        destruct Hin as [Hin Hreq].
        apply (Hcomplete n config eq_refl Hin Hreq).
    + cbn. split; [split |]; try discriminate.
      intros (_ & st2 & H). discriminate H.
  - cbn [fst snd Parser.success Parser.load_errors app forallb].
    rewrite (Hmarked e (or_introl eq_refl)). cbn [negb andb].
    split; [split |]; try discriminate.
    intros (H & _). discriminate H.
Qed.

(** ** The known periods *)

Lemma cell_eqb_same (x a b : cell) :
  cell_same a b = true -> cell_eqb x a = cell_eqb x b.
Proof.
  destruct x as [x | x |], a as [a | a |], b as [b | b |]; cbn; intros H;
    try discriminate H; try reflexivity.
  - apply Qeq_bool_iff in H.
    destruct (Qeq_bool x a) eqn:Ea, (Qeq_bool x b) eqn:Eb; try reflexivity.
    + apply Qeq_bool_iff in Ea. apply Qeq_bool_neq in Eb. exfalso. apply Eb.
      rewrite Ea. exact H.
    + apply Qeq_bool_iff in Eb. apply Qeq_bool_neq in Ea. exfalso. apply Ea.
      rewrite Eb. symmetry. exact H.
  - apply String.eqb_eq in H. subst b. reflexivity.
Qed.

Lemma existsb_same (x : cell) (c : cell) (seen : list cell) :
  existsb (cell_same c) seen = true -> cell_eqb x c = true ->
  existsb (cell_eqb x) seen = true.
Proof.
  intros Hseen Hx. apply existsb_exists in Hseen. destruct Hseen as (c' & Hin & Hsame).
  apply existsb_exists. exists c'. split; [exact Hin |].
  rewrite <- (cell_eqb_same x c c' Hsame). exact Hx.
Qed.

(** [unique] keeps the members of a list, up to [==]. *)
Lemma cell_in_unique_acc (x : cell) (l seen : list cell) :
  existsb (cell_eqb x) (unique_acc seen l) || existsb (cell_eqb x) seen
  = existsb (cell_eqb x) l || existsb (cell_eqb x) seen.
Proof.
  revert seen. induction l as [| c l IH]; intros seen; cbn [unique_acc existsb]; [reflexivity |].
  destruct (existsb (cell_same c) seen) eqn:Hseen.
  - rewrite IH. destruct (cell_eqb x c) eqn:Hx; [| reflexivity].
    rewrite (existsb_same x c seen Hseen Hx). cbn. rewrite !orb_true_r. reflexivity.
  - cbn [existsb]. specialize (IH (c :: seen)). cbn [existsb] in IH.
    destruct (cell_eqb x c); cbn [orb] in *; [reflexivity |].
    exact IH.
Qed.

Lemma cell_in_unique (x : cell) (l : list cell) : cell_in x (unique l) = cell_in x l.
Proof.
  unfold cell_in, unique. pose proof (cell_in_unique_acc x l []) as H.
  cbn [existsb] in H. rewrite !orb_false_r in H. exact H.
Qed.

Lemma cell_in_insert_sorted (x c : cell) (l r : list cell) :
  Parser.insert_sorted c l = Ok r -> cell_in x r = cell_eqb x c || cell_in x l.
Proof.
  unfold cell_in. revert r. induction l as [| y l IH]; intros r H; cbn [Parser.insert_sorted] in H.
  - injection H as <-. reflexivity.
  - destruct (Parser.cell_ltb y c) as [[|] | e]; cbn [bind] in H; try discriminate H.
    + destruct (Parser.insert_sorted c l) as [r' | e]; cbn [bind] in H; [| discriminate H].
      injection H as <-. cbn [existsb]. rewrite (IH r' eq_refl).
      destruct (cell_eqb x y), (cell_eqb x c); reflexivity.
    + injection H as <-. reflexivity.
Qed.

(** [sorted] keeps the members of a list. *)
Lemma cell_in_sorted (x : cell) (l r : list cell) :
  Parser.py_sorted l = Ok r -> cell_in x r = cell_in x l.
Proof.
  revert r. induction l as [| c l IH]; intros r H; cbn [Parser.py_sorted] in H.
  - injection H as <-. reflexivity.
  - destruct (Parser.py_sorted l) as [s | e]; cbn [bind] in H; [| discriminate H].
    rewrite (cell_in_insert_sorted x c s r H), (IH s eq_refl). reflexivity.
Qed.

(** The periods [_extract_metadata] lists are the periods of the logistics
    table. *)
Lemma extract_metadata_periods (st st' : Parser.state) (df : DataFrame) :
  Parser._extract_metadata st = (st', Ok tt) ->
  dict_get (Parser.data st) "Logistics" = Some df ->
  exists col,
    getcol df "TIME PERIOD" = Ok col
    /\ forall x, cell_in x (Parser.meta_list (Parser.metadata st') "periods") = cell_in x col.
Proof.
  intros H Hdf.
  destruct (extract_metadata_steps st st' H)
    as (s1 & s2 & s3 & s5 & _ & _ & H3 & Hp5 & _ & _ & Hfilter).
  destruct (filter_sources_spec s5 st' Hfilter) as (_ & _ & Hp & _).
  unfold Parser.extract_periods in H3. rewrite Hdf in H3.
  apply bindM_ok in H3. destruct H3 as (s & col & Hcol & H3).
  unfold Parser.lift in Hcol. injection Hcol as E1 E2. subst s.
  apply bindM_ok in H3. destruct H3 as (s & periods & Hsorted & H3).
  unfold Parser.lift in Hsorted. injection Hsorted as E3 E4. subst s.
  unfold Parser.put_meta, Parser.set_metadata in H3. injection H3 as <-.
  exists col. split; [exact E2 |].
  intros x. unfold Parser.meta_list. rewrite Hp, Hp5. cbn [Parser.metadata].
  rewrite dict_get_set. cbn -[cell_in unique].
  rewrite (cell_in_sorted x _ _ E4). apply cell_in_unique.
Qed.

Lemma dict_mem_get {A : Type} (d : dict A) (k : string) :
  dict_mem d k = true -> exists v, dict_get d k = Some v.
Proof.
  unfold dict_mem. destruct (dict_get d k) as [v |]; [| discriminate].
  intros _. exists v. reflexivity.
Qed.

(** ** The numeric columns of the calculator *)

Section Coerced.

Variable to_numeric : string -> option Q.

Lemma coerce_cell_no_text (c : cell) (s : string) : coerce_cell to_numeric c <> CStr s.
Proof.
  destruct c as [q | t |]; cbn; try discriminate.
  destruct (to_numeric t); discriminate.
Qed.

Lemma update_at_cases {A : Type} (d : A) (f : A -> A) (i j : nat) (l : list A) :
  nth i (update_at j f l) d = nth i l d \/ nth i (update_at j f l) d = f (nth i l d).
Proof.
  revert i j. induction l as [| x l IH]; intros i j.
  - destruct j; left; reflexivity.
  - destruct j as [| j], i as [| i]; cbn; auto.
Qed.

Lemma update_at_same {A : Type} (d : A) (f : A -> A) (i : nat) (l : list A) :
  nth i (update_at i f l) d = f (nth i l d) \/ nth i (update_at i f l) d = d.
Proof.
  revert i. induction l as [| x l IH]; intros i.
  - right. destruct i; reflexivity.
  - destruct i as [| i]; cbn; auto.
Qed.

Lemma coerce_column_columns (df : DataFrame) (col : string) :
  columns (coerce_column to_numeric df col) = columns df.
Proof.
  unfold coerce_column. destruct (index_of col (columns df)); reflexivity.
Qed.

Lemma coerce_columns_columns (cols : list string) (df : DataFrame) :
  columns (fold_left (coerce_column to_numeric) cols df) = columns df.
Proof.
  revert df. induction cols as [| c cols IH]; intros df; cbn [fold_left]; [reflexivity |].
  rewrite IH. apply coerce_column_columns.
Qed.

(** No row of [df] holds a text at place [i]. *)
Lemma coerce_column_keeps (df : DataFrame) (col : string) (i : nat) :
  (forall r s, In r (rows df) -> cell_at i r <> CStr s) ->
  forall r s, In r (rows (coerce_column to_numeric df col)) -> cell_at i r <> CStr s.
Proof.
  intros H r s. unfold coerce_column.
  destruct (index_of col (columns df)) as [j |]; [| apply H].
  cbn [rows]. intros Hr. apply in_map_iff in Hr. destruct Hr as (r0 & <- & Hr0).
  unfold cell_at. destruct (update_at_cases CNaN (coerce_cell to_numeric) i j r0) as [E | E];
    rewrite E; [apply (H r0 s Hr0) | apply coerce_cell_no_text].
Qed.

Lemma coerce_column_makes (df : DataFrame) (col : string) (i : nat) :
  index_of col (columns df) = Some i ->
  forall r s, In r (rows (coerce_column to_numeric df col)) -> cell_at i r <> CStr s.
Proof.
  intros Hi r s. unfold coerce_column. rewrite Hi. cbn [rows]. intros Hr.
  apply in_map_iff in Hr. destruct Hr as (r0 & <- & Hr0).
  unfold cell_at. destruct (update_at_same CNaN (coerce_cell to_numeric) i r0) as [E | E];
    rewrite E; [apply coerce_cell_no_text | discriminate].
Qed.

Lemma coerce_columns_keep (cols : list string) (df : DataFrame) (i : nat) :
  (forall r s, In r (rows df) -> cell_at i r <> CStr s) ->
  forall r s, In r (rows (fold_left (coerce_column to_numeric) cols df)) ->
              cell_at i r <> CStr s.
Proof.
  revert df. induction cols as [| c cols IH]; intros df H; cbn [fold_left]; [exact H |].
  apply IH, coerce_column_keeps, H.
Qed.

Lemma coerce_columns_make (cols : list string) (df : DataFrame) (col : string) (i : nat) :
  In col cols -> index_of col (columns df) = Some i ->
  forall r s, In r (rows (fold_left (coerce_column to_numeric) cols df)) ->
              cell_at i r <> CStr s.
Proof.
  revert df. induction cols as [| c cols IH]; intros df Hin Hi; [destruct Hin |].
  cbn [fold_left]. destruct (string_dec c col) as [-> | Hne].
  - apply coerce_columns_keep, coerce_column_makes, Hi.
  - destruct Hin as [Hin | Hin]; [contradiction |].
    apply IH; [exact Hin |]. rewrite coerce_column_columns. exact Hi.
Qed.

Lemma dict_get_none {A : Type} (d : dict A) (k : string) :
  ~ In k (dict_keys d) -> dict_get d k = None.
Proof.
  unfold dict_keys. induction d as [| [k0 v0] d IH]; cbn; intros H; [reflexivity |].
  destruct (String.eqb_spec k k0) as [-> | Hne]; [exfalso; auto |].
  apply IH. intros Hin. apply H. right. exact Hin.
Qed.

(** The loop of [_ensure_numeric_columns] over a mapping with distinct
    sheets: each table met is coerced once, by its own columns. *)
Lemma ensure_numeric_fold (mappings : dict (list string)) (d : dict DataFrame) (sheet : string) :
  NoDup (dict_keys mappings) ->
  dict_get
    (fold_left
       (fun d '(sheet, cols) =>
          match dict_get d sheet with
          | Some df => dict_set d sheet (fold_left (coerce_column to_numeric) cols df)
          | None => d
          end)
       mappings d) sheet
  = match dict_get mappings sheet with
    | Some cols => option_map (fold_left (coerce_column to_numeric) cols) (dict_get d sheet)
    | None => dict_get d sheet
    end.
Proof.
  revert d. induction mappings as [| [k cols] mappings IH]; intros d Hnodup;
    cbn [fold_left dict_get]; [reflexivity |].
  cbn [dict_keys map fst] in Hnodup. apply NoDup_cons_iff in Hnodup.
  destruct Hnodup as [Hk Hnodup]. rewrite (IH _ Hnodup).
  destruct (String.eqb_spec sheet k) as [-> | Hne].
  - rewrite (dict_get_none mappings k Hk).
    destruct (dict_get d k) as [df |] eqn:Hdf; cbn [option_map].
    + rewrite dict_get_set, String.eqb_refl. reflexivity.
    + exact Hdf.
  - assert (Hsame : dict_get
                      match dict_get d k with
                      | Some df => dict_set d k (fold_left (coerce_column to_numeric) cols df)
                      | None => d
                      end sheet = dict_get d sheet).
    { destruct (dict_get d k); [| reflexivity].
      rewrite dict_get_set. apply String.eqb_neq in Hne. rewrite Hne. reflexivity. }
    rewrite Hsame. reflexivity.
Qed.

Lemma numeric_mappings_distinct : NoDup (dict_keys numeric_mappings).
Proof.
  unfold numeric_mappings, dict_keys. cbn [map fst].
  repeat (apply NoDup_cons; [cbn [In]; intros H; repeat destruct H as [H | H];
                             try discriminate H; exact H |]).
  apply NoDup_nil.
Qed.

Lemma ensure_numeric_get (d : dict DataFrame) (sheet : string) :
  dict_get (_ensure_numeric_columns to_numeric d) sheet
  = match dict_get numeric_mappings sheet with
    | Some cols => option_map (fold_left (coerce_column to_numeric) cols) (dict_get d sheet)
    | None => dict_get d sheet
    end.
Proof.
  unfold _ensure_numeric_columns. apply ensure_numeric_fold, numeric_mappings_distinct.
Qed.

(** X13. The numeric columns hold no text. After [_ensure_numeric_columns],
    a column that the mapping lists for its table holds numbers and NaN
    only, in every table the calculator keeps; the tables keep their names
    of columns, and a table the mapping does not list is kept as it is. *)
Theorem numeric_columns_hold_no_text (d : dict DataFrame) (sheet : string) :
  (forall cols col df cells,
      dict_get numeric_mappings sheet = Some cols -> In col cols ->
      dict_get (_ensure_numeric_columns to_numeric d) sheet = Some df ->
      getcol df col = Ok cells ->
      forall c s, In c cells -> c <> CStr s)
  /\ (forall df, dict_get (_ensure_numeric_columns to_numeric d) sheet = Some df ->
                 exists df0, dict_get d sheet = Some df0 /\ columns df = columns df0)
  /\ (dict_get numeric_mappings sheet = None ->
      dict_get (_ensure_numeric_columns to_numeric d) sheet = dict_get d sheet).
Proof.
  rewrite ensure_numeric_get. repeat split.
  - intros cols col df cells Hcols Hcol Hdf Hcells c s Hc.
    rewrite Hcols in Hdf. destruct (dict_get d sheet) as [df0 |]; [| discriminate Hdf].
    cbn [option_map] in Hdf. injection Hdf as <-.
    unfold getcol in Hcells. rewrite coerce_columns_columns in Hcells.
    destruct (index_of col (columns df0)) as [i |] eqn:Hi; [| discriminate Hcells].
    injection Hcells as <-. apply in_map_iff in Hc. destruct Hc as (r & <- & Hr).
    apply (coerce_columns_make cols df0 col i Hcol Hi r s Hr).
  - intros df Hdf. destruct (dict_get numeric_mappings sheet) as [cols |].
    + destruct (dict_get d sheet) as [df0 |]; [| discriminate Hdf].
      cbn [option_map] in Hdf. injection Hdf as <-.
      exists df0. split; [reflexivity | apply coerce_columns_columns].
    + exists df. split; [exact Hdf | reflexivity].
  - intros H. rewrite H. reflexivity.
Qed.

End Coerced.

(** ** A load that succeeds, seen from the calculator *)

Lemma load_from_excel_tables (st : Parser.state) (book : Parser.workbook) :
  Parser.success (snd (Parser.load_from_excel st book)) = true ->
  Parser.data (fst (Parser.load_from_excel st book))
  = Parser.scan_data (Parser.scan_workbook book)
  /\ Parser.is_loaded (fst (Parser.load_from_excel st book)) = true.
Proof.
  intros Hsuccess.
  destruct (load_from_excel_succeeded st book Hsuccess) as (_ & Hextract & _).
  pose proof (keeps_extract_metadata
                (Parser.mkState (Parser.scan_data (Parser.scan_workbook book)) [] true []))
    as (Hdata & Hloaded & _).
  revert Hextract Hdata Hloaded.
  generalize (Parser.scan_workbook book). generalize (Parser.load_from_excel st book).
  intros [st' answer] sc Hextract Hdata Hloaded. cbn [fst] in *.
  rewrite Hextract in Hdata, Hloaded. split; assumption.
Qed.

(** X14. What the calculator holds after an upload that succeeds. The
    calculator is loaded and holds the very tables of the parser; each of
    them is a sheet of the workbook, with its names of columns stripped and
    its numeric columns coerced, and every required sheet is among them. *)
Theorem upload_gives_calculator_the_sheets
        (to_numeric : string -> option Q) (st : Api.state) (book : Parser.workbook) :
  Parser.success (snd (Api.upload_file to_numeric st book)) = true ->
  let st' := fst (Api.upload_file to_numeric st book) in
  Optimizer.is_loaded (Api.optimizer st') = true
  /\ Parser.data (Api.parser st') = Optimizer.data (Api.optimizer st')
  /\ (forall name df,
         dict_get (Optimizer.data (Api.optimizer st')) name = Some df ->
         exists df0, Spec.stored_from book name df0 /\ columns df = columns df0)
  /\ (forall name, In name (dict_keys Parser.required_sheets) ->
                   dict_mem (Optimizer.data (Api.optimizer st')) name = true).
Proof.
  cbv zeta. unfold Api.upload_file.
  pose proof (load_from_excel_tables (Api.parser st) book) as Htables.
  pose proof (load_from_excel_success (Api.parser st) book) as Herr.
  pose proof (scan_workbook_stored book) as Hstored.
  pose proof (scan_workbook_complete book) as Hcomplete.
  revert Htables Herr Hstored Hcomplete.
  generalize (Parser.scan_workbook book).
  generalize (Parser.load_from_excel (Api.parser st) book).
  intros [p answer] sc Htables Herr Hstored Hcomplete. cbn [fst snd] in *.
  intros Hsuccess. rewrite Hsuccess.
  destruct (Htables Hsuccess) as [Hdata Hloaded]. specialize (Herr Hsuccess).
  unfold Api.share_data, Optimizer.load_data.
  cbn [fst Api.parser Api.optimizer Parser.data Optimizer.data Optimizer.is_loaded].
  rewrite Hdata. repeat split.
  - intros name df Hdf. rewrite ensure_numeric_get in Hdf.
    destruct (dict_get (Parser.scan_data sc) name) as [df0 |] eqn:Hdf0.
    + exists df0. split; [apply (Hstored name df0 Hdf0) |].
      destruct (dict_get numeric_mappings name) as [cols |]; cbn [option_map] in Hdf;
        injection Hdf as <-; [apply coerce_columns_columns | reflexivity].
    + destruct (dict_get numeric_mappings name); discriminate Hdf.
  - intros name Hname. unfold dict_keys in Hname. apply in_map_iff in Hname.
    destruct Hname as ([n config] & <- & Hin). cbn [fst].
    unfold Parser.required_sheets in Hin. apply filter_In in Hin.
    destruct Hin as [Hin Hreq].
    pose proof (Hcomplete n config Herr Hin Hreq) as Hmem.
    unfold dict_mem in *. rewrite ensure_numeric_get.
    destruct (dict_get (Parser.scan_data sc) n); [| discriminate Hmem].
    destruct (dict_get numeric_mappings n); reflexivity.
Qed.

Lemma upload_gives_calculator_the_sheets_witness :
  Optimizer.is_loaded
    (Api.optimizer (fst (Api.upload_file Examples.no_number Api.init Examples.book))) = true
  /\ Parser.data (Api.parser (fst (Api.upload_file Examples.no_number Api.init Examples.book)))
     = Optimizer.data
         (Api.optimizer (fst (Api.upload_file Examples.no_number Api.init Examples.book))).
Proof.
  destruct (upload_gives_calculator_the_sheets Examples.no_number Api.init Examples.book)
    as (H1 & H2 & _).
  - vm_compute. reflexivity.
  - split; [exact H1 | exact H2].
Defined.

(** ** A load from a folder does not check the columns *)

(** When [_extract_metadata] raises nothing, the logistics table has the
    columns the metadata are read from. *)
Lemma extract_metadata_columns (st st' : Parser.state) (df : DataFrame) (col : string) :
  Parser._extract_metadata st = (st', Ok tt) ->
  dict_get (Parser.data st) "Logistics" = Some df ->
  In col ["FROM IU CODE"; "TO IUGU CODE"; "TRANSPORT CODE"; "TIME PERIOD"] ->
  has_column df col = true.
Proof.
  intros H Hdf Hcol.
  destruct (extract_metadata_steps st st' H)
    as (s1 & s2 & s3 & s5 & _ & H2 & H3 & _).
  unfold Parser.extract_logistics in H2. rewrite Hdf in H2.
  unfold Parser.extract_periods in H3. rewrite Hdf in H3.
  apply bindM_ok in H2. destruct H2 as (a1 & sources & Hsources & H2).
  apply bindM_ok in H2. destruct H2 as (a2 & dests & Hdests & H2).
  apply bindM_ok in H2. destruct H2 as (a3 & [] & _ & H2).
  apply bindM_ok in H2. destruct H2 as (a4 & modes & Hmodes & _).
  apply bindM_ok in H3. destruct H3 as (a5 & periods & Hperiods & _).
  unfold Parser.lift in *.
  assert (Hgetcol : forall c (a b : Parser.state) l,
             (a, getcol df c) = (b, Ok l) -> has_column df c = true).
  { intros c a b l E. apply has_column_index. unfold getcol in E.
    destruct (index_of c (columns df)) as [i |]; [exists i; reflexivity | discriminate E]. }
  cbn [In] in Hcol. destruct Hcol as [<- | [<- | [<- | [<- | []]]]]; eauto.
Qed.

(** X15. A load from a folder does not check the columns. When every
    required file is read but the logistics table lacks one of the columns
    the metadata are read from, the load reports no error: it raises, and
    leaves the parser marked as loaded, with the tables that were read. *)
Theorem folder_load_raises_on_missing_column
        (st : Parser.state) (dir : Parser.folder) (df : DataFrame) (col : string) :
  snd (Parser.read_folder dir) = [] ->
  dict_get (fst (Parser.read_folder dir)) "Logistics" = Some df ->
  In col ["FROM IU CODE"; "TO IUGU CODE"; "TRANSPORT CODE"; "TIME PERIOD"] ->
  has_column df col = false ->
  (exists e, snd (Parser.load_from_folder st dir) = Raise e)
  /\ Parser.is_loaded (fst (Parser.load_from_folder st dir)) = true
  /\ Parser.data (fst (Parser.load_from_folder st dir)) = fst (Parser.read_folder dir).
Proof.
  unfold Parser.load_from_folder.
  destruct (Parser.read_folder dir) as [d errs]. cbn [fst snd].
  intros -> Hdf Hcol Hmissing.
  pose proof (keeps_extract_metadata (Parser.mkState d [] true [])) as (Hdata & Hloaded & _).
  pose proof (extract_metadata_columns (Parser.mkState d [] true [])) as Hcolumns.
  destruct (Parser._extract_metadata (Parser.mkState d [] true [])) as [st1 [[] | e]];
    cbn [fst snd Parser.data Parser.is_loaded] in *.
  - rewrite (Hcolumns st1 df col eq_refl Hdf Hcol) in Hmissing. discriminate Hmissing.
  - split; [exists e; reflexivity | split; assumption].
Qed.

Lemma folder_load_raises_on_missing_column_witness :
  (exists e, snd (Parser.load_from_folder Parser.init Examples.folder_no_period) = Raise e)
  /\ Parser.is_loaded (fst (Parser.load_from_folder Parser.init Examples.folder_no_period))
     = true
  /\ Parser.data (fst (Parser.load_from_folder Parser.init Examples.folder_no_period))
     = fst (Parser.read_folder Examples.folder_no_period).
Proof.
  apply (folder_load_raises_on_missing_column Parser.init Examples.folder_no_period
           (mkDataFrame ["FROM IU CODE"; "TO IUGU CODE"; "TRANSPORT CODE"; "FREIGHT COST"]
              [[Examples.txt "IU1"; Examples.txt "GU1"; Examples.txt "T1"; Examples.num 100]])
           "TIME PERIOD").
  - vm_compute. reflexivity.
  - vm_compute. reflexivity.
  - cbn. auto.
  - vm_compute. reflexivity.
Defined.

(** ** Naming a table *)

Lemma ascii_lower_upper (c : ascii) : ascii_lower (ascii_upper c) = ascii_lower c.
Proof.
  destruct c as [[] [] [] [] [] [] [] []]; vm_compute; reflexivity.
Qed.

Lemma lower_upper (s : string) : lower (upper s) = lower s.
Proof.
  induction s as [| c s IH]; cbn [upper lower]; [reflexivity |].
  rewrite ascii_lower_upper, IH. reflexivity.
Qed.

Lemma existsb_same_members {A : Type} (f : A -> bool) (l l' : list A) :
  (forall x, In x l <-> In x l') -> existsb f l = existsb f l'.
Proof.
  intros H. destruct (existsb f l) eqn:E.
  - apply existsb_exists in E. destruct E as (x & Hx & Hf).
    symmetry. apply existsb_exists. exists x. split; [apply H, Hx | exact Hf].
  - destruct (existsb f l') eqn:E'; [| reflexivity].
    apply existsb_exists in E'. destruct E' as (x & Hx & Hf).
    rewrite <- E. apply existsb_exists. exists x. split; [apply H, Hx | exact Hf].
Qed.

(** X17. Naming a table by its columns. [_detect_sheet_from_columns] looks
    only at the set of the names of the columns in upper case; it gives a
    table that has the columns of a sheet of the schema, and no other, this
    sheet, except for the sheet of the hub stocks, which it never
    answers. *)
Theorem detection_agrees_with_schema :
  (forall df df',
      (forall c, In c (map upper (columns df)) <-> In c (map upper (columns df'))) ->
      Parser._detect_sheet_from_columns df = Parser._detect_sheet_from_columns df')
  /\ (forall sheet config df,
         In (sheet, config) Parser.SHEET_CONFIG -> sheet <> "HubOpeningStock" ->
         columns df = Parser.config_columns config ->
         Parser._detect_sheet_from_columns df = Some sheet)
  /\ (forall df sheet,
         Parser._detect_sheet_from_columns df = Some sheet ->
         dict_mem Parser.SHEET_CONFIG sheet = true /\ sheet <> "HubOpeningStock").
Proof.
  repeat split.
  - intros df df' H. unfold Parser._detect_sheet_from_columns. cbv zeta.
    rewrite !(fun c => existsb_same_members (String.eqb c) _ _ H). reflexivity.
  - intros sheet config df H Hhub Hcolumns.
    unfold Parser._detect_sheet_from_columns. rewrite Hcolumns.
    unfold Parser.SHEET_CONFIG in H. cbn [In] in H.
    repeat (destruct H as [H | H];
            [injection H as <- <-; first [vm_compute; reflexivity | contradiction] |]).
    destruct H.
  - revert H. unfold Parser._detect_sheet_from_columns. cbv zeta.
    repeat match goal with
           | |- context [if ?b then _ else _] => destruct b
           end;
      intros H; try discriminate H; injection H as <-; vm_compute; reflexivity.
  - revert H. unfold Parser._detect_sheet_from_columns. cbv zeta.
    repeat match goal with
           | |- context [if ?b then _ else _] => destruct b
           end;
      intros H; try discriminate H; injection H as <-; discriminate.
Qed.

(** ** The modes of a route *)

Lemma code_detail_of (mode : cell) : Api.code (Api.detail_of mode) = mode.
Proof.
  unfold Api.detail_of. destruct (Api.transport_info_of mode); reflexivity.
Qed.

Lemma codes_of_details (modes : list cell) : map Api.code (map Api.detail_of modes) = modes.
Proof.
  induction modes as [| m modes IH]; cbn [map]; [reflexivity |].
  rewrite code_detail_of, IH. reflexivity.
Qed.

(** A text in the mode column of a logistics row of the pair is a mode of
    the route. *)
Lemma get_modes_complete (st : Parser.state) (source destination : cell) (modes : list cell)
      (logistics : DataFrame) (r : row) (m : string) :
  Parser.is_loaded st = true ->
  Parser.get_modes_for_route st source destination = Ok modes ->
  dict_get (Parser.data st) "Logistics" = Some logistics ->
  In r (rows logistics) ->
  Spec.pair_row logistics source destination r = true ->
  Spec.field logistics "TRANSPORT CODE" r = Some (CStr m) ->
  In (CStr m) modes.
Proof.
  intros Hloaded H Hlog Hr Hpair Hmode.
  unfold Parser.get_modes_for_route in H. rewrite Hloaded, Hlog in H. cbn [negb] in H.
  destruct (has_column logistics "FROM IU CODE") eqn:Hfrom.
  2:{ rewrite (mask_eq_raise _ _ _ Hfrom) in H. discriminate H. }
  rewrite (mask_eq_field _ _ _ Hfrom) in H. cbn [bind] in H.
  destruct (has_column logistics "TO IUGU CODE") eqn:Hto.
  2:{ rewrite (mask_eq_raise _ _ _ Hto) in H. discriminate H. }
  rewrite (mask_eq_field _ _ _ Hto) in H. cbn [bind] in H. rewrite mask_and_map in H.
  destruct (getcol _ "TRANSPORT CODE") as [col | e] eqn:Hcol; cbn [bind] in H;
    [| discriminate H].
  injection H as <-. apply unique_text.
  apply (getcol_select_member logistics _ _ _ r _ Hcol Hr Hpair Hmode).
Qed.

(** X18. The modes the interface lists for a route. When
    [get_transport_modes] answers a list of modes, a code is in the list
    exactly when some logistics row of the pair has it as its transport
    code. *)
Theorem modes_listed (st : Api.state) (s d : string) (details : list Api.mode_detail)
        (m : string) :
  Api.get_transport_modes st s d = Ok (Api.ModesOk details) ->
  (In (CStr m) (map Api.code details)
   <-> exists logistics r,
         dict_get (Parser.data (Api.parser st)) "Logistics" = Some logistics
         /\ In r (rows logistics)
         /\ Spec.pair_row logistics (CStr s) (CStr d) r = true
         /\ Spec.field logistics "TRANSPORT CODE" r = Some (CStr m)).
Proof.
  unfold Api.get_transport_modes.
  destruct (Parser.is_loaded (Api.parser st)) eqn:Hloaded; cbn [negb]; [| discriminate].
  destruct (Parser.validate_selection _ _ _ _ _) as [v | e]; cbn [bind]; [| discriminate].
  destruct (negb (Parser.valid v)); [discriminate |].
  destruct (Parser.get_modes_for_route _ _ _) as [modes | e] eqn:Hmodes; cbn [bind];
    [| discriminate].
  intros H. injection H as <-. rewrite codes_of_details. split.
  - apply (get_modes_sound _ _ _ _ Hmodes).
  - intros (logistics & r & Hlog & Hr & Hpair & Hmode).
    apply (get_modes_complete _ _ _ _ logistics r m Hloaded Hmodes Hlog Hr Hpair Hmode).
Qed.

Lemma modes_listed_witness :
  In (CStr "T1") (map Api.code [Api.detail_of (CStr "T1"); Api.detail_of (CStr "T3")])
  <-> exists logistics r,
        dict_get (Parser.data (Api.parser Examples.loaded)) "Logistics" = Some logistics
        /\ In r (rows logistics)
        /\ Spec.pair_row logistics (CStr "IU1") (CStr "GU1") r = true
        /\ Spec.field logistics "TRANSPORT CODE" r = Some (CStr "T1").
Proof.
  apply (modes_listed Examples.loaded "IU1" "GU1"
           [Api.detail_of (CStr "T1"); Api.detail_of (CStr "T3")] "T1").
  vm_compute. reflexivity.
Defined.

(** ** After the upload: the tables the queries read *)

Section AfterUpload.

Variable to_numeric : string -> option Q.

Lemma update_at_fixed {A : Type} (d : A) (f : A -> A) (i : nat) (l : list A) :
  f (nth i l d) = nth i l d -> update_at i f l = l.
Proof.
  revert i. induction l as [| x l IH]; intros i H.
  - destruct i; reflexivity.
  - destruct i as [| i]; cbn in *; [rewrite H | rewrite (IH i H)]; reflexivity.
Qed.

Lemma coerce_cell_number (c : cell) :
  Spec.is_text c = false -> coerce_cell to_numeric c = c.
Proof.
  destruct c; cbn; [reflexivity | discriminate | reflexivity].
Qed.

Lemma coerce_column_fixed (df : DataFrame) (col : string) :
  Spec.column_without_text df col = true -> coerce_column to_numeric df col = df.
Proof.
  unfold Spec.column_without_text, coerce_column, getcol.
  destruct (index_of col (columns df)) as [i |]; [| reflexivity].
  intros H. destruct df as [cols rs]. cbn [columns rows] in *. f_equal.
  induction rs as [| r rs IH]; [reflexivity |].
  cbn [map forallb] in *. apply andb_true_iff in H. destruct H as [Hr Hrs].
  rewrite (IH Hrs).
  rewrite (update_at_fixed CNaN (coerce_cell to_numeric) i r); [reflexivity |].
  apply coerce_cell_number.
  apply negb_true_iff. exact Hr.
Qed.

Lemma coerce_columns_fixed (cols : list string) (df : DataFrame) :
  forallb (Spec.column_without_text df) cols = true ->
  fold_left (coerce_column to_numeric) cols df = df.
Proof.
  induction cols as [| c cols IH]; [reflexivity |].
  cbn [forallb fold_left]. intros H. apply andb_true_iff in H. destruct H as [Hc Hcols].
  rewrite (coerce_column_fixed df c Hc). apply IH, Hcols.
Qed.

Lemma dict_set_same {A : Type} (d : dict A) (k : string) (v : A) :
  dict_get d k = Some v -> dict_set d k v = d.
Proof.
  induction d as [| [k0 v0] d IH]; cbn; [discriminate |].
  destruct (String.eqb k k0); intros H.
  - injection H as ->. reflexivity.
  - rewrite (IH H). reflexivity.
Qed.

(** When no numeric column holds a text, the coercion of the calculator
    changes nothing. *)
Lemma ensure_numeric_fixed (d : dict DataFrame) :
  Spec.numeric_columns_without_text d = true ->
  _ensure_numeric_columns to_numeric d = d.
Proof.
  unfold Spec.numeric_columns_without_text, _ensure_numeric_columns.
  induction numeric_mappings as [| [sheet cols] mappings IH]; [reflexivity |].
  cbn [forallb fold_left]. intros H. apply andb_true_iff in H. destruct H as [Hsheet Hrest].
  destruct (dict_get d sheet) as [df |] eqn:Hdf; [| apply IH, Hrest].
  rewrite (coerce_columns_fixed cols df Hsheet), (dict_set_same d sheet df Hdf).
  apply IH, Hrest.
Qed.

(** An upload that succeeds and finds no text in a numeric column leaves
    the parser as its own load left it. *)
Lemma upload_keeps_parser (st : Api.state) (book : Parser.workbook) :
  Parser.success (snd (Api.upload_file to_numeric st book)) = true ->
  Spec.numeric_columns_without_text
    (Parser.data (fst (Parser.load_from_excel (Api.parser st) book))) = true ->
  Parser.success (snd (Parser.load_from_excel (Api.parser st) book)) = true
  /\ Api.parser (fst (Api.upload_file to_numeric st book))
     = fst (Parser.load_from_excel (Api.parser st) book).
Proof.
  unfold Api.upload_file.
  generalize (Parser.load_from_excel (Api.parser st) book). intros [p answer].
  cbn [fst snd]. intros Hsuccess Hnumbers. rewrite Hsuccess.
  split; [reflexivity |].
  unfold Api.share_data, Optimizer.load_data.
  cbn [fst Api.parser Optimizer.data].
  rewrite (ensure_numeric_fixed _ Hnumbers). destruct p; reflexivity.
Qed.

(** X9. Every listed source has a destination. When a load from a workbook
    succeeds, [get_destinations_for_source] answers a list that is not empty
    for every source of the list of sources, on the state the load of the
    parser returns; and on the state the upload leaves, once the calculator
    has coerced the tables they share, when no numeric column of the tables
    holds a text. *)
Theorem listed_sources_have_destinations (st : Api.state) (book : Parser.workbook) :
  Parser.success (snd (Api.upload_file to_numeric st book)) = true ->
  let loaded := fst (Parser.load_from_excel (Api.parser st) book) in
  let uploaded := Api.parser (fst (Api.upload_file to_numeric st book)) in
  (forall s, In s (Parser.meta_list (Parser.metadata loaded) "source_ius") ->
             exists d ds, Parser.get_destinations_for_source loaded s = Ok (d :: ds))
  /\ (Spec.numeric_columns_without_text (Parser.data loaded) = true ->
      forall s, In s (Parser.meta_list (Parser.metadata uploaded) "source_ius") ->
                exists d ds, Parser.get_destinations_for_source uploaded s = Ok (d :: ds)).
Proof.
  intros Hupload. cbv zeta.
  assert (Hsuccess : Parser.success (snd (Parser.load_from_excel (Api.parser st) book))
                     = true).
  { revert Hupload. unfold Api.upload_file.
    generalize (Parser.load_from_excel (Api.parser st) book). intros [p answer].
    cbn [snd]. trivial. }
  destruct (load_from_excel_succeeded (Api.parser st) book Hsuccess) as (_ & Hextract & _).
  split.
  - intros s Hs. apply (extract_metadata_sources _ _ Hextract s Hs).
  - intros Hnumbers. destruct (upload_keeps_parser st book Hupload Hnumbers) as [_ ->].
    intros s Hs. apply (extract_metadata_sources _ _ Hextract s Hs).
Qed.

(** X12. The known periods. When a load from a workbook succeeds, the
    parser holds a logistics table with a column of periods, and a value is
    among the periods of the metadata, the ones [validate_selection] checks
    a period against, exactly when it is in that column: on the state the
    load of the parser returns; and on the state the upload leaves, when no
    numeric column of the tables holds a text. *)
Theorem known_periods_of_logistics (st : Api.state) (book : Parser.workbook) :
  Parser.success (snd (Api.upload_file to_numeric st book)) = true ->
  let loaded := fst (Parser.load_from_excel (Api.parser st) book) in
  let uploaded := Api.parser (fst (Api.upload_file to_numeric st book)) in
  (exists df col,
      dict_get (Parser.data loaded) "Logistics" = Some df
      /\ getcol df "TIME PERIOD" = Ok col
      /\ forall x, cell_in x (Parser.meta_list (Parser.metadata loaded) "periods")
                   = cell_in x col)
  /\ (Spec.numeric_columns_without_text (Parser.data loaded) = true ->
      exists df col,
        dict_get (Parser.data uploaded) "Logistics" = Some df
        /\ getcol df "TIME PERIOD" = Ok col
        /\ forall x, cell_in x (Parser.meta_list (Parser.metadata uploaded) "periods")
                     = cell_in x col).
Proof.
  intros Hupload. cbv zeta.
  assert (Hsuccess : Parser.success (snd (Parser.load_from_excel (Api.parser st) book))
                     = true).
  { revert Hupload. unfold Api.upload_file.
    generalize (Parser.load_from_excel (Api.parser st) book). intros [p answer].
    cbn [snd]. trivial. }
  assert (Hloaded : exists df col,
             dict_get (Parser.data (fst (Parser.load_from_excel (Api.parser st) book)))
               "Logistics" = Some df
             /\ getcol df "TIME PERIOD" = Ok col
             /\ forall x,
                  cell_in x (Parser.meta_list
                               (Parser.metadata
                                  (fst (Parser.load_from_excel (Api.parser st) book)))
                               "periods")
                  = cell_in x col).
  { destruct (load_from_excel_succeeded (Api.parser st) book Hsuccess)
      as (Herr & Hextract & _).
    assert (Hmem : dict_mem (Parser.scan_data (Parser.scan_workbook book)) "Logistics"
                   = true).
    { destruct (dict_get Parser.SHEET_CONFIG "Logistics") as [config |] eqn:Hconfig;
        [| vm_compute in Hconfig; discriminate Hconfig].
      apply (scan_workbook_complete book "Logistics" config Herr
               (dict_get_In _ _ _ Hconfig)).
      vm_compute in Hconfig. injection Hconfig as <-. reflexivity. }
    apply dict_mem_get in Hmem. destruct Hmem as [df Hdf].
    pose proof (keeps_extract_metadata
                  (Parser.mkState (Parser.scan_data (Parser.scan_workbook book)) [] true []))
      as (Hdata & _ & _).
    revert Hextract Hdata Hdf.
    generalize (Parser.scan_workbook book).
    generalize (Parser.load_from_excel (Api.parser st) book).
    intros [st' answer] sc Hextract Hdata Hdf. cbn [fst] in *.
    rewrite Hextract in Hdata. cbn [fst Parser.data] in Hdata.
    destruct (extract_metadata_periods _ _ df Hextract Hdf) as (col & Hcol & Hperiods).
    exists df, col. rewrite Hdata. repeat split; assumption. }
  split; [exact Hloaded |].
  intros Hnumbers. destruct (upload_keeps_parser st book Hupload Hnumbers) as [_ ->].
  exact Hloaded.
Qed.

End AfterUpload.

Lemma listed_sources_have_destinations_witness :
  exists d ds,
    Parser.get_destinations_for_source (Api.parser Examples.loaded) (CStr "IU1")
    = Ok (d :: ds).
Proof.
  destruct (listed_sources_have_destinations Examples.no_number Api.init Examples.book)
    as [_ H].
  - vm_compute. reflexivity.
  - apply (H ltac:(vm_compute; reflexivity) (CStr "IU1")).
    vm_compute. left. reflexivity.
Defined.

Lemma known_periods_of_logistics_witness :
  exists df col,
    dict_get (Parser.data (Api.parser Examples.loaded)) "Logistics" = Some df
    /\ getcol df "TIME PERIOD" = Ok col
    /\ forall x,
         cell_in x (Parser.meta_list (Parser.metadata (Api.parser Examples.loaded)) "periods")
         = cell_in x col.
Proof.
  destruct (known_periods_of_logistics Examples.no_number Api.init Examples.book)
    as [_ H].
  - vm_compute. reflexivity.
  - apply H. vm_compute. reflexivity.
Defined.

(** ** Naming a table by its file *)

(** X16. Naming a table by its file. [_map_filename_to_sheet] answers only
    sheets of the schema and gives every file of the schema its own sheet;
    on a name of ASCII characters it does not look at the case. *)
Theorem filename_mapping_agrees_with_schema :
  (forall filename sheet,
      Parser._map_filename_to_sheet filename = Some sheet ->
      dict_mem Parser.SHEET_CONFIG sheet = true)
  /\ (forall sheet config,
         In (sheet, config) Parser.SHEET_CONFIG ->
         Parser._map_filename_to_sheet (Parser.file config) = Some sheet)
  /\ (forall filename,
         is_ascii filename = true ->
         Parser._map_filename_to_sheet (upper filename)
         = Parser._map_filename_to_sheet filename).
Proof.
  repeat split.
  - intros filename sheet H. unfold Parser._map_filename_to_sheet in H. cbv zeta in H.
    apply dict_get_In in H. unfold Parser.filename_mappings in H. cbn [In] in H.
    repeat (destruct H as [H | H]; [injection H as _ <-; vm_compute; reflexivity |]).
    destruct H.
  - intros sheet config H. unfold Parser.SHEET_CONFIG in H. cbn [In] in H.
    repeat (destruct H as [H | H]; [injection H as <- <-; vm_compute; reflexivity |]).
    destruct H.
  - intros filename _. unfold Parser._map_filename_to_sheet. rewrite lower_upper.
    reflexivity.
Qed.

(** ** The calculator on Python's numbers *)

Section PythonNumbers.

Import PrimFloat SpecFloat FloatOps Binary64.
Set Warnings "-inexact-float".

Ltac bind_inv H x Hx :=
  apply bind_ok in H; destruct H as (x & Hx & H).



(** The steps of [solve] when it raises nothing. *)
Lemma solve_steps (route : RouteData) (mode : string) (s : Solution) :
  solve route mode = Ok s ->
  exists t t3 t4 t5 source_floor dest_floor,
    vehicle_capacity s = Optimizer.mode_capacity mode
    /\ s_open s = _num (source_opening_stock route)
    /\ d_open s = _num (destination_opening_stock route)
    /\ s_demand s = _num (source_demand route)
    /\ d_demand s = _num (destination_demand route)
    /\ s_close_min s = _num (source_closing_min route)
    /\ d_close_min s = _num (destination_closing_min route)
    /\ num_add (d_close_min s) (d_demand s) = Ok t
    /\ (exists needed, num_sub t (d_open s) = Ok needed
                       /\ required_shipment s = num_max0 needed)
    /\ trips (vehicle_capacity s) (required_shipment s) = Ok (num_trips s, shipment_qty s)
    /\ num_add (s_open s) (production s) = Ok t3
    /\ num_sub t3 (Int (shipment_qty s)) = Ok t4
    /\ num_sub t4 (s_demand s) = Ok (source_ending_inv s)
    /\ num_add (d_open s) (Int (shipment_qty s)) = Ok t5
    /\ num_sub t5 (d_demand s) = Ok (dest_ending_inv s)
    /\ num_sub (Int (shipment_qty s)) (required_shipment s) = Ok (excess_at_dest s)
    /\ num_sub (s_close_min s) (Float 0.01) = Ok source_floor
    /\ num_sub (d_close_min s) (Float 0.01) = Ok dest_floor
    /\ source_ss_satisfied s = num_leb source_floor (source_ending_inv s)
    /\ dest_ss_satisfied s = num_leb dest_floor (dest_ending_inv s)
    /\ is_feasible s
       = source_ss_satisfied s && dest_ss_satisfied s
         && num_eqb (capacity_violation s) (Int 0)
    /\ issues s
       = ((if num_ltb (Int 0) (capacity_violation s)
           then [CapacityShortfall (required_production s) (capacity s)
                   (capacity_violation s)]
           else [])
          ++ (if negb (source_ss_satisfied s)
              then [SourceBelowSafetyStock (source_ending_inv s) (s_close_min s)]
              else [])
          ++ (if negb (dest_ss_satisfied s)
              then [DestinationBelowSafetyStock (dest_ending_inv s) (d_close_min s)]
              else []))%list.
Proof.
  unfold solve. intros H.
  bind_inv H t Ht. bind_inv H needed Hneeded. bind_inv H trip Htrip.
  destruct trip as [n shipment].
  bind_inv H made Hmade. destruct made as [[required produced] violation].
  bind_inv H t3 Ht3. bind_inv H t4 Ht4. bind_inv H ending_s Hending_s.
  bind_inv H t5 Ht5. bind_inv H ending_d Hending_d. bind_inv H excess Hexcess.
  bind_inv H source_floor Hsf. bind_inv H dest_floor Hdf.
  injection H as <-. cbn.
  exists t, t3, t4, t5, source_floor, dest_floor.
  repeat split; try assumption; try reflexivity.
  exists needed. split; [assumption | reflexivity].
Qed.




(** C5, as the code has it. Whenever the calculator returns, the verdict
    is true exactly when the capacity violation it computed equals 0 and
    both floor checks pass, a floor check being the comparison of the
    ending inventory with the float [minimum - 0.01], on the values before
    they are rounded for the result. The issue list holds, in this order, a
    capacity message when the violation is above 0, a source message when
    the source check fails and a destination message when the destination
    check fails, and nothing else. The result gives the verdict and the
    list as they are, the two checks as the flags of the two inventories,
    and the violation rounded to two decimals. *)
Theorem verdict_before_rounding (route : RouteData) (mode : string) (s : Solution) :
  solve route mode = Ok s ->
  exists source_floor dest_floor,
    num_sub (s_close_min s) (Float 0.01) = Ok source_floor
    /\ num_sub (d_close_min s) (Float 0.01) = Ok dest_floor
    /\ (is_feasible s = true
        <-> num_eqb (capacity_violation s) (Int 0) = true
            /\ num_leb source_floor (source_ending_inv s) = true
            /\ num_leb dest_floor (dest_ending_inv s) = true)
    /\ issues s
       = ((if num_ltb (Int 0) (capacity_violation s)
           then [CapacityShortfall (required_production s) (capacity s)
                   (capacity_violation s)]
           else [])
          ++ (if num_leb source_floor (source_ending_inv s) then []
              else [SourceBelowSafetyStock (source_ending_inv s) (s_close_min s)])
          ++ (if num_leb dest_floor (dest_ending_inv s) then []
              else [DestinationBelowSafetyStock (dest_ending_inv s) (d_close_min s)]))%list
    /\ feasibility (report s)
       = mkFeasibility (is_feasible s)
           (if num_ltb (Int 0) (capacity_violation s)
            then num_round (capacity_violation s) 2 else Int 0)
           (issues s)
    /\ I_source_constraint_satisfied (decision_variables (report s))
       = num_leb source_floor (source_ending_inv s)
    /\ I_dest_constraint_satisfied (decision_variables (report s))
       = num_leb dest_floor (dest_ending_inv s).
Proof.
  intros H.
  destruct (solve_steps route mode s H)
    as (t & t3 & t4 & t5 & sf & df & _ & _ & _ & _ & _ & _ & _ & _ & _ & _ & _ & _ & _
        & _ & _ & _ & Hsf & Hdf & Hs & Hd & Hfeasible & Hissues).
  exists sf, df. split; [exact Hsf |]. split; [exact Hdf |].
  split; [| split; [| split; [| split]]].
  - rewrite Hfeasible, Hs, Hd, !andb_true_iff. tauto.
  - rewrite Hissues, Hs, Hd.
    destruct (num_leb sf (source_ending_inv s)), (num_leb df (dest_ending_inv s));
      reflexivity.
  - reflexivity.
  - cbn. exact Hs.
  - cbn. exact Hd.
Qed.

Lemma verdict_before_rounding_witness :
  exists s,
    solve Examples.route_A_floats "T1" = Ok s
    /\ is_feasible s = true
    /\ issues s = [].
Proof.
  destruct (solve Examples.route_A_floats "T1") as [s | e] eqn:E;
    [| vm_compute in E; discriminate E].
  exists s.
  destruct (verdict_before_rounding Examples.route_A_floats "T1" s E)
    as (sf & df & _ & _ & _ & Hissues & _).
  split; [reflexivity |].
  vm_compute in E. injection E as <-. split; reflexivity.
Defined.

(** C5, as the claim states it, fails on the result. An IU source with a
    capacity of 100 and a minimum closing stock of 100.004 is 0.004 short:
    the result gives a capacity violation of 0.0, both floor checks as
    passed, and yet a false verdict and a capacity message. *)
Lemma small_violation_reported_as_zero :
  exists r,
    calculate_milp_solution Examples.route_small_violation "T1" = Ok r
    /\ feas_is_feasible (feasibility r) = false
    /\ num_eqb (feas_capacity_violation (feasibility r)) (Int 0) = true
    /\ I_source_constraint_satisfied (decision_variables r) = true
    /\ I_dest_constraint_satisfied (decision_variables r) = true
    /\ List.length (feas_issues (feasibility r)) = 1%nat.
Proof.
  eexists. split; [vm_compute; reflexivity |].
  repeat split; vm_compute; reflexivity.
Qed.

(** C7, as the code has it. Whenever the calculator returns a result, the
    ending inventory of each node of the mass balance is the value of its
    formula computed on Python's numbers from left to right (exactly on
    integers, rounded to the nearest float at each step otherwise) and then
    rounded to two decimals, next to its terms, which are not rounded. The
    source has no inbound quantity, the destination no production and no
    outbound quantity, and what leaves the source enters the destination. *)
Theorem mass_balance_as_computed (route : RouteData) (mode : string) (r : MilpResult) :
  calculate_milp_solution route mode = Ok r ->
  let src := mass_balance_source r in
  let dst := mass_balance_destination r in
  (exists a b c,
      num_add (I_t_minus_1 src) (P_t src) = Ok a
      /\ num_sub a (outbound src) = Ok b
      /\ num_sub b (D_t src) = Ok c
      /\ I_t src = num_round c 2)
  /\ (exists a c,
         num_add (I_t_minus_1 dst) (inbound dst) = Ok a
         /\ num_sub a (D_t dst) = Ok c
         /\ I_t dst = num_round c 2)
  /\ inbound src = Int 0
  /\ P_t dst = Int 0
  /\ outbound dst = Int 0
  /\ inbound dst = outbound src
  /\ I_source_value (decision_variables r) = I_t src
  /\ I_dest_value (decision_variables r) = I_t dst.
Proof.
  unfold calculate_milp_solution. intros H.
  bind_inv H s Hs. injection H as <-. cbv zeta.
  destruct (solve_steps route mode s Hs)
    as (t & t3 & t4 & t5 & sf & df & _ & _ & _ & _ & _ & _ & _ & _ & _ & _
        & Ht3 & Ht4 & Hsource & Ht5 & Hdest & _).
  cbn. split; [| split; [| repeat split]].
  - exists t3, t4, (source_ending_inv s). repeat split; assumption.
  - exists t5, (dest_ending_inv s). repeat split; assumption.
Qed.

Lemma mass_balance_as_computed_witness :
  exists r,
    calculate_milp_solution Examples.route_A_floats "T1" = Ok r
    /\ inbound (mass_balance_destination r) = outbound (mass_balance_source r)
    /\ outbound (mass_balance_source r) = Int 210.
Proof.
  destruct (calculate_milp_solution Examples.route_A_floats "T1") as [r | e] eqn:E;
    [| vm_compute in E; discriminate E].
  exists r.
  destruct (mass_balance_as_computed Examples.route_A_floats "T1" r E)
    as (_ & _ & _ & _ & _ & Hsame & _).
  split; [reflexivity |]. split; [exact Hsame |].
  vm_compute in E. injection E as <-. reflexivity.
Defined.

(** C7, as the claim states it, fails on the result. A source that opens
    with 0.125 and neither produces, ships nor serves a demand ends with
    0.125; the result gives an ending inventory of 0.12 next to an opening
    stock of 0.125 and terms that are all 0. *)
Lemma rounded_inventory_off_balance :
  exists r,
    calculate_milp_solution Examples.route_eighth "T1" = Ok r
    /\ value_of (I_t_minus_1 (mass_balance_source r)) == 1 # 8
    /\ P_t (mass_balance_source r) = Int 0
    /\ inbound (mass_balance_source r) = Int 0
    /\ outbound (mass_balance_source r) = Int 0
    /\ D_t (mass_balance_source r) = Int 0
    /\ value_of (I_t (mass_balance_source r)) < 1 # 8
    /\ num_eqb (I_t (mass_balance_source r)) (I_t_minus_1 (mass_balance_source r)) = false.
Proof.
  eexists. split; [vm_compute; reflexivity |].
  repeat split; vm_compute; reflexivity.
Qed.

End PythonNumbers.
